(** * The record-to-object transformation engine of the NMDC ETL pipeline

    A shallow embedding of
    [metadata-translation/src/bin/lib/transform_nmdc_data.py]:
    Python values, insertion-ordered dictionaries, exceptions as an
    error result, and the engine's functions in the order of the module. *)

From Stdlib Require Import List String Ascii Bool ZArith Lia PeanoNat DecimalString.
Import ListNotations.
Set Warnings "-register-all".
Local Open Scope string_scope.
Local Open Scope list_scope.

(** ** Exceptions and the error monad *)

Inductive exn : Type :=
| AttributeError
| NameError
| KeyError
| IndexError
| TypeError
| ValueError
| EvalError (src : string).

Inductive result (A : Type) : Type :=
| Ok (a : A)
| Raise (e : exn).
Arguments Ok {A} a.
Arguments Raise {A} e.

Definition bind {A B : Type} (m : result A) (k : A -> result B) : result B :=
  match m with
  | Ok a => k a
  | Raise e => Raise e
  end.

Notation "x <- m ;; k" := (bind m (fun x => k))
  (at level 61, m at next level, right associativity).
Notation "' p <- m ;; k" := (bind m (fun x => let p := x in k))
  (at level 61, p pattern, m at next level, right associativity).

(** [mapM f l]: a list comprehension whose element expression may raise;
    elements are evaluated left to right and the first error aborts. *)
Fixpoint mapM {A B : Type} (f : A -> result B) (l : list A) : result (list B) :=
  match l with
  | [] => Ok []
  | a :: r => b <- f a ;; bs <- mapM f r ;; Ok (b :: bs)
  end.

(** ** Python strings *)

(** The characters [str.strip] and [str.split()] treat as white space
    (ASCII range). *)
Definition is_space (c : ascii) : bool :=
  let n := nat_of_ascii c in
  (Nat.leb 9 n && Nat.leb n 13) || (Nat.leb 28 n && Nat.leb n 32).

Fixpoint lstrip (s : string) : string :=
  match s with
  | EmptyString => EmptyString
  | String c r => if is_space c then lstrip r else s
  end.

Fixpoint rstrip (s : string) : string :=
  match s with
  | EmptyString => EmptyString
  | String c r =>
      match rstrip r with
      | EmptyString => if is_space c then EmptyString else String c EmptyString
      | r' => String c r'
      end
  end.

Definition strip (s : string) : string := rstrip (lstrip s).

Fixpoint rev_string (acc s : string) : string :=
  match s with
  | EmptyString => acc
  | String c r => rev_string (String c acc) r
  end.

(** [split_aux sep skip cur s]: [cur] is the current piece, reversed;
    [skip] counts the characters of a matched separator still to drop. *)
Fixpoint split_aux (sep : string) (skip : nat) (cur : string) (s : string)
  : list string :=
  match s with
  | EmptyString => [rev_string EmptyString cur]
  | String c r =>
      match skip with
      | S k => split_aux sep k cur r
      | O =>
          if prefix sep s
          then rev_string EmptyString cur
                 :: split_aux sep (String.length sep - 1) EmptyString r
          else split_aux sep 0 (String c cur) r
      end
  end.

(** [s.split(sep)] for a string separator; the empty separator is a
    [ValueError]. *)
Definition split (sep s : string) : result (list string) :=
  match sep with
  | EmptyString => Raise ValueError
  | _ => Ok (split_aux sep 0 EmptyString s)
  end.

(** [s.split()] / [s.split(None)]: pieces between runs of white space. *)
Fixpoint split_ws_aux (cur : string) (s : string) : list string :=
  match s with
  | EmptyString =>
      match cur with
      | EmptyString => []
      | _ => [rev_string EmptyString cur]
      end
  | String c r =>
      if is_space c
      then match cur with
           | EmptyString => split_ws_aux EmptyString r
           | _ => rev_string EmptyString cur :: split_ws_aux EmptyString r
           end
      else split_ws_aux (String c cur) r
  end.

Definition split_ws (s : string) : list string := split_ws_aux EmptyString s.

(** [s.split(" ", 1)]: the text before the first blank and, when there
    is a blank, the text after it. *)
Fixpoint split_once_aux (cur : string) (s : string) : string * option string :=
  match s with
  | EmptyString => (rev_string EmptyString cur, None)
  | String c r =>
      if Ascii.eqb c " "%char
      then (rev_string EmptyString cur, Some r)
      else split_once_aux (String c cur) r
  end.

Definition split_once (s : string) : string * option string :=
  split_once_aux EmptyString s.

(** ["," in s] *)
Fixpoint has_comma (s : string) : bool :=
  match s with
  | EmptyString => false
  | String c r => Ascii.eqb c ","%char || has_comma r
  end.

(** ** Python values *)

(** A float is identified by its [repr]; [VNaN] is the float [nan], the
    null of pandas.  [VStr s] is an instance of [str] itself, [VList] of
    [list] and [VDict] of [dict]: the values for which the module's tests
    [type("") == type(x)], [type([]) == type(x)] and [type({}) == type(x)]
    hold.  [VStrSub cls s] is an instance of the subclass [cls] of [str]
    (the identifier types of the schema, such as [StudyId]): it has every
    method of a string and an attribute dictionary of its own, and fails
    the test [type("") == type(x)].  [VObj cls attrs] is an instance of a
    schema class: the one kind of value that has [_as_dict]. *)
Inductive value : Type :=
| VNone
| VNaN
| VBool (b : bool)
| VInt (z : Z)
| VFloat (repr : string)
| VStr (s : string)
| VStrSub (cls : string) (s : string)
| VList (l : list value)
| VDict (d : list (string * value))
| VObj (cls : string) (attrs : list (string * value)).

Definition dict : Type := list (string * value).

(** ** Dictionaries: insertion-ordered, first binding of a key wins *)

(** [dict_find k found missing d]: continuation-passing lookup, so that
    recursive functions on [value] may descend into the entry found. *)
Definition dict_find {V A : Type} (k : string) (found : V -> A) (missing : A)
  : list (string * V) -> A :=
  fix go (d : list (string * V)) : A :=
    match d with
    | [] => missing
    | (k', v) :: r => if String.eqb k' k then found v else go r
    end.

Definition dict_get {V : Type} (k : string) (d : list (string * V)) : option V :=
  dict_find k (fun v => Some v) None d.

Definition dict_has {V : Type} (k : string) (d : list (string * V)) : bool :=
  dict_find k (fun _ => true) false d.

(** [d[k] = v] *)
Fixpoint dict_set {V : Type} (k : string) (v : V) (d : list (string * V))
  : list (string * V) :=
  match d with
  | [] => [(k, v)]
  | (k', v') :: r =>
      if String.eqb k' k then (k', v) :: r else (k', v') :: dict_set k v r
  end.

(** the dictionary left by [d.pop(k)] *)
Fixpoint dict_del {V : Type} (k : string) (d : list (string * V))
  : list (string * V) :=
  match d with
  | [] => []
  | (k', v') :: r => if String.eqb k' k then r else (k', v') :: dict_del k r
  end.

Definition dict_keys {V : Type} (d : list (string * V)) : list string :=
  map fst d.
Definition dict_values {V : Type} (d : list (string * V)) : list V :=
  map snd d.

(** [dict(pairs)] and dictionary comprehensions: later pairs overwrite
    earlier ones, a key keeps the place of its first insertion *)
Definition dict_of_pairs {V : Type} (l : list (string * V)) : list (string * V) :=
  fold_left (fun d kv => dict_set (fst kv) (snd kv) d) l [].

(** ** pandas null tests on scalars, mappings and objects *)

Definition isnull (v : value) : bool :=
  match v with
  | VNone | VNaN => true
  | _ => false
  end.

Definition notnull (v : value) : bool := negb (isnull v).

(** ** pandas null tests on lists *)

(** Of a list, [pds.isnull] and [pds.notnull] return the array
    [np.asarray(l, dtype=object)] of the tests of its elements.
    [array_shape]: the shape numpy finds for the array, one dimension
    for each level down to which all the lists nested at that level have
    the same length. *)
Fixpoint common_prefix (a b : list nat) : list nat :=
  match a, b with
  | x :: a', y :: b' => if Nat.eqb x y then x :: common_prefix a' b' else []
  | _, _ => []
  end.

Fixpoint array_shape (v : value) : list nat :=
  match v with
  | VList l =>
      List.length l ::
      match map array_shape l with
      | [] => []
      | s :: rest => fold_left common_prefix rest s
      end
  | _ => []
  end.

Definition array_size (v : value) : nat := fold_right Nat.mul 1 (array_shape v).

(** the first element of the array *)
Fixpoint first_element (v : value) : value :=
  match v with
  | VList (x :: _) => first_element x
  | _ => v
  end.

(** [bool(pds.notnull(v))], the test of [if pds.notnull(v):].  The truth
    value of an array is that of its element when it has one; numpy
    raises [ValueError] when it has two or more, and takes an empty array
    as false (with a warning; numpy 2.2 and later raise for it too). *)
Definition notnull_truth (v : value) : result bool :=
  match v with
  | VList _ =>
      match array_size v with
      | 0 => Ok false
      | 1 => Ok (notnull (first_element v))
      | _ => Raise ValueError
      end
  | _ => Ok (notnull v)
  end.

(** ** Pruning: [make_dict_from_nmdc_obj] *)

(** The nested function [is_value].  The emptiness test is for lists,
    mappings and strings by their exact type: an instance of a subclass
    of [str] reaches the null test instead, which it passes, so that an
    empty identifier is a value. *)
Fixpoint is_value (variable : value) : bool :=
  match variable with
  | VNone => false
  | VNaN => false
  | VStr s => negb (String.eqb s EmptyString)
  | VStrSub _ _ => true
  | VList l => match l with [] => false | _ => true end
  | VDict d =>
      match d with
      | [] => false
      | _ =>
          dict_find "id" (fun v => is_value v)
            (dict_find "has_raw_value" (fun v => is_value v) false d) d
      end
  | _ => true
  end.

(** [jsonasobj.as_dict]: the attributes of an object as a mapping, nested
    objects converted likewise. *)
Fixpoint as_plain (v : value) : value :=
  match v with
  | VObj _ attrs => VDict (map (fun kv => (fst kv, as_plain (snd kv))) attrs)
  | VList l => VList (map as_plain l)
  | _ => v
  end.

Definition as_dict (attrs : dict) : dict :=
  map (fun kv => (fst kv, as_plain (snd kv))) attrs.

Definition keep_entry (kv : string * value) : bool := is_value (snd kv).

(** first loop of [make_dict]: filter inside mappings and lists *)
Definition prune_inner (kv : string * value) : string * value :=
  match snd kv with
  | VDict d => (fst kv, VDict (filter keep_entry d))
  | VList l => (fst kv, VList (filter is_value l))
  | _ => kv
  end.

(** both loops of [make_dict] over the items of [as_dict(obj)] *)
Definition prune_items (items : dict) : dict :=
  filter keep_entry (map prune_inner items).

(** the nested function [make_dict] *)
Definition make_dict (obj : value) : value :=
  match obj with
  | VNone => VNone
  | VObj _ attrs => VDict (prune_items (as_dict attrs))
  | _ => obj
  end.

Definition make_dict_from_nmdc_obj (nmdc_obj : value) : value :=
  match nmdc_obj with
  | VList l => VList (map make_dict (filter is_value l))
  | _ => make_dict nmdc_obj
  end.

(** ** Field specifications *)

(** A field specification is the Python data of the mapping file: a
    string ["name"] or ["name, dtype"], a mapping, or a list. *)

Definition is_comma_str (v : value) : bool :=
  match v with
  | VStr s | VStrSub _ s => String.eqb s ","
  | _ => false
  end.

Fixpoint get_dtype_from_attribute_field (attribute_field : value)
  : result string :=
  match attribute_field with
  | VDict d =>
      dict_find "$const" (fun c => get_dtype_from_attribute_field c)
        (Ok "str") d
  | VStr s | VStrSub _ s =>
      if has_comma s
      then match split_aux "," 0 "" s with
           | _ :: t :: _ => Ok (strip t)
           | _ => Raise IndexError
           end
      else Ok "str"
  | VList l => if existsb is_comma_str l then Raise AttributeError else Ok "str"
  | _ => Raise TypeError
  end.

Fixpoint get_field_and_dtype_from_attribute_field (attribute_field : value)
  : result (value * string) :=
  match attribute_field with
  | VDict d =>
      dict_find "$const"
        (fun c => get_field_and_dtype_from_attribute_field c)
        (dict_find "$field"
           (fun f => get_field_and_dtype_from_attribute_field f)
           (Ok (attribute_field, "str")) d) d
  | VStr s | VStrSub _ s =>
      if has_comma s
      then match split_aux "," 0 "" s with
           | [f; t] => Ok (VStr (strip f), strip t)
           | _ => Raise ValueError
           end
      else Ok (VStr (strip s), "str")
  | VList l => Raise AttributeError
  | _ => Raise TypeError
  end.

(** ** Records *)

(** A row of the data frame as [itertuples] yields it: the named tuple's
    [_fields] with the cell of each. *)
Definition record : Type := list (string * value).

Definition fields_ (r : record) : list string := map fst r.

Definition mem_string (s : string) (l : list string) : bool :=
  existsb (String.eqb s) l.

(** the field name of a plain reference, as [set_nmdc_object] and
    [record_has_field] cut it out *)
Definition field_of_reference (s : string) : string :=
  if has_comma s then strip (hd "" (split_aux "," 0 "" s)) else strip s.

(** A named tuple is never null for pandas, so the guard at the head of
    the function does not fire. *)
Definition record_has_field (nmdc_record : record) (attribute_field : value)
  : result bool :=
  match attribute_field with
  | VStr s | VStrSub _ s =>
      Ok (mem_string (field_of_reference s) (fields_ nmdc_record))
  | VDict _ | VList _ => Raise AttributeError
  | _ => Raise TypeError
  end.

(** [getattr(obj, name)] on a named tuple or an object *)
Definition getattr_ (attrs : list (string * value)) (name : string)
  : result value :=
  match dict_get name attrs with
  | Some v => Ok v
  | None => Raise AttributeError
  end.

(** ** Schema classes *)

(** A class of the schema module: its name, its [class_class_curie] and
    its constructor, from keyword arguments to the attributes of the new
    instance. *)
Record class_def : Type := {
  class_name : string;
  class_class_curie : string;
  class_init : dict -> result dict
}.

Definition instantiate (c : class_def) (kwargs : dict) : result value :=
  attrs <- class_init c kwargs ;;
  Ok (VObj (class_name c) attrs).

(** what [make_nmdc_class] returns: a class, or the argument itself when
    it was not a string *)
Inductive callee : Type :=
| CClass (c : class_def)
| CValue (v : value).

Definition call (f : callee) (kwargs : dict) : result value :=
  match f with
  | CClass c => instantiate c kwargs
  | CValue _ => Raise TypeError
  end.

(** ** The crosswalk table *)

Record sssom_row : Type := {
  subject_label : string;
  object_label : string;
  predicate_id : string
}.

(** ** Transform declarations and the output of the hooks *)

Record transform : Type := {
  function : string;
  attributes : list string
}.

Record transform_map_t : Type := {
  pre : option (list transform);
  post : option (list transform)
}.

(** a line printed by a hook *)
Inductive event : Type :=
| Executing (hook : string) (tx_attributes : list string)
| PropertyError (id : value) (attribute : string) (date_str : string)
| TestPreTransform.

(** ** [datetime.strptime(s, "%d-%b-%y")] and [strftime("%Y-%m-%d")] *)

Definition digit_of (c : ascii) : option nat :=
  let n := nat_of_ascii c in
  if Nat.leb 48 n && Nat.leb n 57 then Some (n - 48) else None.

Definition lower (c : ascii) : ascii :=
  let n := nat_of_ascii c in
  if Nat.leb 65 n && Nat.leb n 90 then ascii_of_nat (n + 32) else c.

Definition month_of (a b c : ascii) : option nat :=
  let s := String (lower a) (String (lower b) (String (lower c) "")) in
  if String.eqb s "jan" then Some 1 else
  if String.eqb s "feb" then Some 2 else
  if String.eqb s "mar" then Some 3 else
  if String.eqb s "apr" then Some 4 else
  if String.eqb s "may" then Some 5 else
  if String.eqb s "jun" then Some 6 else
  if String.eqb s "jul" then Some 7 else
  if String.eqb s "aug" then Some 8 else
  if String.eqb s "sep" then Some 9 else
  if String.eqb s "oct" then Some 10 else
  if String.eqb s "nov" then Some 11 else
  if String.eqb s "dec" then Some 12 else None.

(** the directive [%d]: [3[0-1]|[1-2]\d|0[1-9]|[1-9]| [1-9]], then the
    rest of the text *)
Definition parse_day (s : string) : option (nat * string) :=
  match s with
  | String a (String b r) =>
      match digit_of a, digit_of b with
      | Some x, Some y =>
          let d := 10 * x + y in
          if Nat.leb 1 d && Nat.leb d 31 then Some (d, r)
          else if Nat.leb 1 x then Some (x, String b r) else None
      | Some x, None => if Nat.leb 1 x then Some (x, String b r) else None
      | None, Some y =>
          if Ascii.eqb a " "%char && Nat.leb 1 y then Some (y, r) else None
      | None, None => None
      end
  | String a EmptyString =>
      match digit_of a with
      | Some x => if Nat.leb 1 x then Some (x, EmptyString) else None
      | None => None
      end
  | EmptyString => None
  end.

Definition is_leap (y : nat) : bool :=
  (Nat.eqb (y mod 4) 0 && negb (Nat.eqb (y mod 100) 0)) || Nat.eqb (y mod 400) 0.

Definition days_in_month (y m : nat) : nat :=
  match m with
  | 2 => if is_leap y then 29 else 28
  | 4 | 6 | 9 | 11 => 30
  | _ => 31
  end.

(** [Some (year, month, day)], or [None] for the [ValueError] of a text
    that does not match the format or names no day of the calendar *)
Definition strptime_d_b_y (s : string) : option (nat * nat * nat) :=
  match parse_day s with
  | Some (d, String dash1 (String a (String b (String c
             (String dash2 (String y1 (String y2 EmptyString))))))) =>
      if Ascii.eqb dash1 "-"%char && Ascii.eqb dash2 "-"%char then
        match month_of a b c, digit_of y1, digit_of y2 with
        | Some m, Some p, Some q =>
            let yy := 10 * p + q in
            let y := if Nat.leb yy 68 then 2000 + yy else 1900 + yy in
            if Nat.leb d (days_in_month y m) then Some (y, m, d) else None
        | _, _, _ => None
        end
      else None
  | _ => None
  end.

Definition digit_char (n : nat) : ascii := ascii_of_nat (48 + n mod 10).

Definition two_digits (n : nat) : string :=
  String (digit_char (n / 10)) (String (digit_char n) "").

Definition strftime_Y_m_d (date : nat * nat * nat) : string :=
  let '(y, m, d) := date in
  two_digits (y / 100) ++ two_digits y ++ "-" ++ two_digits m ++ "-" ++ two_digits d.

(** ** The name [zip_longest] *)

(** The module calls [zip_longest] without defining or importing the
    name: the call raises [NameError], whatever its arguments. *)
Definition zip_longest (cols : list (list value))
  : result (list (list value)) :=
  Raise NameError.

(** ** The engine, over the host's primitives *)

Section Engine.

(** [eval] of a source text *)
Variable py_eval : string -> result value.
(** [str] of a list, mapping or object *)
Variable container_repr : value -> string.
(** [float] of a text; [None] stands for its [ValueError] *)
Variable py_float : string -> option value.
(** [getattr(nmdc, name)]: the classes of the schema module *)
Variable nmdc : string -> option class_def.
(** [nmdc_dataframes.make_dataframe(path, comment_str="#")] and the
    table [read_csv] reads from the packaged [gold-to-mixs.sssom.tsv] *)
Variable make_dataframe : string -> list sssom_row.
Variable packaged_sssom : list sssom_row.

(** [str(v)], also the text [f"{v}"] interpolates *)
Definition py_str (v : value) : string :=
  match v with
  | VNone => "None"
  | VNaN => "nan"
  | VBool true => "True"
  | VBool false => "False"
  | VInt z => DecimalString.NilZero.string_of_int (Z.to_int z)
  | VFloat r => r
  | VStr s | VStrSub _ s => s
  | _ => container_repr v
  end.

Definition coerce_value (v : value) (dtype : string) : result value :=
  match v with
  | VNone => Ok VNone
  | _ =>
      if negb (String.eqb dtype "str")
      then py_eval (dtype ++ "(" ++ py_str v ++ ")")
      else Ok (VStr (py_str v))
  end.

Definition get_record_attr (r : record) (attribute_field : value)
           (return_field_if_none : bool) : result value :=
  let generic :=
    '(field, dtype) <- get_field_and_dtype_from_attribute_field attribute_field ;;
    has <- record_has_field r field ;;
    val <- (if has
            then match field with
                 | VStr f | VStrSub _ f => getattr_ r f
                 | _ => Raise TypeError
                 end
            else Ok (if return_field_if_none then field else VNone)) ;;
    present <- notnull_truth val ;;
    if present : bool then coerce_value val dtype else Ok VNone in
  match attribute_field with
  | VDict d =>
      match dict_get "$const" d with
      | Some c =>
          '(field, dtype) <- get_field_and_dtype_from_attribute_field c ;;
          coerce_value field dtype
      | None => generic
      end
  | _ => generic
  end.

Definition make_nmdc_class (class_type : value) : result callee :=
  match class_type with
  | VStr s =>
      match nmdc s with
      | Some c => Ok (CClass c)
      | None => Raise AttributeError
      end
  | _ => Ok (CValue class_type)
  end.

(** the loop of [make_record_dict], [record_dict] being built up *)
Fixpoint make_record_dict_loop (r : record) (items : dict)
         (return_field_if_none : bool) (record_dict : dict) : result dict :=
  match items with
  | [] => Ok record_dict
  | (field_key, field) :: rest =>
      if negb (String.eqb field_key "$class_type") then
        match field with
        | VDict fd =>
            match fd with
            | [] => Raise IndexError
            | (k, v) :: _ =>
                if String.eqb k "$const"
                then make_record_dict_loop r rest return_field_if_none
                       (dict_set field_key v record_dict)
                else make_record_dict_loop r rest return_field_if_none
                       record_dict
            end
        | _ =>
            v <- get_record_attr r field return_field_if_none ;;
            make_record_dict_loop r rest return_field_if_none
              (dict_set field_key v record_dict)
        end
      else make_record_dict_loop r rest return_field_if_none record_dict
  end.

Definition make_record_dict (r : record) (object_dict : dict)
           (return_field_if_none : bool) : result dict :=
  make_record_dict_loop r object_dict return_field_if_none [].

Definition make_object_from_dict (r : record) (object_dict : dict)
  : result value :=
  record_dict <- make_record_dict r object_dict true ;;
  match dict_get "$class_type" object_dict with
  | Some ct =>
      class_type <- make_nmdc_class ct ;;
      call class_type record_dict
  | None => Ok (VDict record_dict)
  end.

Fixpoint make_constructor_args_loop (r : record) (items : dict)
         (constructor_dict : dict) : result dict :=
  match items with
  | [] => Ok constructor_dict
  | (key, field) :: rest =>
      v <- match field with
           | VDict ((_ :: _) as fd) =>
               record_dict <- make_record_dict r fd true ;;
               match dict_get "$class_type" fd with
               | Some ct =>
                   class_type <- make_nmdc_class ct ;;
                   call class_type record_dict
               | None => Ok (VDict record_dict)
               end
           | VList ((_ :: _) as fl) =>
               vs <- mapM (fun f => get_record_attr r f true) fl ;;
               Ok (VList vs)
           | _ => get_record_attr r field true
           end ;;
      make_constructor_args_loop r rest (dict_set key v constructor_dict)
  end.

Definition make_constructor_args_from_record (constructor_map : dict)
           (r : record) : result dict :=
  make_constructor_args_loop r constructor_map [].

(** [text.split(sep)] for a separator taken from the specification *)
Definition py_split (sep : value) (text : string) : result (list string) :=
  match sep with
  | VStr s | VStrSub _ s => split s text
  | VNone => Ok (split_ws text)
  | _ => Raise TypeError
  end.

Definition coerce_pieces (pieces : list string) (dtype : string)
  : result (list value) :=
  mapM (fun v => coerce_value (VStr (strip v)) dtype) pieces.

(** body of the loop over [item.values()] in
    [make_object_from_list_item_dict]: the sequence one sub-field
    contributes *)
Definition list_item_field_values (r : record) (split_val : value)
           (field_name : value) : result (list value) :=
  val <- get_record_attr r field_name false ;;
  match val with
  | VNone => Ok [VNone]
  | _ =>
      dtype <- get_dtype_from_attribute_field field_name ;;
      let mysplit :=
        match field_name with
        | VDict fd =>
            match dict_get "$split_val" fd with
            | Some sv => sv
            | None => split_val
            end
        | _ => split_val
        end in
      pieces <- py_split mysplit (py_str val) ;;
      coerce_pieces pieces dtype
  end.

(** body of the loop over the rows of the zip: the element a row
    becomes *)
Definition row_object (class_type : callee) (keys : list string)
           (rv : list value) : result value :=
  let obj_dict := dict_of_pairs (combine keys rv) in
  match class_type with
  | CValue VNone => Ok (VDict obj_dict)
  | _ => call class_type obj_dict
  end.

(** The head of [make_object_from_list_item_dict]: the delimiter of the
    element, with the element as the [pop] leaves it.  The guard tests
    the key ["$spit_val"], the [pop] takes ["$split_val"]. *)
Definition pop_split_val (item : dict) : result value * dict :=
  if dict_has "$spit_val" item
  then match dict_get "$split_val" item with
       | Some sv => (Ok sv, dict_del "$split_val" item)
       | None => (Raise KeyError, item)
       end
  else (Ok (VStr ","), item).

(** the class of the element, with the element as the [pop] leaves it:
    the type name is taken out before the class is looked up *)
Definition pop_class_type (item : dict) : result callee * dict :=
  match dict_get "$class_type" item with
  | Some ct => (make_nmdc_class ct, dict_del "$class_type" item)
  | None => (Ok (CValue VNone), item)
  end.

(** the loop over [item.values()]: [record_values] *)
Definition list_item_record_values (r : record) (split_val : value)
           (item : dict) : result (list (list value)) :=
  mapM (list_item_field_values r split_val) (dict_values item).

(** the comprehension over [item.keys()]: [keys] *)
Definition list_item_keys (item : dict) : list string :=
  filter (fun key => negb (String.eqb key "$class_type")) (dict_keys item).

(** The outcome of the call, with the [item] mapping as the call leaves
    it, whether it returns or raises: the mapping belongs to the caller's
    specification. *)
Definition make_object_from_list_item_dict (r : record) (item : dict)
  : result (list value) * dict :=
  let '(popped, item1) := pop_split_val item in
  match popped with
  | Raise e => (Raise e, item1)
  | Ok split_val =>
      let '(looked_up, item2) := pop_class_type item1 in
      (class_type <- looked_up ;;
       record_values <- list_item_record_values r split_val item2 ;;
       let keys := list_item_keys item2 in
       rows <- zip_longest record_values ;;
       mapM (row_object class_type keys) rows,
       item2)
  end.

Definition make_value_from_list_item_dict (r : record) (item : dict)
  : result (list value) :=
  field_spec <- match dict_get "$field" item with
                | Some f => Ok f
                | None => Raise KeyError
                end ;;
  dtype <- get_dtype_from_attribute_field field_spec ;;
  let split_val :=
    match dict_get "$split_val" item with
    | Some sv => sv
    | None => VStr ","
    end in
  match dict_get "$const" item with
  | Some c => v <- coerce_value c dtype ;; Ok [v]
  | None =>
      record_val <- get_record_attr r field_spec false ;;
      match record_val with
      | VNone => Ok [VNone]
      | _ =>
          match split_val with
          | VNone =>
              match record_val with
              | VStr s | VStrSub _ s =>
                  v <- coerce_value (VStr (strip s)) dtype ;; Ok [v]
              | _ => Raise AttributeError
              end
          | _ =>
              pieces <- py_split split_val (py_str record_val) ;;
              coerce_pieces pieces dtype
          end
      end
  end.

(** Returns the list built and [nmdc_list] with its mappings as the
    calls left them; when a call raises, so does the function. *)
Fixpoint make_object_from_list (r : record) (nmdc_list : list value)
  : result (list value * list value) :=
  match nmdc_list with
  | [] => Ok ([], [])
  | val :: rest =>
      '(objs, val') <-
        (match val with
         | VDict d =>
             if dict_has "$field" d
             then vs <- make_value_from_list_item_dict r d ;; Ok (vs, val)
             else let '(outcome, d') := make_object_from_list_item_dict r d in
                  os <- outcome ;; Ok (os, VDict d')
         | _ =>
             dtype <- get_dtype_from_attribute_field val ;;
             record_val <- get_record_attr r val true ;;
             match record_val with
             | VNone => Ok ([VNone], val)
             | _ =>
                 pieces <- split "," (py_str record_val) ;;
                 vs <- coerce_pieces pieces dtype ;;
                 Ok (vs, val)
             end
         end) ;;
      '(more, rest') <- make_object_from_list r rest ;;
      Ok (objs ++ more, val' :: rest')
  end.

(** [setattr(obj, name, v)] on an instance of a schema class *)
Definition setattr_ (obj : value) (name : string) (v : value) : result value :=
  match obj with
  | VObj c attrs => Ok (VObj c (dict_set name v attrs))
  | _ => Raise AttributeError
  end.

Definition make_attribute_value (val : value) : result value :=
  match nmdc "AttributeValue" with
  | Some c =>
      av <- instantiate c [] ;;
      present <- notnull_truth val ;;
      if present : bool then setattr_ av "has_raw_value" val else Ok av
  | None => Raise AttributeError
  end.

(** The function passes two arguments to [make_attribute_value], which
    takes one: after the lookup the call is a [TypeError]. *)
Definition make_attribute_value_from_record (r : record) (field : value)
  : result value :=
  _ <- get_record_attr r field true ;;
  Raise TypeError.

(** Returns the updated object and [attribute_field] as the call left
    it. *)
Definition set_nmdc_object (nmdc_obj : value) (r : record)
           (attribute_map : list (string * string)) (attribute_field : value)
  : result (value * value) :=
  '(field, av, represent_as_dict, attribute_field') <-
    (match attribute_field with
     | VDict d =>
         match d with
         | [] => Raise IndexError
         | (field, val) :: others =>
             match val with
             | VList l =>
                 '(objs, l') <- make_object_from_list r l ;;
                 Ok (field, VList objs, true, VDict ((field, VList l') :: others))
             | VDict vd =>
                 av <- make_object_from_dict r vd ;;
                 Ok (field, av, negb (dict_has "$class_type" vd), attribute_field)
             | VStr _ =>
                 av <- get_record_attr r val true ;;
                 Ok (field, av, true, attribute_field)
             | _ =>
                 av <- make_attribute_value_from_record r val ;;
                 Ok (field, av, true, attribute_field)
             end
         end
     | VStr s =>
         av <- get_record_attr r attribute_field true ;;
         Ok (field_of_reference s, av, true, attribute_field)
     | _ =>
         _ <- make_attribute_value_from_record r attribute_field ;;
         Raise TypeError
     end) ;;
  let av := if represent_as_dict : bool then make_dict_from_nmdc_obj av else av in
  let target :=
    match attribute_map with
    | [] => field
    | _ => match dict_get field attribute_map with
           | Some renamed => renamed
           | None => field
           end
    end in
  obj' <- setattr_ nmdc_obj target av ;;
  Ok (obj', attribute_field').

Definition make_attribute_map (sssom_map_file : string)
  : list (string * string) :=
  let mapping_df :=
    match sssom_map_file with
    | EmptyString => packaged_sssom
    | _ =>
        filter (fun row => String.eqb (predicate_id row) "skos:exactMatch")
               (make_dataframe sssom_map_file)
    end in
  dict_of_pairs
    (map (fun row => (subject_label row, object_label row)) mapping_df).

(** ** The post-transform hooks *)

Definition hasattr_ (obj : value) (name : string) : bool :=
  match obj with
  | VObj _ attrs => dict_has name attrs
  | _ => false
  end.

Definition getattr_obj (obj : value) (name : string) : result value :=
  match obj with
  | VObj _ attrs => getattr_ attrs name
  | _ => Raise AttributeError
  end.

(** [has_raw_value], as the test of [if has_raw_value(obj, attribute):],
    its one use: the function returns what [pds.notnull] returns, and
    the test takes the truth value of that.  Of a value that is no
    mapping the function reads [vars]: the attributes of an object, none
    for an instance of a subclass of [str], and a [TypeError] for a
    value that has no [__dict__]. *)
Definition has_raw_value (obj : value) (attribute : string) : result bool :=
  val <- getattr_obj obj attribute ;;
  match val with
  | VNone => Ok false
  | VDict d | VObj _ d =>
      match dict_get "has_raw_value" d with
      | Some raw => notnull_truth raw
      | None => Ok false
      end
  | VStrSub _ _ => Ok false
  | _ => Raise TypeError
  end.

(** the assignments of the hook to the mapping, or to the attributes,
    of one value: the numeric head when [float] accepts it, the unit
    when there is text after the first blank *)
Definition split_quantity (d : dict) : result dict :=
  raw <- getattr_ d "has_raw_value" ;;
  let '(head, tail) := split_once (py_str raw) in
  let d1 :=
    match py_float (strip head) with
    | Some x => dict_set "has_numeric_value" x d
    | None => d
    end in
  Ok (match tail with
      | Some unit_text => dict_set "has_unit" (VStr (strip unit_text)) d1
      | None => d1
      end).

(** body of the two loops of [make_quantity_value] *)
Definition quantity_step (attribute : string) (obj : value) : result value :=
  present <- has_raw_value obj attribute ;;
  if present : bool then
    val <- getattr_obj obj attribute ;;
    match val with
    | VDict d => d' <- split_quantity d ;; setattr_ obj attribute (VDict d')
    | VObj c d => d' <- split_quantity d ;; setattr_ obj attribute (VObj c d')
    | _ => Raise AttributeError
    end
  else Ok obj.

Fixpoint quantity_loop (tx_attributes : list string) (nmdc_objs : list value)
  : result (list value) :=
  match tx_attributes with
  | [] => Ok nmdc_objs
  | attribute :: rest =>
      objs <- mapM (quantity_step attribute) nmdc_objs ;;
      quantity_loop rest objs
  end.

Definition make_quantity_value (nmdc_objs : list value)
           (tx_attributes : list string) : result (list value * list event) :=
  objs <- quantity_loop tx_attributes nmdc_objs ;;
  Ok (objs, [Executing "make_quantity_value" tx_attributes]).

(** body of the two loops of [make_iso_8601_date_value]: the object
    and what the step printed *)
Definition date_step (attribute : string) (obj : value)
  : result (value * list event) :=
  if hasattr_ obj attribute then
    v <- getattr_obj obj attribute ;;
    let date_str := fst (split_once (py_str v)) in
    if negb (String.eqb date_str "None") then
      match strptime_d_b_y date_str with
      | Some date =>
          obj' <- setattr_ obj attribute (VStr (strftime_Y_m_d date)) ;;
          Ok (obj', [])
      | None =>
          ident <- getattr_obj obj "id" ;;
          Ok (obj, [PropertyError ident attribute date_str])
      end
    else Ok (obj, [])
  else Ok (obj, []).

Fixpoint date_objs (attribute : string) (nmdc_objs : list value)
  : result (list value * list event) :=
  match nmdc_objs with
  | [] => Ok ([], [])
  | obj :: rest =>
      '(obj', out1) <- date_step attribute obj ;;
      '(rest', out2) <- date_objs attribute rest ;;
      Ok (obj' :: rest', out1 ++ out2)
  end.

Fixpoint date_loop (tx_attributes : list string) (nmdc_objs : list value)
  : result (list value * list event) :=
  match tx_attributes with
  | [] => Ok (nmdc_objs, [])
  | attribute :: rest =>
      '(objs, out1) <- date_objs attribute nmdc_objs ;;
      '(objs', out2) <- date_loop rest objs ;;
      Ok (objs', out1 ++ out2)
  end.

Definition make_iso_8601_date_value (nmdc_objs : list value)
           (tx_attributes : list string) : result (list value * list event) :=
  '(objs, out) <- date_loop tx_attributes nmdc_objs ;;
  Ok (objs, Executing "make_iso_8601_date" tx_attributes :: out).

(** ** The driver: [dataframe_to_dict] *)

(** the keyword arguments handed to every post-transform hook *)
Record tx_kwargs : Type := {
  kw_nmdc_class : class_def;
  kw_constructor_map : dict;
  kw_attribute_fields : list value;
  kw_attribute_map : list (string * string)
}.

Definition pre_hook : Type := list record -> list string -> result (list record).
Definition post_hook : Type :=
  list value -> list string -> tx_kwargs -> result (list value * list event).

(** [eval(transform["function"])] for a text that is not the name of a
    hook of this module, as the callable acts on a data frame and on a
    list of objects *)
Variable eval_pre : string -> result pre_hook.
Variable eval_post : string -> result post_hook.

Definition eval_pre_hook (name : string) : result pre_hook :=
  if String.eqb name "test_pre_transform"
  then Ok (fun nmdc_df _ => Ok nmdc_df)
  else eval_pre name.

Definition eval_post_hook (name : string) : result post_hook :=
  if String.eqb name "make_quantity_value"
  then Ok (fun objs attrs _ => make_quantity_value objs attrs)
  else if String.eqb name "make_iso_8601_date_value"
  then Ok (fun objs attrs _ => make_iso_8601_date_value objs attrs)
  else if String.eqb name "test_pre_transform"
  then Ok (fun objs _ _ => Ok (objs, [TestPreTransform]))
  else eval_post name.

(** the loop over [attribute_fields] in [make_nmdc_object]: the object
    and the list as the calls left its entries *)
Fixpoint set_attribute_fields (nmdc_obj : value) (r : record)
         (attribute_map : list (string * string)) (attribute_fields : list value)
  : result (value * list value) :=
  match attribute_fields with
  | [] => Ok (nmdc_obj, [])
  | af :: rest =>
      '(obj1, af') <- set_nmdc_object nmdc_obj r attribute_map af ;;
      '(obj2, rest') <- set_attribute_fields obj1 r attribute_map rest ;;
      Ok (obj2, af' :: rest')
  end.

(** the nested function [make_nmdc_object], with the variables of the
    driver it reads as arguments *)
Definition make_nmdc_object (nmdc_class : class_def) (constructor_map : dict)
           (attribute_fields : list value)
           (attribute_map : list (string * string)) (r : record)
  : result (value * list value) :=
  obj0 <- (match constructor_map with
           | [] => instantiate nmdc_class []
           | _ =>
               constructor_args <-
                 make_constructor_args_from_record constructor_map r ;;
               instantiate nmdc_class constructor_args
           end) ;;
  obj1 <- setattr_ obj0 "type" (VStr (class_class_curie nmdc_class)) ;;
  set_attribute_fields obj1 r attribute_map attribute_fields.

(** the comprehension over the rows; [attribute_fields] is one list
    for all rows, so each row starts from what the row before left *)
Fixpoint build_objects (nmdc_class : class_def) (constructor_map : dict)
         (attribute_fields : list value)
         (attribute_map : list (string * string)) (rows : list record)
  : result (list value * list value) :=
  match rows with
  | [] => Ok ([], attribute_fields)
  | r :: rest =>
      '(obj, afs1) <-
        make_nmdc_object nmdc_class constructor_map attribute_fields
          attribute_map r ;;
      '(objs, afs2) <-
        build_objects nmdc_class constructor_map afs1 attribute_map rest ;;
      Ok (obj :: objs, afs2)
  end.

Fixpoint run_pre (pre_transforms : list transform) (nmdc_df : list record)
  : result (list record) :=
  match pre_transforms with
  | [] => Ok nmdc_df
  | t :: rest =>
      tx_function <- eval_pre_hook (function t) ;;
      df' <- tx_function nmdc_df (attributes t) ;;
      run_pre rest df'
  end.

(** a mapping without an ["id"] and without a ["has_raw_value"] key *)
Definition junk_dict (v : value) : bool :=
  match v with
  | VDict d => negb (dict_has "id" d) && negb (dict_has "has_raw_value" d)
  | _ => false
  end.

Definition clear_entry (kv : string * value) : string * value :=
  if junk_dict (snd kv) then (fst kv, VNone) else kv.

(** the loop over [obj.__dict__.items()] *)
Definition clear_junk (obj : value) : result value :=
  match obj with
  | VObj c attrs => Ok (VObj c (map clear_entry attrs))
  | _ => Raise AttributeError
  end.

Fixpoint run_post (post_transforms : list transform) (kw : tx_kwargs)
         (nmdc_objs : list value) : result (list value) :=
  match post_transforms with
  | [] => Ok nmdc_objs
  | t :: rest =>
      tx_function <- eval_post_hook (function t) ;;
      '(objs, _) <- tx_function nmdc_objs (attributes t) kw ;;
      run_post rest kw objs
  end.

Definition transforms_of (declared : option (list transform)) : list transform :=
  match declared with
  | Some l => l
  | None => []
  end.

(** What the hooks print is not part of the value returned. *)
Definition dataframe_to_dict (nmdc_df : list record) (nmdc_class : class_def)
           (constructor_map : dict) (attribute_fields : list value)
           (attribute_map : list (string * string))
           (transform_map : transform_map_t) : result (list value) :=
  df <- run_pre (transforms_of (pre transform_map)) nmdc_df ;;
  '(nmdc_objs, afs) <-
    build_objects nmdc_class constructor_map attribute_fields attribute_map df ;;
  cleared <- mapM clear_junk nmdc_objs ;;
  let kw := {| kw_nmdc_class := nmdc_class;
               kw_constructor_map := constructor_map;
               kw_attribute_fields := afs;
               kw_attribute_map := attribute_map |} in
  final <- run_post (transforms_of (post transform_map)) kw cleared ;;
  Ok (map make_dict_from_nmdc_obj final).

End Engine.

(** ** A sample host, for evaluating the engine on concrete inputs *)

(** an [eval] that accepts no text *)
Definition no_eval (src : string) : result value := Raise (EvalError src).

Definition opaque_repr (_ : value) : string := "<object>".

Fixpoint numeral_shape (digits dots : nat) (s : string) : bool :=
  match s with
  | EmptyString => Nat.leb 1 digits && Nat.leb dots 1
  | String c r =>
      match digit_of c with
      | Some _ => numeral_shape (S digits) dots r
      | None => Ascii.eqb c "."%char && numeral_shape digits (S dots) r
      end
  end.

(** [float] on unsigned decimal numerals written as [repr] prints them *)
Definition numeral_float (s : string) : option value :=
  if numeral_shape 0 0 s then Some (VFloat s) else None.

(** a class whose instances hold their keyword arguments *)
Definition plain_class (name curie : string) : class_def :=
  {| class_name := name; class_class_curie := curie;
     class_init := fun kwargs => Ok kwargs |}.

Definition sample_nmdc (name : string) : option class_def :=
  if String.eqb name "Study" then Some (plain_class "Study" "nmdc:Study")
  else if String.eqb name "Biosample"
  then Some (plain_class "Biosample" "nmdc:Biosample")
  else None.

Definition no_pre (name : string) : result pre_hook := Raise NameError.
Definition no_post (name : string) : result post_hook := Raise NameError.

(** ** Sample inputs *)

Definition biosample : class_def := plain_class "Biosample" "nmdc:Biosample".

(** two delimited columns of one row *)
Definition piped_row : record := [("A", VStr "a|b"); ("B", VStr "x|y")].

(** a nested-object element that declares a delimiter for all its
    sub-fields *)
Definition piped_item : dict :=
  [("id", VStr "A"); ("name", VStr "B"); ("$split_val", VStr "|")].

(** a nested-object element whose first sub-field declares its own
    delimiter *)
Definition wrapped_item : dict :=
  [("id", VDict [("$field", VStr "A"); ("$split_val", VStr "|")]);
   ("name", VStr "B")].

(** an attribute list with one list of typed nested objects *)
Definition study_fields : list value :=
  [VDict [("part_of",
           VList [VDict [("id", VStr "gold_id"); ("name", VStr "study_name");
                         ("$class_type", VStr "Study")]])]].

(** the nested-object element of that list *)
Definition study_item : dict :=
  [("id", VStr "gold_id"); ("name", VStr "study_name");
   ("$class_type", VStr "Study")].

Definition study_row : record :=
  [("sample_id", VStr "s1"); ("gold_id", VStr "gold:1"); ("study_name", VNaN)].

Definition sample_constructor : dict := [("id", VStr "sample_id")].

(** a crosswalk table with one exact and one close match *)
Definition sample_table : list sssom_row :=
  [{| subject_label := "depth"; object_label := "depth";
      predicate_id := "skos:exactMatch" |};
   {| subject_label := "ecosystem"; object_label := "env_broad_scale";
      predicate_id := "skos:closeMatch" |}].

(** an attribute list that attaches a mapping holding a unit only *)
Definition unit_fields : list value :=
  [VDict [("depth", VDict [("has_unit", VDict [("$const", VStr "meter")])])];
   VDict [("lat_lon", VDict [("has_raw_value", VStr "lat_lon")])]].

Definition unit_row : record :=
  [("sample_id", VStr "s1"); ("lat_lon", VStr "-33.46 150.17")].

(** two objects with quantities under two attributes *)
Definition weighed_objs : list value :=
  [VObj "Biosample"
     [("id", VStr "s1");
      ("weight", VDict [("has_raw_value", VStr "5.2 milligram")]);
      ("depth", VDict [("has_raw_value", VStr "abc")])];
   VObj "Biosample"
     [("id", VStr "s2");
      ("weight", VNone);
      ("depth", VObj "QuantityValue" [("has_raw_value", VStr "3 meter")])]].

(** a row without a position *)
Definition unlocated_row : record :=
  [("sample_id", VStr "s2"); ("lat_lon", VNaN)].

Definition no_transforms : transform_map_t := {| pre := None; post := None |}.

(** ** Predicates of the statements *)

(** an instance of a schema class *)
Definition is_obj (v : value) : Prop := exists c attrs, v = VObj c attrs.

(** the mapping or the object an attribute holds, seen as its entries *)
Definition holder (wrap : dict -> value) : Prop :=
  wrap = VDict \/ exists c, wrap = VObj c.

(** a plain mapping, a string *)
Definition is_dict (v : value) : Prop := exists d, v = VDict d.
Definition is_str (v : value) : Prop := exists s, v = VStr s.

(** the attribute [k] of an object, when it has one *)
Definition obj_attr (obj : value) (k : string) : option value :=
  match obj with
  | VObj _ attrs => dict_get k attrs
  | _ => None
  end.

(** an attribute value the quantity hook can test: nothing, an
    identifier, or a mapping or object whose raw value, if it has one,
    has a truth value for pandas *)
Definition quantity_ready_value (v : value) : bool :=
  match v with
  | VNone | VStrSub _ _ => true
  | VDict d | VObj _ d =>
      match dict_get "has_raw_value" d with
      | Some raw =>
          match notnull_truth raw with
          | Ok _ => true
          | Raise _ => false
          end
      | None => true
      end
  | _ => false
  end.

(** an object that has every attribute listed, each with such a value *)
Definition quantity_ready (tx_attributes : list string) (obj : value) : bool :=
  forallb (fun a =>
             match obj_attr obj a with
             | Some v => quantity_ready_value v
             | None => false
             end)
          tx_attributes.

(** the entries [d'] of a mapping or object with the raw value [raw]
    that the quantity hook has treated, [d] being the entries before:
    the raw value is kept, [has_numeric_value] is the number [float]
    reads in the text before the first blank, or as it was when [float]
    rejects it, and [has_unit] is the text after the first blank, or as
    it was when there is none *)
Definition quantity_treated (container_repr : value -> string)
           (py_float : string -> option value) (raw : value) (d d' : dict)
  : Prop :=
  dict_get "has_raw_value" d' = Some raw
  /\ dict_get "has_numeric_value" d' =
     match py_float (strip (fst (split_once (py_str container_repr raw)))) with
     | Some x => Some x
     | None => dict_get "has_numeric_value" d
     end
  /\ dict_get "has_unit" d' =
     match snd (split_once (py_str container_repr raw)) with
     | Some unit_text => Some (VStr (strip unit_text))
     | None => dict_get "has_unit" d
     end.

(** the attribute [a] of [o'] is that of [o], treated: whenever [o]
    holds there a mapping or an object with a raw value that is
    present *)
Definition quantity_treated_at (container_repr : value -> string)
           (py_float : string -> option value) (a : string) (o o' : value)
  : Prop :=
  forall (wrap : dict -> value) (d : dict) (raw : value),
    holder wrap ->
    obj_attr o a = Some (wrap d) ->
    dict_get "has_raw_value" d = Some raw ->
    notnull_truth raw = Ok true ->
    exists d',
      obj_attr o' a = Some (wrap d')
      /\ quantity_treated container_repr py_float raw d d'.

(** the number of commas of a text *)
Fixpoint count_commas (s : string) : nat :=
  match s with
  | EmptyString => 0
  | String c r => (if Ascii.eqb c ","%char then 1 else 0) + count_commas r
  end.

(** the entries of an object specification that [make_record_dict]
    gives a value to: not the type name, and of the mappings those
    that open with ["$const"] *)
Definition record_dict_keeps (kv : string * value) : bool :=
  negb (String.eqb (fst kv) "$class_type")
  && match snd kv with
     | VDict ((k, _) :: _) => String.eqb k "$const"
     | _ => true
     end.

(** a nested-object element after a call of
    [make_object_from_list_item_dict]: the type name taken out, and the
    declared delimiter when the guard let it; as it was when the guard
    passed and there was no delimiter to take *)
Definition item_after_call (item : dict) : dict :=
  if dict_has "$spit_val" item
  then if dict_has "$split_val" item
       then dict_del "$class_type" (dict_del "$split_val" item)
       else item
  else dict_del "$class_type" item.

(** [o'] is [o] but for the attributes named: the same class, the same
    attribute names in the same order, every other attribute as it was;
    what is no object is left as it is *)
Definition same_but (names : list string) (o o' : value) : Prop :=
  (forall k, ~ In k names -> obj_attr o' k = obj_attr o k)
  /\ (~ is_obj o -> o' = o)
  /\ (forall c a, o = VObj c a ->
        exists a', o' = VObj c a' /\ dict_keys a' = dict_keys a).

(** the field name an attribute specification assigns under, before
    the crosswalk: the first key of a mapping, the name of a plain
    reference *)
Definition assigned_field (attribute_field : value) : option string :=
  match attribute_field with
  | VDict ((field, _) :: _) => Some field
  | VStr s => Some (field_of_reference s)
  | _ => None
  end.

(** the attribute name the crosswalk gives a field *)
Definition crosswalk_target (attribute_map : list (string * string))
           (field : string) : string :=
  match dict_get field attribute_map with
  | Some renamed => renamed
  | None => field
  end.

(** * Properties *)

(** ** Dictionaries *)

Lemma dict_get_cons {V : Type} (k k' : string) (v : V) (d : list (string * V)) :
  dict_get k ((k', v) :: d) = if String.eqb k' k then Some v else dict_get k d.
Proof. reflexivity. Qed.

Lemma dict_has_get {V : Type} (k : string) (d : list (string * V)) :
  dict_has k d = match dict_get k d with Some _ => true | None => false end.
Proof.
  induction d as [|[k' v] d IH]; [reflexivity|].
  unfold dict_has, dict_get in *. simpl. destruct (String.eqb k' k); auto.
Qed.

Lemma dict_find_get {V A : Type} (k : string) (found : V -> A) (missing : A)
      (d : list (string * V)) :
  dict_find k found missing d =
  match dict_get k d with Some v => found v | None => missing end.
Proof.
  induction d as [|[k' v] d IH]; [reflexivity|].
  unfold dict_get in *. simpl. destruct (String.eqb k' k); auto.
Qed.

Lemma dict_get_set_same {V : Type} (k : string) (v : V) (d : list (string * V)) :
  dict_get k (dict_set k v d) = Some v.
Proof.
  induction d as [|[k' v'] d IH]; cbn [dict_set].
  - rewrite dict_get_cons, String.eqb_refl. reflexivity.
  - destruct (String.eqb k' k) eqn:E; rewrite dict_get_cons, E; auto.
Qed.

Lemma dict_get_set_other {V : Type} (k k0 : string) (v : V)
      (d : list (string * V)) :
  k0 <> k -> dict_get k (dict_set k0 v d) = dict_get k d.
Proof.
  intros Hne.
  assert (E0 : String.eqb k0 k = false) by (apply String.eqb_neq; exact Hne).
  induction d as [|[k' v'] d IH]; cbn [dict_set].
  - rewrite dict_get_cons, E0. reflexivity.
  - destruct (String.eqb k' k0) eqn:E.
    + apply String.eqb_eq in E. subst k'. rewrite !dict_get_cons, E0.
      reflexivity.
    + rewrite !dict_get_cons. destruct (String.eqb k' k); auto.
Qed.

Lemma dict_get_In {V : Type} (k : string) (v : V) (d : list (string * V)) :
  dict_get k d = Some v -> In (k, v) d.
Proof.
  induction d as [|[k' v'] d IH]; [discriminate|].
  rewrite dict_get_cons. destruct (String.eqb k' k) eqn:E.
  - apply String.eqb_eq in E. intros [= ->]. subst. left. reflexivity.
  - intros H. right. auto.
Qed.

Lemma dict_get_None_notin {V : Type} (k : string) (d : list (string * V)) :
  dict_get k d = None -> ~ In k (map fst d).
Proof.
  induction d as [|[k' v'] d IH]; [intros _ []|].
  rewrite dict_get_cons. destruct (String.eqb k' k) eqn:E; [discriminate|].
  intros H [Heq|Hin]; simpl in *.
  - subst. rewrite String.eqb_refl in E. discriminate.
  - apply IH; assumption.
Qed.

(** ** The error monad *)

Lemma mapM_pure {A B : Type} (f : A -> B) (l : list A) :
  mapM (fun a => Ok (f a)) l = Ok (map f l).
Proof.
  induction l as [|a l IH]; [reflexivity|]. simpl. rewrite IH. reflexivity.
Qed.

Lemma mapM_ext {A B : Type} (f g : A -> result B) (l : list A) :
  (forall a, In a l -> f a = g a) -> mapM f l = mapM g l.
Proof.
  induction l as [|a l IH]; intros H; [reflexivity|]. simpl.
  rewrite (H a (or_introl eq_refl)), IH; [reflexivity|].
  intros b Hb. apply H. right. exact Hb.
Qed.

(** ** Pruning *)

Lemma is_value_dict (d : dict) :
  is_value (VDict d) =
  match d with
  | [] => false
  | _ =>
      match dict_get "id" d with
      | Some v => is_value v
      | None =>
          match dict_get "has_raw_value" d with
          | Some v => is_value v
          | None => false
          end
      end
  end.
Proof.
  destruct d as [|kv d]; [reflexivity|].
  change (is_value (VDict (kv :: d)))
    with (dict_find "id" (fun v => is_value v)
            (dict_find "has_raw_value" (fun v => is_value v) false (kv :: d))
            (kv :: d)).
  rewrite !dict_find_get. reflexivity.
Qed.

Lemma make_dict_fixed (o : value) : make_dict (make_dict o) = make_dict o.
Proof. destruct o; reflexivity. Qed.

Lemma make_dict_not_list (o : value) :
  (forall l, o <> VList l) -> forall l, make_dict o <> VList l.
Proof. intros H l. destruct o; simpl; try discriminate. apply H. Qed.

Lemma remake_filtered (p : value -> bool) (l : list value) :
  map make_dict (filter p (map make_dict l)) = filter p (map make_dict l).
Proof.
  induction l as [|o l IH]; [reflexivity|]. simpl.
  destruct (p (make_dict o)); simpl; rewrite IH, ?make_dict_fixed; reflexivity.
Qed.

Lemma renormalize_list (l : list value) :
  make_dict_from_nmdc_obj (make_dict_from_nmdc_obj (VList l)) =
  VList (filter is_value (map make_dict (filter is_value l))).
Proof. simpl. rewrite remake_filtered. reflexivity. Qed.

Lemma filter_all {A : Type} (p : A -> bool) (l : list A) :
  forallb p l = true -> filter p l = l.
Proof.
  induction l as [|a l IH]; [reflexivity|]. simpl.
  destruct (p a); simpl; [|discriminate]. intros H. rewrite IH; auto.
Qed.

Lemma filter_fixed_all {A : Type} (p : A -> bool) (l : list A) :
  filter p l = l -> forallb p l = true.
Proof.
  induction l as [|a l IH]; [reflexivity|]. simpl.
  destruct (p a) eqn:E; simpl.
  - intros [= H]. auto.
  - intros H. pose proof (filter_length_le p l) as Hle.
    rewrite H in Hle. simpl in Hle. lia.
Qed.

(** C4 (amended).  On every list, the second pruning does nothing but
    drop the pruned elements that fail [is_value]: whatever the list,
    pruning twice gives the pruned elements filtered once more.  Pruning
    applied twice equals pruning applied once for every argument that is
    not a list, and for a list exactly when its pruned elements all pass
    [is_value]. *)
Theorem normalize_twice (x : value) :
  (forall l, x = VList l ->
     make_dict_from_nmdc_obj (make_dict_from_nmdc_obj x) =
     VList (filter is_value (map make_dict (filter is_value l))))
  /\ ((forall l, x <> VList l) ->
      make_dict_from_nmdc_obj (make_dict_from_nmdc_obj x)
      = make_dict_from_nmdc_obj x)
  /\ (forall l, x = VList l ->
        (make_dict_from_nmdc_obj (make_dict_from_nmdc_obj x)
         = make_dict_from_nmdc_obj x
         <-> forallb is_value (map make_dict (filter is_value l)) = true)).
Proof.
  split; [|split].
  - intros l ->. apply renormalize_list.
  - intros Hx. destruct x; try reflexivity. exfalso. exact (Hx l eq_refl).
  - intros l ->. rewrite renormalize_list. cbn [make_dict_from_nmdc_obj]. split.
    + intros [= H]. apply filter_fixed_all. exact H.
    + intros H. rewrite (filter_all _ _ H). reflexivity.
Qed.

Lemma normalize_twice_witness :
  make_dict_from_nmdc_obj
    (make_dict_from_nmdc_obj
       (VList [VObj "Study" [("id", VStr "gold:1"); ("name", VNone)]; VNone])) =
  make_dict_from_nmdc_obj
    (VList [VObj "Study" [("id", VStr "gold:1"); ("name", VNone)]; VNone])
  /\ make_dict_from_nmdc_obj
       (make_dict_from_nmdc_obj
          (VList [VObj "GeolocationValue" [("latitude", VFloat "-33.46")];
                  VObj "Study" [("id", VStr "gold:1")]])) =
     VList [VDict [("id", VStr "gold:1")]].
Proof.
  split.
  - apply (proj2 (proj2 (normalize_twice
             (VList [VObj "Study" [("id", VStr "gold:1"); ("name", VNone)];
                     VNone]))) _ eq_refl).
    reflexivity.
  - exact (proj1 (normalize_twice
             (VList [VObj "GeolocationValue" [("latitude", VFloat "-33.46")];
                     VObj "Study" [("id", VStr "gold:1")]])) _ eq_refl).
Defined.

(** C4, as stated, fails: a list holding an object with neither
    identifier nor raw value prunes to a list with one mapping, which a
    second pruning drops. *)
Lemma normalize_twice_differs :
  let place :=
    VObj "GeolocationValue"
      [("latitude", VFloat "-33.46"); ("longitude", VFloat "150.17");
       ("has_raw_value", VNone)] in
  make_dict_from_nmdc_obj (VList [place])
  = VList [VDict [("latitude", VFloat "-33.46"); ("longitude", VFloat "150.17")]]
  /\ make_dict_from_nmdc_obj (make_dict_from_nmdc_obj (VList [place])) = VList []
  /\ make_dict_from_nmdc_obj (make_dict_from_nmdc_obj (VList [place]))
     <> make_dict_from_nmdc_obj (VList [place]).
Proof. cbv zeta. split; [reflexivity|]. split; [reflexivity|discriminate]. Qed.

Lemma is_value_dict_keys (d : dict) :
  is_value (VDict d) =
  match dict_get "id" d with
  | Some v => is_value v
  | None =>
      match dict_get "has_raw_value" d with
      | Some v => is_value v
      | None => false
      end
  end.
Proof. rewrite is_value_dict. destruct d; reflexivity. Qed.

Lemma dict_get_notin {V : Type} (k : string) (d : list (string * V)) :
  ~ In k (map fst d) -> dict_get k d = None.
Proof.
  induction d as [|[k' v'] d IH]; intros H; [reflexivity|].
  rewrite dict_get_cons. destruct (String.eqb k' k) eqn:E.
  - apply String.eqb_eq in E. subst. exfalso. apply H. left. reflexivity.
  - apply IH. intros Hin. apply H. right. exact Hin.
Qed.

(** C2: the code at a mapping with a raw value beside a null ["id"].
    [is_value] reads ["has_raw_value"] only when the mapping has no
    ["id"] key; with the key, the identifier decides alone, whatever the
    raw value.  The mapping of the example is absent for [is_value], and
    as an element of a list it is dropped; as the value of an attribute,
    where its null sub-keys are dropped before the test, the same mapping
    is kept.  A mapping with only an empty ["id"] is absent when the
    identifier is a plain string, and present when it is an instance of
    a subclass of [str], which the emptiness test passes by. *)
Theorem null_id_hides_raw_value :
  let d := [("id", VNone); ("has_raw_value", VStr "5 mg")] in
  (exists raw, dict_get "has_raw_value" d = Some raw /\ notnull raw = true)
  /\ is_value (VDict d) = false
  /\ make_dict_from_nmdc_obj (VList [VDict d]) = VList []
  /\ make_dict (VObj "Biosample" [("id", VStr "s1"); ("depth", VList [VDict d])])
     = VDict [("id", VStr "s1")]
  /\ make_dict (VObj "Biosample" [("id", VStr "s1"); ("depth", VDict d)])
     = VDict [("id", VStr "s1");
              ("depth", VDict [("has_raw_value", VStr "5 mg")])]
  /\ (forall (m : dict) (ident : value),
        dict_get "id" m = Some ident -> is_value (VDict m) = is_value ident)
  /\ is_value (VDict [("id", VStr "")]) = false
  /\ is_value (VDict [("id", VStrSub "StudyId" "")]) = true.
Proof.
  cbv zeta. split; [exists (VStr "5 mg"); split; reflexivity|].
  repeat (split; [reflexivity|]). split; [|split; reflexivity].
  intros m ident Hid. rewrite is_value_dict_keys, Hid. reflexivity.
Qed.

(** ** Strings *)

Lemma lstrip_fixed (s : string) : lstrip (lstrip s) = lstrip s.
Proof.
  induction s as [|c r IH]; [reflexivity|]. simpl.
  destruct (is_space c) eqn:E; [exact IH|]. simpl. rewrite E. reflexivity.
Qed.

Lemma rstrip_fixed (s : string) : rstrip (rstrip s) = rstrip s.
Proof.
  induction s as [|c r IH]; [reflexivity|]. simpl.
  destruct (rstrip r) as [|c' r'] eqn:E.
  - destruct (is_space c) eqn:Ec; [reflexivity|]. simpl. rewrite Ec. reflexivity.
  - change (rstrip (String c (String c' r')))
      with (match rstrip (String c' r') with
            | EmptyString => if is_space c then EmptyString else String c EmptyString
            | r0 => String c r0
            end).
    rewrite IH. reflexivity.
Qed.

Lemma lstrip_length (s : string) : String.length (lstrip s) <= String.length s.
Proof.
  induction s as [|c r IH]; [apply le_n|]. simpl.
  destruct (is_space c); simpl; lia.
Qed.

Lemma lstrip_rstrip (t : string) : lstrip t = t -> lstrip (rstrip t) = rstrip t.
Proof.
  destruct t as [|c r]; [reflexivity|]. simpl.
  destruct (is_space c) eqn:E.
  - intros H. pose proof (lstrip_length r) as Hl. rewrite H in Hl. simpl in Hl. lia.
  - intros _. destruct (rstrip r); simpl; rewrite E; reflexivity.
Qed.

Lemma strip_fixed (s : string) : strip (strip s) = strip s.
Proof.
  unfold strip. rewrite (lstrip_rstrip (lstrip s) (lstrip_fixed s)).
  apply rstrip_fixed.
Qed.

Lemma has_comma_lstrip (s : string) :
  has_comma s = false -> has_comma (lstrip s) = false.
Proof.
  induction s as [|c r IH]; [reflexivity|]. simpl.
  intros H. apply orb_false_iff in H. destruct H as [Hc Hr].
  destruct (is_space c); [auto|]. simpl. rewrite Hc, Hr. reflexivity.
Qed.

Lemma has_comma_rstrip (s : string) :
  has_comma s = false -> has_comma (rstrip s) = false.
Proof.
  induction s as [|c r IH]; [reflexivity|]. simpl.
  intros H. apply orb_false_iff in H. destruct H as [Hc Hr].
  specialize (IH Hr). destruct (rstrip r) as [|c' r'].
  - destruct (is_space c); [reflexivity|]. simpl. rewrite Hc. reflexivity.
  - change (has_comma (String c (String c' r')))
      with (Ascii.eqb c ","%char || has_comma (String c' r')).
    rewrite Hc, IH. reflexivity.
Qed.

Lemma has_comma_strip (s : string) :
  has_comma s = false -> has_comma (strip s) = false.
Proof. intros H. apply has_comma_rstrip, has_comma_lstrip, H. Qed.

Lemma has_comma_rev (acc s : string) :
  has_comma (rev_string acc s) = has_comma acc || has_comma s.
Proof.
  revert acc. induction s as [|c r IH]; intros acc; simpl.
  - rewrite orb_false_r. reflexivity.
  - rewrite IH. simpl.
    destruct (Ascii.eqb c ","%char), (has_comma acc), (has_comma r); reflexivity.
Qed.

Lemma prefix_comma (c : ascii) (r : string) :
  prefix "," (String c r) = Ascii.eqb c ","%char.
Proof.
  change (prefix "," (String c r))
    with (if ascii_dec ","%char c then prefix "" r else false).
  destruct (ascii_dec ","%char c) as [<-|Hne].
  - destruct r; reflexivity.
  - symmetry. apply Ascii.eqb_neq. congruence.
Qed.

(** the pieces of a split on the comma hold no comma *)
Lemma split_comma_pieces (s cur : string) :
  has_comma cur = false ->
  Forall (fun piece => has_comma piece = false) (split_aux "," 0 cur s).
Proof.
  revert cur. induction s as [|c r IH]; intros cur Hcur.
  - simpl. constructor; [|constructor]. rewrite has_comma_rev. simpl. exact Hcur.
  - cbn [split_aux]. rewrite prefix_comma.
    destruct (Ascii.eqb c ","%char) eqn:E.
    + constructor.
      * rewrite has_comma_rev. simpl. exact Hcur.
      * apply IH. reflexivity.
    + apply IH. simpl. rewrite E, Hcur. reflexivity.
Qed.

(** ** Induction on values, through lists and mappings *)

Section ValueInduction.

Variable P : value -> Prop.
Hypothesis HNone : P VNone.
Hypothesis HNaN : P VNaN.
Hypothesis HBool : forall b, P (VBool b).
Hypothesis HInt : forall z, P (VInt z).
Hypothesis HFloat : forall r, P (VFloat r).
Hypothesis HStr : forall s, P (VStr s).
Hypothesis HStrSub : forall c s, P (VStrSub c s).
Hypothesis HList : forall l, Forall P l -> P (VList l).
Hypothesis HDict : forall d, Forall (fun kv => P (snd kv)) d -> P (VDict d).
Hypothesis HObj :
  forall c d, Forall (fun kv => P (snd kv)) d -> P (VObj c d).

Fixpoint value_induction (v : value) : P v :=
  match v with
  | VNone => HNone
  | VNaN => HNaN
  | VBool b => HBool b
  | VInt z => HInt z
  | VFloat r => HFloat r
  | VStr s => HStr s
  | VStrSub c s => HStrSub c s
  | VList l =>
      HList l
        ((fix all (l : list value) : Forall P l :=
            match l with
            | [] => Forall_nil _
            | x :: r => Forall_cons _ (value_induction x) (all r)
            end) l)
  | VDict d =>
      HDict d
        ((fix all (d : dict) : Forall (fun kv => P (snd kv)) d :=
            match d with
            | [] => Forall_nil _
            | kv :: r => Forall_cons kv (value_induction (snd kv)) (all r)
            end) d)
  | VObj c d =>
      HObj c d
        ((fix all (d : dict) : Forall (fun kv => P (snd kv)) d :=
            match d with
            | [] => Forall_nil _
            | kv :: r => Forall_cons kv (value_induction (snd kv)) (all r)
            end) d)
  end.

End ValueInduction.

(** the field name a specification resolves to is trimmed and holds no
    comma *)
Lemma resolved_field_clean (spec : value) :
  forall f dt,
    get_field_and_dtype_from_attribute_field spec = Ok (VStr f, dt) ->
    has_comma f = false /\ strip f = f.
Proof.
  induction spec using value_induction; intros f dt Hres;
    try discriminate Hres.
  1, 2: cbn [get_field_and_dtype_from_attribute_field] in Hres;
    destruct (has_comma s) eqn:Ec;
    [ pose proof (split_comma_pieces s "" eq_refl) as Hp;
      destruct (split_aux "," 0 "" s) as [|a [|b [|c0 l]]];
      try discriminate Hres;
      injection Hres as <- <-; inversion Hp as [|? ? Ha _]; subst;
      split; [apply has_comma_strip, Ha|apply strip_fixed]
    | injection Hres as <- <-;
      split; [apply has_comma_strip, Ec|apply strip_fixed] ].
  - cbn [get_field_and_dtype_from_attribute_field] in Hres.
    rewrite !dict_find_get in Hres.
    destruct (dict_get "$const" d) as [c|] eqn:Econst.
    + apply dict_get_In in Econst. rewrite Forall_forall in H.
      exact (H _ Econst f dt Hres).
    + destruct (dict_get "$field" d) as [w|] eqn:Efield; [|discriminate Hres].
      apply dict_get_In in Efield. rewrite Forall_forall in H.
      exact (H _ Efield f dt Hres).
Qed.

Lemma record_has_clean_field (r : record) (f : string) :
  has_comma f = false -> strip f = f ->
  record_has_field r (VStr f) = Ok (mem_string f (fields_ r)).
Proof.
  intros Hc Hs. unfold record_has_field, field_of_reference.
  rewrite Hc, Hs. reflexivity.
Qed.

Lemma mem_string_get (f : string) (r : record) :
  mem_string f (fields_ r) = true -> exists v, dict_get f r = Some v.
Proof.
  unfold mem_string, fields_. induction r as [|[k v] r IH]; [discriminate|].
  cbn [map fst existsb]. rewrite dict_get_cons, String.eqb_sym.
  destruct (String.eqb k f); [intros _; eexists; reflexivity|exact IH].
Qed.

Lemma bind_ok {A B : Type} (m : result A) (k : A -> result B) (b : B) :
  bind m k = Ok b -> exists a, m = Ok a /\ k a = Ok b.
Proof. destruct m as [a|e]; [|discriminate]. intros H. exists a. auto. Qed.

Lemma setattr_is_obj (o : value) (n : string) (v o' : value) :
  setattr_ o n v = Ok o' -> is_obj o'.
Proof.
  destruct o; try discriminate. intros [= <-]. eexists. eexists. reflexivity.
Qed.

Lemma clear_entry_kept (attrs : dict) (k : string) (d : dict) :
  In (k, VDict d) (map clear_entry attrs) -> junk_dict (VDict d) = false.
Proof.
  rewrite in_map_iff. intros [[k0 v0] [Heq _]]. unfold clear_entry in Heq.
  cbn [snd fst] in Heq. destruct (junk_dict v0) eqn:E; [discriminate|].
  injection Heq as -> ->. exact E.
Qed.

Lemma clear_all_objs (objs : list value) :
  Forall is_obj objs ->
  exists cleared,
    mapM clear_junk objs = Ok cleared
    /\ Forall2 (fun obj obj' =>
                  exists c attrs,
                    obj = VObj c attrs /\ obj' = VObj c (map clear_entry attrs))
               objs cleared.
Proof.
  induction 1 as [|o objs [c [attrs ->]] _ [cleared [Hm HF]]].
  - exists []. split; [reflexivity|constructor].
  - exists (VObj c (map clear_entry attrs) :: cleared). split.
    + simpl. rewrite Hm. reflexivity.
    + constructor; [|exact HF]. exists c, attrs. auto.
Qed.

Lemma Forall2_In_right {A B : Type} (R : A -> B -> Prop) (l : list A)
      (l' : list B) (b : B) :
  Forall2 R l l' -> In b l' -> exists a, In a l /\ R a b.
Proof.
  induction 1 as [|a0 b0 l l' HR _ IH]; intros Hin; [destruct Hin|].
  destruct Hin as [<-|Hin].
  - exists a0. split; [left; reflexivity|exact HR].
  - destruct (IH Hin) as [a [Ha Hr]]. exists a. split; [right; exact Ha|exact Hr].
Qed.

(** ** The engine *)

Section EngineFacts.

Variable py_eval : string -> result value.
Variable container_repr : value -> string.
Variable py_float : string -> option value.
Variable nmdc : string -> option class_def.
Variable eval_pre : string -> result pre_hook.
Variable eval_post : string -> result post_hook.

Local Abbreviation resolve := (get_record_attr py_eval container_repr).
Local Abbreviation coerce := (coerce_value py_eval container_repr).
Local Abbreviation to_str := (py_str container_repr).

(** resolving a specification that names the field [f] of type [dt] *)
Lemma resolve_reference (r : record) (spec : value) (f dt : string) (flag : bool) :
  (forall d, spec = VDict d -> dict_get "$const" d = None) ->
  get_field_and_dtype_from_attribute_field spec = Ok (VStr f, dt) ->
  resolve r spec flag =
  if mem_string f (fields_ r)
  then v <- getattr_ r f ;;
       present <- notnull_truth v ;;
       if present : bool then coerce v dt else Ok VNone
  else if flag then coerce (VStr f) dt else Ok VNone.
Proof.
  intros Hnot_const Hspec.
  destruct (resolved_field_clean spec f dt Hspec) as [Hc Hs].
  assert (Hgeneric :
    resolve r spec flag =
    ('(field, dtype) <- get_field_and_dtype_from_attribute_field spec ;;
     has <- record_has_field r field ;;
     val <- (if has
             then match field with
                  | VStr f | VStrSub _ f => getattr_ r f
                  | _ => Raise TypeError
                  end
             else Ok (if flag then field else VNone)) ;;
     present <- notnull_truth val ;;
     if present : bool then coerce val dtype else Ok VNone)).
  { unfold get_record_attr. destruct spec; try reflexivity.
    rewrite (Hnot_const d eq_refl). reflexivity. }
  rewrite Hgeneric, Hspec. cbn [bind].
  rewrite record_has_clean_field by assumption. cbn [bind].
  destruct (mem_string f (fields_ r)); [reflexivity|].
  destruct flag; reflexivity.
Qed.

Lemma notnull_truth_null (v : value) :
  isnull v = true -> notnull_truth v = Ok false.
Proof. destruct v; try discriminate; reflexivity. Qed.

(** C3.  For a specification that resolves to the field [f] with the
    type [dt], and is not a constant: the field is present exactly
    when [f] is among the names of the record, whatever the cells
    hold; a present field whose cell is null resolves to [None]; an
    absent field resolves to the name [f] coerced to [dt] when the
    flag is set. *)
Theorem field_resolution (r : record) (spec : value) (f dt : string)
  (Hnot_const : forall d, spec = VDict d -> dict_get "$const" d = None)
  (Hspec : get_field_and_dtype_from_attribute_field spec = Ok (VStr f, dt)) :
  record_has_field r (VStr f) = Ok (mem_string f (fields_ r))
  /\ (forall r', fields_ r' = fields_ r ->
        record_has_field r' (VStr f) = record_has_field r (VStr f))
  /\ (forall v flag,
        mem_string f (fields_ r) = true -> dict_get f r = Some v ->
        isnull v = true -> resolve r spec flag = Ok VNone)
  /\ (mem_string f (fields_ r) = false ->
      resolve r spec true = coerce (VStr f) dt).
Proof.
  destruct (resolved_field_clean spec f dt Hspec) as [Hc Hs].
  split; [apply record_has_clean_field; assumption|].
  split.
  { intros r' Hf. rewrite !record_has_clean_field, Hf by assumption.
    reflexivity. }
  split.
  - intros v flag Hmem Hget Hnull.
    rewrite (resolve_reference r spec f dt flag Hnot_const Hspec), Hmem.
    unfold getattr_. rewrite Hget. cbn [bind].
    rewrite (notnull_truth_null v Hnull). reflexivity.
  - intros Hmem.
    rewrite (resolve_reference r spec f dt true Hnot_const Hspec), Hmem.
    reflexivity.
Qed.

Local Abbreviation set_fields := (set_attribute_fields py_eval container_repr nmdc).
Local Abbreviation build := (build_objects py_eval container_repr nmdc).

Lemma set_nmdc_object_obj (obj : value) (r : record)
      (amap : list (string * string)) (af obj' af' : value) :
  set_nmdc_object py_eval container_repr nmdc obj r amap af = Ok (obj', af') ->
  is_obj obj'.
Proof.
  unfold set_nmdc_object. intros Hrun.
  apply bind_ok in Hrun. destruct Hrun as [[[[fld av] rep] af2] [_ Hrun]].
  cbn zeta in Hrun.
  apply bind_ok in Hrun. destruct Hrun as [o [Hset Hrun]].
  injection Hrun as <- _. eapply setattr_is_obj. exact Hset.
Qed.

Lemma set_attribute_fields_obj (afs : list value) :
  forall obj r amap obj' afs',
    is_obj obj -> set_fields obj r amap afs = Ok (obj', afs') -> is_obj obj'.
Proof.
  induction afs as [|af afs IH]; intros obj r amap obj' afs' Hobj Hrun.
  - injection Hrun as <- _. exact Hobj.
  - cbn [set_attribute_fields] in Hrun.
    apply bind_ok in Hrun. destruct Hrun as [[obj1 af1] [Hfirst Hrun]].
    cbn zeta in Hrun.
    apply bind_ok in Hrun. destruct Hrun as [[obj2 rest2] [Hrest Hrun]].
    cbn zeta in Hrun. injection Hrun as <- _.
    apply (IH obj1 r amap obj2 rest2); [|exact Hrest].
    eapply set_nmdc_object_obj. exact Hfirst.
Qed.

Lemma make_nmdc_object_obj (cls : class_def) (cmap : dict) (afs : list value)
      (amap : list (string * string)) (r : record) (obj : value)
      (afs' : list value) :
  make_nmdc_object py_eval container_repr nmdc cls cmap afs amap r
  = Ok (obj, afs') ->
  is_obj obj.
Proof.
  unfold make_nmdc_object. intros Hrun.
  apply bind_ok in Hrun. destruct Hrun as [obj0 [_ Hrun]].
  apply bind_ok in Hrun. destruct Hrun as [obj1 [Htype Hrun]].
  eapply set_attribute_fields_obj; [|exact Hrun].
  eapply setattr_is_obj. exact Htype.
Qed.

Lemma build_objects_obj (rows : list record) :
  forall cls cmap afs amap objs afs',
    build cls cmap afs amap rows = Ok (objs, afs') -> Forall is_obj objs.
Proof.
  induction rows as [|r rows IH]; intros cls cmap afs amap objs afs' Hrun.
  - injection Hrun as <- _. constructor.
  - cbn [build_objects] in Hrun.
    apply bind_ok in Hrun. destruct Hrun as [[obj afs1] [Hrow Hrun]].
    cbn zeta in Hrun.
    apply bind_ok in Hrun. destruct Hrun as [[objs1 afs2] [Hrest Hrun]].
    cbn zeta in Hrun. injection Hrun as <- _. constructor.
    + eapply make_nmdc_object_obj. exact Hrow.
    + eapply IH. exact Hrest.
Qed.

(** C10.  Once the rows are built, and before the first post-transform
    hook is resolved, every attribute holding a mapping with neither an
    ["id"] nor a ["has_raw_value"] key is set to [None], whatever else
    the mapping holds; the other attributes stay as they are, and the
    hooks receive objects in which every mapping held by an attribute
    has one of the two keys. *)
Theorem junk_mappings_cleared
  (nmdc_df df : list record) (nmdc_class : class_def) (constructor_map : dict)
  (attribute_fields afs : list value) (attribute_map : list (string * string))
  (transform_map : transform_map_t) (nmdc_objs : list value)
  (Hpre : run_pre eval_pre (transforms_of (pre transform_map)) nmdc_df = Ok df)
  (Hbuild : build nmdc_class constructor_map attribute_fields attribute_map df
            = Ok (nmdc_objs, afs)) :
  exists cleared,
    mapM clear_junk nmdc_objs = Ok cleared
    /\ dataframe_to_dict py_eval container_repr py_float nmdc eval_pre eval_post
         nmdc_df nmdc_class constructor_map attribute_fields attribute_map
         transform_map
       = (final <-
            run_post container_repr py_float eval_post
              (transforms_of (post transform_map))
              {| kw_nmdc_class := nmdc_class;
                 kw_constructor_map := constructor_map;
                 kw_attribute_fields := afs;
                 kw_attribute_map := attribute_map |}
              cleared ;;
          Ok (map make_dict_from_nmdc_obj final))
    /\ Forall2 (fun obj obj' =>
                  exists c attrs,
                    obj = VObj c attrs /\ obj' = VObj c (map clear_entry attrs))
               nmdc_objs cleared
    /\ (forall c attrs k d,
          In (VObj c attrs) cleared -> In (k, VDict d) attrs ->
          dict_has "id" d = true \/ dict_has "has_raw_value" d = true)
    /\ (forall k d,
          dict_has "id" d = false -> dict_has "has_raw_value" d = false ->
          clear_entry (k, VDict d) = (k, VNone))
    /\ (forall kv, junk_dict (snd kv) = false -> clear_entry kv = kv).
Proof.
  destruct (clear_all_objs nmdc_objs (build_objects_obj _ _ _ _ _ _ _ Hbuild))
    as [cleared [Hclear Hrel]].
  exists cleared. split; [exact Hclear|]. split.
  { unfold dataframe_to_dict. rewrite Hpre. cbn [bind]. rewrite Hbuild.
    cbn [bind]. cbn zeta. rewrite Hclear. reflexivity. }
  split; [exact Hrel|]. split.
  { intros c attrs k d Hin Hk.
    destruct (Forall2_In_right _ _ _ _ Hrel Hin) as [obj [_ [c0 [attrs0 [_ Heq]]]]].
    injection Heq as -> ->. apply clear_entry_kept in Hk.
    unfold junk_dict in Hk. apply andb_false_iff in Hk.
    destruct Hk as [Hk|Hk]; apply negb_false_iff in Hk; auto. }
  split.
  - intros k d Hid Hraw. unfold clear_entry, junk_dict. cbn [snd fst].
    rewrite Hid, Hraw. reflexivity.
  - intros kv Hk. unfold clear_entry. rewrite Hk. reflexivity.
Qed.

(** *** The list of nested objects *)

Local Abbreviation item_objects :=
  (make_object_from_list_item_dict py_eval container_repr nmdc).
Local Abbreviation field_values :=
  (list_item_field_values py_eval container_repr).
Local Abbreviation record_values :=
  (list_item_record_values py_eval container_repr).

Lemma mapM_nth {A B : Type} (f : A -> result B) (l : list A) :
  forall l', mapM f l = Ok l' ->
    List.length l' = List.length l
    /\ forall i da db, i < List.length l -> f (nth i l da) = Ok (nth i l' db).
Proof.
  induction l as [|a l IH]; intros l' H.
  - injection H as <-. split; [reflexivity|]. intros i da db Hi. inversion Hi.
  - cbn [mapM] in H.
    apply bind_ok in H. destruct H as [b [Hb H]].
    apply bind_ok in H. destruct H as [bs [Hbs H]]. injection H as <-.
    destruct (IH _ Hbs) as [Hlen Hnth]. split; [simpl; rewrite Hlen; reflexivity|].
    intros [|i] da db Hi; [exact Hb|]. simpl. apply Hnth. simpl in Hi. lia.
Qed.

(** a call on a nested-object element raises, whatever the record and
    the element *)
Lemma item_objects_raise (r : record) (item : dict) :
  exists e, fst (item_objects r item) = Raise e.
Proof.
  unfold make_object_from_list_item_dict.
  destruct (pop_split_val item) as [[split_val|e] item1];
    [|exists e; reflexivity].
  destruct (pop_class_type nmdc item1) as [[class_type|e] item2];
    cbn [fst bind]; [|exists e; reflexivity].
  destruct (record_values r split_val item2) as [cols|e]; cbn [bind];
    [exists NameError|exists e]; reflexivity.
Qed.

(** C1: the code at the example.  The sequences of the two sub-fields
    and the keys are what the claim zips, and a sub-field whose field is
    not in the record contributes [[None]]; but the rows are asked of
    [zip_longest], a name the module does not define.  The call raises
    [NameError] on the example and on every untyped element whose
    sequences were computed, of equal length or not, and no call on any
    record and element returns a list. *)
Theorem nested_object_list_raises :
  record_values [("A", VStr "a,b"); ("B", VStr "x,y")] (VStr ",")
                [("id", VStr "A"); ("name", VStr "B")]
  = Ok [[VStr "a"; VStr "b"]; [VStr "x"; VStr "y"]]
  /\ list_item_keys [("id", VStr "A"); ("name", VStr "B")] = ["id"; "name"]
  /\ item_objects [("A", VStr "a,b"); ("B", VStr "x,y")]
                  [("id", VStr "A"); ("name", VStr "B")]
     = (Raise NameError, [("id", VStr "A"); ("name", VStr "B")])
  /\ (forall cols, zip_longest cols = Raise NameError)
  /\ (forall (r : record) (item : dict) (cols : list (list value)),
        dict_has "$spit_val" item = false ->
        dict_get "$class_type" item = None ->
        record_values r (VStr ",") item = Ok cols ->
        item_objects r item = (Raise NameError, item))
  /\ (forall (r : record) (item : dict) (objs : list value),
        fst (item_objects r item) <> Ok objs)
  /\ (forall (r : record) (split_val spec : value) (f dt : string),
        (forall d, spec = VDict d -> dict_get "$const" d = None) ->
        get_field_and_dtype_from_attribute_field spec = Ok (VStr f, dt) ->
        mem_string f (fields_ r) = false ->
        field_values r split_val spec = Ok [VNone]).
Proof.
  split; [reflexivity|]. split; [reflexivity|]. split; [reflexivity|].
  split; [reflexivity|]. split; [|split].
  - intros r item cols Hguard Hclass Hcols.
    unfold make_object_from_list_item_dict, pop_split_val, pop_class_type.
    rewrite Hguard, Hclass. cbn [bind]. rewrite Hcols. reflexivity.
  - intros r item objs Hrun. destruct (item_objects_raise r item) as [e He].
    rewrite He in Hrun. discriminate Hrun.
  - intros r split_val spec f dt Hnc Hspec Hmem. unfold list_item_field_values.
    rewrite (resolve_reference r spec f dt false Hnc Hspec), Hmem. reflexivity.
Qed.

(** *** The post-transform hooks *)

Local Abbreviation date_hook := (make_iso_8601_date_value container_repr).
Local Abbreviation quantity_hook := (make_quantity_value container_repr py_float).
Local Abbreviation q_step := (quantity_step container_repr py_float).
Local Abbreviation treated := (quantity_treated container_repr py_float).
Local Abbreviation treated_at := (quantity_treated_at container_repr py_float).

Lemma dict_has_of_get {V : Type} (k : string) (d : list (string * V)) (v : V) :
  dict_get k d = Some v -> dict_has k d = true.
Proof. intros H. rewrite dict_has_get, H. reflexivity. Qed.

(** C6: the code at the example and at a date that does not parse.  The
    30th of October 2014 is rewritten to ["2014-10-30"], not to
    ["2014-10-14"].  A text that is no date of the format leaves the
    object as it was; the line then printed reads the [id] of the
    object: with an [id] the failure is printed and the hook goes on,
    without one the hook raises [AttributeError]. *)
Theorem date_hook_at_the_examples :
  date_hook
    [VObj "Biosample"
       [("id", VStr "s1"); ("collected", VStr "30-OCT-14 12.00.00 AM")]]
    ["collected"]
  = Ok ([VObj "Biosample" [("id", VStr "s1"); ("collected", VStr "2014-10-30")]],
        [Executing "make_iso_8601_date" ["collected"]])
  /\ VStr "2014-10-30" <> VStr "2014-10-14"
  /\ date_hook
       [VObj "Biosample" [("collected", VStr "31-FEB-14 12.00.00 AM")]]
       ["collected"]
     = Raise AttributeError
  /\ (forall (c : string) (attrs : dict) (attribute : string) (v : value)
             (rest : list value) (more : list string),
        dict_get attribute attrs = Some v ->
        fst (split_once (to_str v)) <> "None" ->
        strptime_d_b_y (fst (split_once (to_str v))) = None ->
        (dict_get "id" attrs = None ->
         date_hook (VObj c attrs :: rest) (attribute :: more)
         = Raise AttributeError)
        /\ (forall ident, dict_get "id" attrs = Some ident ->
              date_step container_repr attribute (VObj c attrs)
              = Ok (VObj c attrs,
                    [PropertyError ident attribute
                       (fst (split_once (to_str v)))]))).
Proof.
  split; [reflexivity|]. split; [discriminate|]. split; [reflexivity|].
  intros c attrs attribute v rest more Hget Hnone Hparse.
  assert (Hstep : date_step container_repr attribute (VObj c attrs)
                  = (ident <- getattr_obj (VObj c attrs) "id" ;;
                     Ok (VObj c attrs,
                         [PropertyError ident attribute
                            (fst (split_once (to_str v)))]))).
  { unfold date_step. cbn [hasattr_ getattr_obj].
    rewrite (dict_has_of_get _ _ _ Hget). unfold getattr_. rewrite Hget.
    cbn [bind]. cbn zeta. apply String.eqb_neq in Hnone. rewrite Hnone.
    cbn [negb]. rewrite Hparse. reflexivity. }
  split.
  - intros Hid. unfold make_iso_8601_date_value.
    cbn [date_loop date_objs]. rewrite Hstep. cbn [getattr_obj].
    unfold getattr_. rewrite Hid. reflexivity.
  - intros ident Hid. rewrite Hstep. cbn [getattr_obj].
    unfold getattr_. rewrite Hid. reflexivity.
Qed.

Lemma has_raw_value_present (wrap : dict -> value) (c : string)
      (attrs d : dict) (attribute : string) (raw : value) :
  holder wrap ->
  dict_get attribute attrs = Some (wrap d) ->
  dict_get "has_raw_value" d = Some raw ->
  has_raw_value (VObj c attrs) attribute = notnull_truth raw.
Proof.
  intros Hw Hget Hraw. unfold has_raw_value. cbn [getattr_obj].
  unfold getattr_. rewrite Hget. cbn [bind].
  destruct Hw as [->|[c' ->]]; rewrite Hraw; reflexivity.
Qed.

Lemma quantity_step_present (wrap : dict -> value) (c : string)
      (attrs d d' : dict) (attribute : string) (raw : value) :
  holder wrap ->
  dict_get attribute attrs = Some (wrap d) ->
  dict_get "has_raw_value" d = Some raw ->
  notnull_truth raw = Ok true ->
  split_quantity container_repr py_float d = Ok d' ->
  q_step attribute (VObj c attrs)
  = Ok (VObj c (dict_set attribute (wrap d') attrs)).
Proof.
  intros Hw Hget Hraw Hnn Hsplit. unfold quantity_step.
  rewrite (has_raw_value_present wrap c attrs d attribute raw Hw Hget Hraw), Hnn.
  cbn [bind getattr_obj]. unfold getattr_. rewrite Hget. cbn [bind].
  destruct Hw as [->|[c' ->]]; rewrite Hsplit; reflexivity.
Qed.

(** the step passes over an attribute without a raw value to read *)
Lemma quantity_step_absent (c : string) (attrs : dict) (attribute : string)
      (v : value) :
  dict_get attribute attrs = Some v ->
  match v with
  | VNone | VStrSub _ _ => True
  | VDict d | VObj _ d =>
      match dict_get "has_raw_value" d with
      | Some raw => notnull_truth raw = Ok false
      | None => True
      end
  | _ => False
  end ->
  q_step attribute (VObj c attrs) = Ok (VObj c attrs).
Proof.
  intros Hget Hv. unfold quantity_step, has_raw_value. cbn [getattr_obj].
  unfold getattr_. rewrite Hget. cbn [bind].
  destruct v; try contradiction; try reflexivity;
    destruct (dict_get "has_raw_value" _); try rewrite Hv; reflexivity.
Qed.

Lemma split_quantity_treated (d : dict) (raw : value) :
  dict_get "has_raw_value" d = Some raw ->
  exists d', split_quantity container_repr py_float d = Ok d' /\ treated raw d d'.
Proof.
  intros Hraw. unfold split_quantity, getattr_. rewrite Hraw. cbn [bind].
  unfold quantity_treated.
  destruct (split_once (to_str raw)) as [head tail]. cbn [fst snd].
  cbv beta iota zeta. eexists. split; [reflexivity|].
  destruct tail as [t|], (py_float (strip head)) as [x|];
    rewrite ?dict_get_set_same;
    repeat (rewrite dict_get_set_other by discriminate);
    rewrite ?dict_get_set_same; auto.
Qed.

Lemma quantity_treated_again (raw : value) (d d1 d2 : dict) :
  treated raw d d1 -> treated raw d1 d2 -> treated raw d d2.
Proof.
  unfold quantity_treated. intros [_ [Hn Hu]] [Hr' [Hn' Hu']].
  split; [exact Hr'|]. split.
  - rewrite Hn'. destruct (py_float _); [reflexivity|exact Hn].
  - rewrite Hu'. destruct (snd _); [reflexivity|exact Hu].
Qed.

Lemma quantity_ready_spec (names : list string) (o : value) :
  quantity_ready names o = true <->
  forall a, In a names ->
    exists v, obj_attr o a = Some v /\ quantity_ready_value v = true.
Proof.
  unfold quantity_ready. rewrite forallb_forall. split; intros H a Ha.
  - specialize (H a Ha). destruct (obj_attr o a) as [v|]; [|discriminate].
    exists v. auto.
  - destruct (H a Ha) as [v [-> Hv]]. exact Hv.
Qed.

Lemma holder_dict (wrap : dict -> value) (d d0 : dict) :
  holder wrap -> wrap d = VDict d0 -> wrap = VDict /\ d = d0.
Proof.
  intros [->|[c ->]] H; [|discriminate H]. injection H as ->. auto.
Qed.

Lemma holder_obj (wrap : dict -> value) (d d0 : dict) (c0 : string) :
  holder wrap -> wrap d = VObj c0 d0 -> wrap = VObj c0 /\ d = d0.
Proof.
  intros [->|[c ->]] H; [discriminate H|]. injection H as -> ->. auto.
Qed.

(** one step on an object that is ready for the attributes [names] *)
Lemma quantity_step_ready (names : list string) (a : string) (o : value) :
  In a names -> quantity_ready names o = true ->
  exists o',
    q_step a o = Ok o'
    /\ quantity_ready names o' = true
    /\ (forall b, b <> a -> obj_attr o' b = obj_attr o b)
    /\ treated_at a o o'.
Proof.
  intros Ha Hready. pose proof (proj1 (quantity_ready_spec names o) Hready) as Hall.
  destruct (Hall a Ha) as [v [Hv Hrv]].
  destruct o as [| | | | | | | | |c attrs]; try discriminate Hv.
  cbn [obj_attr] in Hv.
  assert (Hskip :
    match v with
    | VNone | VStrSub _ _ => True
    | VDict d | VObj _ d =>
        match dict_get "has_raw_value" d with
        | Some raw => notnull_truth raw = Ok false
        | None => True
        end
    | _ => False
    end ->
    exists o',
      q_step a (VObj c attrs) = Ok o'
      /\ quantity_ready names o' = true
      /\ (forall b, b <> a -> obj_attr o' b = obj_attr (VObj c attrs) b)
      /\ treated_at a (VObj c attrs) o').
  { intros Hno. exists (VObj c attrs).
    split; [exact (quantity_step_absent c attrs a v Hv Hno)|].
    split; [exact Hready|]. split; [reflexivity|].
    intros wrap d raw Hw Hattr Hraw Htrue. cbn [obj_attr] in Hattr.
    rewrite Hv in Hattr. injection Hattr as ->. exfalso.
    destruct Hw as [->|[c' ->]]; cbn in Hno; rewrite Hraw, Htrue in Hno;
      discriminate Hno. }
  assert (Htreat :
    forall (wrap : dict -> value) (d0 : dict) (raw0 : value),
      holder wrap -> v = wrap d0 ->
      dict_get "has_raw_value" d0 = Some raw0 ->
      notnull_truth raw0 = Ok true ->
      exists o',
        q_step a (VObj c attrs) = Ok o'
        /\ quantity_ready names o' = true
        /\ (forall b, b <> a -> obj_attr o' b = obj_attr (VObj c attrs) b)
        /\ treated_at a (VObj c attrs) o').
  { intros wrap d0 raw0 Hw -> Hraw0 Htrue0.
    destruct (split_quantity_treated d0 raw0 Hraw0) as [d' [Hsplit Htr]].
    exists (VObj c (dict_set a (wrap d') attrs)).
    split; [exact (quantity_step_present wrap c attrs d0 d' a raw0
                     Hw Hv Hraw0 Htrue0 Hsplit)|].
    split; [|split].
    - apply quantity_ready_spec. intros b Hb. cbn [obj_attr].
      destruct (string_dec a b) as [<-|Hne].
      + rewrite dict_get_set_same. exists (wrap d'). split; [reflexivity|].
        destruct Htr as [Hr' _].
        destruct Hw as [->|[c' ->]]; cbn [quantity_ready_value];
          rewrite Hr', Htrue0; reflexivity.
      + rewrite dict_get_set_other by exact Hne. exact (Hall b Hb).
    - intros b Hb. cbn [obj_attr]. apply dict_get_set_other. congruence.
    - intros wrap1 d1 raw1 Hw1 Hattr Hraw1 Htrue1. cbn [obj_attr] in Hattr.
      rewrite Hv in Hattr. injection Hattr as Heq.
      assert (Hsame : wrap1 = wrap /\ d1 = d0).
      { destruct Hw as [->|[c' ->]].
        - apply (holder_dict wrap1 d1 d0 Hw1). symmetry. exact Heq.
        - apply (holder_obj wrap1 d1 d0 c' Hw1). symmetry. exact Heq. }
      destruct Hsame as [-> ->]. rewrite Hraw0 in Hraw1. injection Hraw1 as <-.
      exists d'. cbn [obj_attr]. rewrite dict_get_set_same. auto. }
  destruct v as [| | | | | |cls s|l|d0|c0 d0]; try discriminate Hrv;
    try (apply Hskip; exact I).
  - cbn [quantity_ready_value] in Hrv.
    destruct (dict_get "has_raw_value" d0) as [raw0|] eqn:Hraw0.
    + destruct (notnull_truth raw0) as [[|]|e] eqn:Htruth; [| |discriminate Hrv].
      * apply (Htreat VDict d0 raw0); auto. left. reflexivity.
      * apply Hskip. reflexivity.
    + apply Hskip. exact I.
  - cbn [quantity_ready_value] in Hrv.
    destruct (dict_get "has_raw_value" d0) as [raw0|] eqn:Hraw0.
    + destruct (notnull_truth raw0) as [[|]|e] eqn:Htruth; [| |discriminate Hrv].
      * apply (Htreat (VObj c0) d0 raw0); auto. right. exists c0. reflexivity.
      * apply Hskip. reflexivity.
    + apply Hskip. exact I.
Qed.

(** one attribute over all the objects *)
Lemma quantity_pass_ready (names : list string) (a : string) :
  In a names ->
  forall objs,
    forallb (quantity_ready names) objs = true ->
    exists objs1,
      mapM (q_step a) objs = Ok objs1
      /\ forallb (quantity_ready names) objs1 = true
      /\ Forall2 (fun o o1 =>
                    (forall b, b <> a -> obj_attr o1 b = obj_attr o b)
                    /\ treated_at a o o1)
                 objs objs1.
Proof.
  intros Ha. induction objs as [|o objs IH]; intros Hready.
  - exists []. split; [reflexivity|]. split; [reflexivity|constructor].
  - cbn [forallb] in Hready. apply andb_true_iff in Hready.
    destruct Hready as [Ho Hobjs].
    destruct (quantity_step_ready names a o Ha Ho) as [o1 [Hs [Hr [Hf Ht]]]].
    destruct (IH Hobjs) as [objs1 [Hm [Hr1 HF]]].
    exists (o1 :: objs1). split; [|split].
    + cbn [mapM]. rewrite Hs. cbn [bind]. rewrite Hm. reflexivity.
    + cbn [forallb]. rewrite Hr, Hr1. reflexivity.
    + constructor; auto.
Qed.

(** all the attributes over all the objects *)
Lemma quantity_loop_ready (names : list string) :
  forall attrs, incl attrs names ->
  forall objs,
    forallb (quantity_ready names) objs = true ->
    exists objs',
      quantity_loop container_repr py_float attrs objs = Ok objs'
      /\ forallb (quantity_ready names) objs' = true
      /\ Forall2 (fun o o' =>
                    (forall b, ~ In b attrs -> obj_attr o' b = obj_attr o b)
                    /\ (forall a, In a attrs -> treated_at a o o'))
                 objs objs'.
Proof.
  induction attrs as [|a attrs IH]; intros Hincl objs Hready.
  - exists objs. split; [reflexivity|]. split; [exact Hready|].
    clear Hready. induction objs as [|o objs IHo]; constructor; auto.
    split; [reflexivity|]. intros a [].
  - assert (Ha : In a names) by (apply Hincl; left; reflexivity).
    assert (Hrest : incl attrs names)
      by (intros x Hx; apply Hincl; right; exact Hx).
    destruct (quantity_pass_ready names a Ha objs Hready)
      as [objs1 [Hm [Hr1 HF1]]].
    destruct (IH Hrest objs1 Hr1) as [objs' [Hl [Hr' HF']]].
    exists objs'. split; [|split; [exact Hr'|]].
    + cbn [quantity_loop]. rewrite Hm. exact Hl.
    + clear Hm Hl Hr' Hr1 Hready. revert objs' HF'.
      induction HF1 as [|o o1 objs objs1 [Hf1 Ht1] _ IHF]; intros objs' HF'.
      * inversion HF'. constructor.
      * inversion HF' as [|? o' ? objs2 [Hf' Ht'] HF2]; subst.
        constructor; [|apply IHF; exact HF2]. split.
        -- intros b Hb. rewrite Hf' by (intros Hin; apply Hb; right; exact Hin).
           apply Hf1. intros ->. apply Hb. left. reflexivity.
        -- intros x Hx wrap d raw Hw Hattr Hraw Htrue.
           destruct (string_dec x a) as [->|Hne].
           ++ destruct (Ht1 wrap d raw Hw Hattr Hraw Htrue) as [d1 [Hattr1 Htr1]].
              destruct (in_dec string_dec a attrs) as [Hin|Hnin].
              ** destruct (Ht' a Hin wrap d1 raw Hw Hattr1 (proj1 Htr1) Htrue)
                   as [d2 [Hattr2 Htr2]].
                 exists d2. split; [exact Hattr2|].
                 eapply quantity_treated_again; eassumption.
              ** exists d1. split; [|exact Htr1].
                 rewrite (Hf' a Hnin). exact Hattr1.
           ++ destruct Hx as [Hx|Hx]; [congruence|].
              rewrite <- (Hf1 x Hne) in Hattr.
              exact (Ht' x Hx wrap d raw Hw Hattr Hraw Htrue).
Qed.


End EngineFacts.

(** ** The theorems at concrete inputs *)

Lemma field_resolution_witness :
  get_record_attr no_eval opaque_repr [("depth", VNaN)] (VStr "depth, float") true
  = Ok VNone
  /\ get_record_attr no_eval opaque_repr [("depth", VNaN)] (VStr " meter ") true
     = Ok (VStr "meter").
Proof.
  split.
  - apply (field_resolution no_eval opaque_repr [("depth", VNaN)]
             (VStr "depth, float") "depth" "float"
             ltac:(intros d H; discriminate H) eq_refl)
      with (v := VNaN); reflexivity.
  - exact (proj2 (proj2 (proj2
             (field_resolution no_eval opaque_repr [("depth", VNaN)]
                (VStr " meter ") "meter" "str"
                ltac:(intros d H; discriminate H) eq_refl))) eq_refl).
Defined.


Lemma junk_mappings_cleared_witness :
  exists cleared,
    mapM clear_junk
      [VObj "Biosample"
         [("id", VStr "s1"); ("type", VStr "nmdc:Biosample");
          ("depth", VDict [("has_unit", VStr "meter")]);
          ("lat_lon", VDict [("has_raw_value", VStr "-33.46 150.17")])]]
    = Ok cleared
    /\ forall c attrs k d,
         In (VObj c attrs) cleared -> In (k, VDict d) attrs ->
         dict_has "id" d = true \/ dict_has "has_raw_value" d = true.
Proof.
  destruct (junk_mappings_cleared no_eval opaque_repr numeral_float sample_nmdc
              no_pre no_post [unit_row] [unit_row] biosample sample_constructor
              unit_fields unit_fields [] no_transforms
              [VObj "Biosample"
                 [("id", VStr "s1"); ("type", VStr "nmdc:Biosample");
                  ("depth", VDict [("has_unit", VStr "meter")]);
                  ("lat_lon", VDict [("has_raw_value", VStr "-33.46 150.17")])]]
              eq_refl eq_refl)
    as [cleared [Hclear [_ [_ [Hinv _]]]]].
  exists cleared. split; [exact Hclear|exact Hinv].
Defined.

(** C5: the code at an element that declares ["$split_val"].  The
    guard of the declaration tests for another key, ["$spit_val"]: an
    element without that key has the comma for delimiter and keeps its
    declaration.  At the example the columns are split on the comma,
    that is not at all, and the declaration is taken for a sub-field: it
    contributes a sequence and the key ["$split_val"].  A delimiter
    declared inside a ["$field"] wrapper is honoured, for that sub-field
    only.  The call then raises [NameError], as every call does. *)
Theorem declared_delimiter_not_read
  (py_eval : string -> result value) (container_repr : value -> string)
  (nmdc : string -> option class_def) :
  (forall item, dict_has "$spit_val" item = false ->
     pop_split_val item = (Ok (VStr ","), item))
  /\ pop_split_val piped_item = (Ok (VStr ","), piped_item)
  /\ list_item_record_values py_eval container_repr piped_row (VStr ",")
       piped_item
     = Ok [[VStr "a|b"]; [VStr "x|y"]; [VNone]]
  /\ list_item_keys piped_item = ["id"; "name"; "$split_val"]
  /\ make_object_from_list_item_dict py_eval container_repr nmdc piped_row
       piped_item
     = (Raise NameError, piped_item)
  /\ list_item_record_values py_eval container_repr piped_row (VStr ",")
       wrapped_item
     = Ok [[VStr "a"; VStr "b"]; [VStr "x|y"]].
Proof.
  split; [|repeat split; reflexivity].
  intros item Hguard. unfold pop_split_val. rewrite Hguard. reflexivity.
Qed.

(** C8: the code on a table with a row that is no exact match.  Read
    from a path, the table is cut down to its exact matches; the
    packaged table is loaded whole, close match included. *)
Theorem packaged_table_loaded_whole :
  make_attribute_map (fun _ => sample_table) sample_table "gold-to-mixs.tsv"
  = [("depth", "depth")]
  /\ make_attribute_map (fun _ => sample_table) sample_table ""
     = [("depth", "depth"); ("ecosystem", "env_broad_scale")].
Proof. split; reflexivity. Qed.

(** C9: the code on a row and an element that names its class.  The
    call takes ["$class_type"] out of the element, which belongs to the
    attribute list of the caller, before it raises: the element it
    leaves is not the element it was given.  The driver stops at the
    first row with that error.  What a call leaves decides what the next
    one does: an element that names an unknown class raises
    [AttributeError] on the first call and, the name gone, [NameError]
    on the second. *)
Theorem specification_changed_by_a_row
  (py_eval : string -> result value) (container_repr : value -> string) :
  make_object_from_list_item_dict py_eval container_repr sample_nmdc study_row
    study_item
  = (Raise NameError, [("id", VStr "gold_id"); ("name", VStr "study_name")])
  /\ [("id", VStr "gold_id"); ("name", VStr "study_name")] <> study_item
  /\ build_objects py_eval container_repr sample_nmdc biosample sample_constructor
       study_fields [] [study_row; study_row]
     = Raise NameError
  /\ make_object_from_list_item_dict py_eval container_repr sample_nmdc study_row
       [("id", VStr "gold_id"); ("$class_type", VStr "Sample")]
     = (Raise AttributeError, [("id", VStr "gold_id")])
  /\ make_object_from_list_item_dict py_eval container_repr sample_nmdc study_row
       [("id", VStr "gold_id")]
     = (Raise NameError, [("id", VStr "gold_id")]).
Proof.
  split; [reflexivity|]. split; [discriminate|]. repeat split; reflexivity.
Qed.

(** * Further properties of the engine *)

(** ** Field specifications *)

Lemma split_comma_length (s cur : string) :
  List.length (split_aux "," 0 cur s) = S (count_commas s).
Proof.
  revert cur. induction s as [|c r IH]; intros cur; [reflexivity|].
  cbn [split_aux count_commas]. rewrite prefix_comma.
  destruct (Ascii.eqb c ","%char); cbn [List.length]; rewrite IH; reflexivity.
Qed.

Lemma has_comma_count (s : string) :
  has_comma s = negb (Nat.eqb (count_commas s) 0).
Proof.
  induction s as [|c r IH]; [reflexivity|]. cbn [has_comma count_commas].
  rewrite IH. destruct (Ascii.eqb c ","%char); reflexivity.
Qed.

(** X1.  The two readers of the type annotation of a plain reference,
    by the parts the commas cut the text into.  Without a comma both
    answer ["str"]; with one comma both answer the second part,
    trimmed; with two commas or more
    [get_field_and_dtype_from_attribute_field] raises [ValueError] (its
    unpacking wants two parts) while [get_dtype_from_attribute_field]
    still answers the second part, trimmed. *)
Theorem annotation_readers (s : string) :
  let parts := split_aux "," 0 "" s in
  List.length parts = S (count_commas s)
  /\ (count_commas s = 0 ->
      get_field_and_dtype_from_attribute_field (VStr s)
      = Ok (VStr (strip s), "str")
      /\ get_dtype_from_attribute_field (VStr s) = Ok "str")
  /\ (count_commas s = 1 ->
      get_field_and_dtype_from_attribute_field (VStr s)
      = Ok (VStr (strip (nth 0 parts "")), strip (nth 1 parts ""))
      /\ get_dtype_from_attribute_field (VStr s) = Ok (strip (nth 1 parts "")))
  /\ (2 <= count_commas s ->
      get_field_and_dtype_from_attribute_field (VStr s) = Raise ValueError
      /\ get_dtype_from_attribute_field (VStr s) = Ok (strip (nth 1 parts ""))).
Proof.
  cbv zeta.
  cbn [get_field_and_dtype_from_attribute_field get_dtype_from_attribute_field].
  pose proof (split_comma_length s "") as Hlen.
  rewrite has_comma_count.
  split; [exact Hlen|]. split; [|split]; intros Hc.
  - rewrite Hc. split; reflexivity.
  - rewrite Hc in *. cbn [Nat.eqb negb].
    destruct (split_aux "," 0 "" s) as [|a [|b [|c l]]]; try discriminate Hlen.
    split; reflexivity.
  - destruct (count_commas s) as [|[|n]] eqn:E; [lia|lia|].
    cbn [Nat.eqb negb].
    destruct (split_aux "," 0 "" s) as [|a [|b [|c l]]]; try discriminate Hlen.
    split; reflexivity.
Qed.

Lemma annotation_readers_witness :
  (get_field_and_dtype_from_attribute_field (VStr "file_size_bytes, int")
   = Ok (VStr "file_size_bytes", "int")
   /\ get_dtype_from_attribute_field (VStr "file_size_bytes, int") = Ok "int")
  /\ get_field_and_dtype_from_attribute_field (VStr "lat, lon, float")
     = Raise ValueError
  /\ get_dtype_from_attribute_field (VStr "lat, lon, float") = Ok "lon".
Proof.
  split.
  - apply (proj1 (proj2 (proj2 (annotation_readers "file_size_bytes, int")))).
    reflexivity.
  - apply (proj2 (proj2 (proj2 (annotation_readers "lat, lon, float")))).
    simpl. lia.
Defined.

Lemma resolved_dtype_clean (spec : value) :
  forall fld dt,
    get_field_and_dtype_from_attribute_field spec = Ok (fld, dt) ->
    has_comma dt = false /\ strip dt = dt.
Proof.
  induction spec using value_induction; intros fld dt Hres;
    try discriminate Hres.
  1, 2: cbn [get_field_and_dtype_from_attribute_field] in Hres;
    destruct (has_comma s) eqn:Ec;
    [ pose proof (split_comma_pieces s "" eq_refl) as Hp;
      destruct (split_aux "," 0 "" s) as [|a [|b [|c0 l]]];
      try discriminate Hres;
      injection Hres as <- <-;
      inversion Hp as [|? ? _ Hp']; subst; inversion Hp' as [|? ? Hb _]; subst;
      split; [apply has_comma_strip, Hb|apply strip_fixed]
    | injection Hres as <- <-; split; reflexivity ].
  - cbn [get_field_and_dtype_from_attribute_field] in Hres.
    rewrite !dict_find_get in Hres. rewrite Forall_forall in H.
    destruct (dict_get "$const" d) as [c|] eqn:Econst.
    + apply dict_get_In in Econst. exact (H _ Econst fld dt Hres).
    + destruct (dict_get "$field" d) as [w|] eqn:Efield.
      * apply dict_get_In in Efield. exact (H _ Efield fld dt Hres).
      * injection Hres as <- <-. split; reflexivity.
Qed.

(** X2.  Whatever the nesting of ["$const"] and ["$field"] wrappers, a
    specification that resolves to a field name resolves to a name and
    a type without white space around them and without a comma. *)
Theorem resolved_names_trimmed (spec : value) (f dt : string)
  (Hspec : get_field_and_dtype_from_attribute_field spec = Ok (VStr f, dt)) :
  strip f = f /\ has_comma f = false /\ strip dt = dt /\ has_comma dt = false.
Proof.
  destruct (resolved_field_clean spec f dt Hspec) as [Hfc Hfs].
  destruct (resolved_dtype_clean spec (VStr f) dt Hspec) as [Hdc Hds].
  auto.
Qed.

Lemma resolved_names_trimmed_witness :
  strip "gold_id" = "gold_id" /\ has_comma "gold_id" = false
  /\ strip "int" = "int" /\ has_comma "int" = false.
Proof.
  apply (resolved_names_trimmed
           (VDict [("$field", VDict [("$field", VStr "  gold_id ,  int ")]);
                   ("$split_val", VStr "|")])
           "gold_id" "int").
  reflexivity.
Defined.

(** ** Pruning *)

Lemma prune_inner_key (kv : string * value) : fst (prune_inner kv) = fst kv.
Proof. destruct kv as [k v]. destruct v; reflexivity. Qed.

Lemma prune_inner_dict (kv : string * value) (d : dict) :
  snd (prune_inner kv) = VDict d ->
  Forall (fun e => is_value (snd e) = true) d.
Proof.
  destruct kv as [k v]. destruct v; try discriminate.
  cbn. intros [= <-]. apply Forall_forall. intros e He.
  apply filter_In in He. exact (proj2 He).
Qed.

Lemma prune_inner_list (kv : string * value) (l : list value) :
  snd (prune_inner kv) = VList l -> Forall (fun x => is_value x = true) l.
Proof.
  destruct kv as [k v]. destruct v; try discriminate.
  cbn. intros [= <-]. apply Forall_forall. intros e He.
  apply filter_In in He. exact (proj2 He).
Qed.

(** X3.  The mapping [make_dict] makes of an object holds no entry
    without a value: every value passes [is_value], a nested mapping has
    lost its sub-keys without a value and a nested list its elements
    without one; and it holds no key the object did not have. *)
Theorem pruned_mapping_holds_values (c : string) (attrs out : dict)
  (Hout : make_dict (VObj c attrs) = VDict out) :
  Forall (fun kv =>
            is_value (snd kv) = true
            /\ In (fst kv) (dict_keys attrs)
            /\ (forall d, snd kv = VDict d ->
                  Forall (fun e => is_value (snd e) = true) d)
            /\ (forall l, snd kv = VList l ->
                  Forall (fun x => is_value x = true) l))
         out.
Proof.
  injection Hout as <-. apply Forall_forall. intros kv Hin.
  unfold prune_items in Hin. apply filter_In in Hin. destruct Hin as [Hin Hkeep].
  apply in_map_iff in Hin. destruct Hin as [kv0 [<- Hin0]].
  split; [exact Hkeep|]. split.
  - rewrite prune_inner_key. unfold as_dict in Hin0.
    apply in_map_iff in Hin0. destruct Hin0 as [kv1 [<- Hin1]].
    cbn [fst]. unfold dict_keys. apply in_map. exact Hin1.
  - split; [apply prune_inner_dict|apply prune_inner_list].
Qed.

Lemma pruned_mapping_holds_values_witness :
  Forall (fun kv =>
            is_value (snd kv) = true
            /\ In (fst kv) (dict_keys [("id", VStr "s1"); ("name", VStr "");
                                      ("depth", VDict [("has_raw_value", VStr "5");
                                                       ("has_unit", VNone)])])
            /\ (forall d, snd kv = VDict d ->
                  Forall (fun e => is_value (snd e) = true) d)
            /\ (forall l, snd kv = VList l ->
                  Forall (fun x => is_value x = true) l))
         [("id", VStr "s1"); ("depth", VDict [("has_raw_value", VStr "5")])].
Proof.
  apply (pruned_mapping_holds_values "Biosample"
           [("id", VStr "s1"); ("name", VStr "");
            ("depth", VDict [("has_raw_value", VStr "5"); ("has_unit", VNone)])]).
  reflexivity.
Defined.

(** X4.  Pruning converts objects only: an argument that is neither an
    object nor a list comes back as it is (a plain mapping keeps even
    its null entries), and what comes back is never an object, nor a
    list with an object among its elements. *)
Theorem normalize_shape (x : value) :
  ~ is_obj (make_dict_from_nmdc_obj x)
  /\ (forall l, make_dict_from_nmdc_obj x = VList l ->
        Forall (fun v => ~ is_obj v) l)
  /\ ((forall c a, x <> VObj c a) -> (forall l, x <> VList l) ->
      make_dict_from_nmdc_obj x = x).
Proof.
  assert (Hmd : forall o, ~ is_obj (make_dict o)).
  { intros o [c [a H]]. destruct o; discriminate H. }
  split; [|split].
  - destruct x; try apply Hmd. intros [c [a H]]. discriminate H.
  - intros l0 H. destruct x; try (destruct (Hmd _ (ex_intro _ _ (ex_intro _ _ eq_refl))); fail).
    all: try discriminate H.
    cbn in H. injection H as <-. apply Forall_forall. intros v Hv.
    apply in_map_iff in Hv. destruct Hv as [o [<- _]]. apply Hmd.
  - intros Hobj Hlist. destruct x; try reflexivity.
    + exfalso. exact (Hlist _ eq_refl).
    + exfalso. exact (Hobj _ _ eq_refl).
Qed.

Lemma normalize_shape_witness :
  make_dict_from_nmdc_obj (VDict [("name", VNone); ("unit", VStr "")])
  = VDict [("name", VNone); ("unit", VStr "")].
Proof.
  apply (proj2 (proj2 (normalize_shape
                         (VDict [("name", VNone); ("unit", VStr "")]))));
    intros; discriminate.
Defined.

(** ** The sweep of the driver *)

Lemma clear_entry_fixed (kv : string * value) :
  clear_entry (clear_entry kv) = clear_entry kv.
Proof.
  unfold clear_entry. destruct (junk_dict (snd kv)) eqn:E; cbn [snd fst].
  - reflexivity.
  - rewrite E. reflexivity.
Qed.

Lemma clear_entry_key (kv : string * value) : fst (clear_entry kv) = fst kv.
Proof. unfold clear_entry. destruct (junk_dict (snd kv)); reflexivity. Qed.

Lemma dict_get_cleared (k : string) (attrs : dict) :
  dict_get k (map clear_entry attrs) =
  match dict_get k attrs with
  | Some v => Some (if junk_dict v then VNone else v)
  | None => None
  end.
Proof.
  induction attrs as [|[k0 v0] attrs IH]; [reflexivity|].
  cbn [map]. unfold clear_entry at 1. cbn [snd fst].
  destruct (junk_dict v0) eqn:E; rewrite !dict_get_cons;
    destruct (String.eqb k0 k); try exact IH; rewrite ?E; reflexivity.
Qed.

(** X5.  The sweep before the post-transform hooks keeps the class of
    an object and the names and order of its attributes, leaves every
    attribute alone that does not hold a mapping without ["id"] and
    ["has_raw_value"], and finds nothing left to do on its own result. *)
Theorem sweep_keeps_shape (obj obj' : value)
  (Hsweep : clear_junk obj = Ok obj') :
  clear_junk obj' = Ok obj'
  /\ exists c attrs attrs',
       obj = VObj c attrs /\ obj' = VObj c attrs'
       /\ dict_keys attrs' = dict_keys attrs
       /\ forall k v, dict_get k attrs = Some v -> junk_dict v = false ->
                      dict_get k attrs' = Some v.
Proof.
  destruct obj; try discriminate Hsweep. injection Hsweep as <-. split.
  - cbn [clear_junk]. rewrite map_map.
    rewrite (map_ext _ _ clear_entry_fixed). reflexivity.
  - exists cls, attrs, (map clear_entry attrs).
    split; [reflexivity|]. split; [reflexivity|]. split.
    + unfold dict_keys. rewrite map_map. apply map_ext. apply clear_entry_key.
    + intros k v Hget Hjunk. rewrite dict_get_cleared, Hget, Hjunk. reflexivity.
Qed.

Lemma sweep_keeps_shape_witness :
  clear_junk (VObj "Biosample" [("id", VStr "s1"); ("depth", VNone)])
  = Ok (VObj "Biosample" [("id", VStr "s1"); ("depth", VNone)]).
Proof.
  apply (sweep_keeps_shape
           (VObj "Biosample"
              [("id", VStr "s1"); ("depth", VDict [("has_unit", VStr "meter")])])).
  reflexivity.
Defined.

(** ** Dates *)

Lemma strptime_ten_characters (s : string) :
  String.length s = 10 -> strptime_d_b_y s = None.
Proof.
  intros Hlen.
  destruct s as [|a1 [|a2 [|a3 [|a4 [|a5 [|a6 [|a7 [|a8 [|a9 [|a10 [|a11 s]]]]]]]]]]];
    try discriminate Hlen.
  unfold strptime_d_b_y, parse_day.
  destruct (digit_of a1) as [x|], (digit_of a2) as [y|].
  - destruct (Nat.leb 1 (10 * x + y) && Nat.leb (10 * x + y) 31);
      [reflexivity|]. destruct (Nat.leb 1 x); reflexivity.
  - destruct (Nat.leb 1 x); reflexivity.
  - destruct (Ascii.eqb a1 " "%char && Nat.leb 1 y); reflexivity.
  - reflexivity.
Qed.

Lemma digit_char_cases (n : nat) :
  exists k, k < 10 /\ digit_char n = ascii_of_nat (48 + k).
Proof.
  exists (n mod 10). split; [apply Nat.mod_upper_bound; discriminate|reflexivity].
Qed.

Lemma digit_char_no_blank (n : nat) : Ascii.eqb (digit_char n) " "%char = false.
Proof.
  destruct (digit_char_cases n) as [k [Hk ->]].
  do 10 (destruct k as [|k]; [reflexivity|]). lia.
Qed.

Lemma digit_char_not_N (n : nat) : Ascii.eqb (digit_char n) "N"%char = false.
Proof.
  destruct (digit_char_cases n) as [k [Hk ->]].
  do 10 (destruct k as [|k]; [reflexivity|]). lia.
Qed.

(** the text [strftime] writes: ten characters, none of them a blank,
    and not the text ["None"] *)
Lemma strftime_text (date : nat * nat * nat) :
  String.length (strftime_Y_m_d date) = 10
  /\ split_once (strftime_Y_m_d date) = (strftime_Y_m_d date, None)
  /\ String.eqb (strftime_Y_m_d date) "None" = false.
Proof.
  destruct date as [[y m] d]. unfold strftime_Y_m_d, two_digits.
  cbn [append]. split; [reflexivity|]. split.
  - unfold split_once. cbn [split_once_aux].
    rewrite !digit_char_no_blank. reflexivity.
  - cbn [String.eqb]. rewrite digit_char_not_N. reflexivity.
Qed.

(** ** What a hook leaves alone *)

Lemma dict_keys_set_present {V : Type} (k : string) (v : V)
      (d : list (string * V)) :
  dict_has k d = true -> dict_keys (dict_set k v d) = dict_keys d.
Proof.
  unfold dict_keys. induction d as [|[k0 v0] d IH]; [discriminate|].
  rewrite dict_has_get, dict_get_cons. cbn [dict_set].
  destruct (String.eqb k0 k) eqn:E; [reflexivity|].
  intros H. cbn [map fst]. rewrite IH; [reflexivity|].
  rewrite dict_has_get. exact H.
Qed.

Lemma same_but_refl (names : list string) (o : value) : same_but names o o.
Proof.
  split; [reflexivity|]. split; [reflexivity|].
  intros c a ->. exists a. split; reflexivity.
Qed.

Lemma same_but_trans (names : list string) (o1 o2 o3 : value) :
  same_but names o1 o2 -> same_but names o2 o3 -> same_but names o1 o3.
Proof.
  intros [Ha [Hn Hs]] [Ha' [Hn' Hs']]. split; [|split].
  - intros k Hk. rewrite (Ha' k Hk). apply Ha. exact Hk.
  - intros Hno. pose proof (Hn Hno) as E. subst o2. exact (Hn' Hno).
  - intros c a ->. destruct (Hs c a eq_refl) as [a' [-> Hk]].
    destruct (Hs' c a' eq_refl) as [a'' [-> Hk']].
    exists a''. split; [reflexivity|]. rewrite Hk'. exact Hk.
Qed.

Lemma same_but_more (names names' : list string) (o o' : value) :
  incl names names' -> same_but names o o' -> same_but names' o o'.
Proof.
  intros Hincl [Ha Hrest]. split; [|exact Hrest].
  intros k Hk. apply Ha. intros Hin. apply Hk. apply Hincl. exact Hin.
Qed.

Lemma same_but_setattr (c : string) (attrs : dict) (a : string) (v : value) :
  dict_has a attrs = true ->
  same_but [a] (VObj c attrs) (VObj c (dict_set a v attrs)).
Proof.
  intros Hhas. split; [|split].
  - intros k Hk. cbn [obj_attr]. apply dict_get_set_other.
    intros ->. apply Hk. left. reflexivity.
  - intros Hno. exfalso. apply Hno. exists c, attrs. reflexivity.
  - intros c0 a0 [= <- <-]. exists (dict_set a v attrs).
    split; [reflexivity|]. apply dict_keys_set_present. exact Hhas.
Qed.

Lemma Forall2_same (R : value -> value -> Prop) (l : list value) :
  (forall o, R o o) -> Forall2 R l l.
Proof. intros H. induction l; constructor; auto. Qed.

Lemma Forall2_chain (R1 R2 R3 : value -> value -> Prop) (l1 l2 l3 : list value) :
  (forall x y z, R1 x y -> R2 y z -> R3 x z) ->
  Forall2 R1 l1 l2 -> Forall2 R2 l2 l3 -> Forall2 R3 l1 l3.
Proof.
  intros Hc H12. revert l3. induction H12 as [|x y l1 l2 Hxy _ IH]; intros l3 H23.
  - inversion H23. constructor.
  - inversion H23 as [|? z ? l3' Hyz H23']; subst. constructor; eauto.
Qed.

Lemma mapM_Forall2 {A B : Type} (f : A -> result B) (R : A -> B -> Prop)
      (l : list A) :
  (forall a b, f a = Ok b -> R a b) ->
  forall l', mapM f l = Ok l' -> Forall2 R l l'.
Proof.
  intros Hf. induction l as [|a l IH]; intros l' H.
  - injection H as <-. constructor.
  - cbn [mapM] in H.
    apply bind_ok in H. destruct H as [b [Hb H]].
    apply bind_ok in H. destruct H as [bs [Hbs H]]. injection H as <-.
    constructor; [apply Hf; exact Hb|apply IH; exact Hbs].
Qed.

Section HookFacts.

Variable container_repr : value -> string.
Variable py_float : string -> option value.

Local Abbreviation to_str := (py_str container_repr).
Local Abbreviation q_step := (quantity_step container_repr py_float).
Local Abbreviation q_hook := (make_quantity_value container_repr py_float).
Local Abbreviation d_step := (date_step container_repr).
Local Abbreviation d_hook := (make_iso_8601_date_value container_repr).

Lemma getattr_obj_has (o : value) (a : string) (v : value) :
  getattr_obj o a = Ok v ->
  exists c attrs, o = VObj c attrs /\ dict_get a attrs = Some v.
Proof.
  destruct o; try discriminate. cbn [getattr_obj]. unfold getattr_.
  destruct (dict_get a attrs) as [w|] eqn:E; [|discriminate].
  intros [= ->]. exists cls, attrs. auto.
Qed.

Lemma setattr_same_but (o : value) (a : string) (v w o' : value) :
  getattr_obj o a = Ok w -> setattr_ o a v = Ok o' -> same_but [a] o o'.
Proof.
  intros Hget Hset. destruct (getattr_obj_has o a w Hget) as [c [attrs [-> Hw]]].
  injection Hset as <-. apply same_but_setattr.
  eapply dict_has_of_get. exact Hw.
Qed.

Lemma quantity_step_same_but (a : string) (o o' : value) :
  q_step a o = Ok o' -> same_but [a] o o'.
Proof.
  unfold quantity_step. intros H.
  apply bind_ok in H. destruct H as [present [Hp H]].
  destruct present; [|injection H as <-; apply same_but_refl].
  apply bind_ok in H. destruct H as [val [Hval H]].
  destruct val; try discriminate H.
  - apply bind_ok in H. destruct H as [d' [_ H]].
    eapply setattr_same_but; eassumption.
  - apply bind_ok in H. destruct H as [d' [_ H]].
    eapply setattr_same_but; eassumption.
Qed.

Lemma quantity_loop_same_but (attrs : list string) :
  forall objs objs',
    quantity_loop container_repr py_float attrs objs = Ok objs' ->
    Forall2 (same_but attrs) objs objs'.
Proof.
  induction attrs as [|a attrs IH]; intros objs objs' H.
  - injection H as <-. apply Forall2_same. apply same_but_refl.
  - cbn [quantity_loop] in H.
    apply bind_ok in H. destruct H as [objs1 [H1 H]].
    apply (Forall2_chain (same_but [a]) (same_but attrs) _ objs objs1 objs').
    + intros x y z Hxy Hyz. eapply same_but_trans.
      * eapply same_but_more; [|exact Hxy]. intros k [<-|[]]. left. reflexivity.
      * eapply same_but_more; [|exact Hyz]. intros k Hk. right. exact Hk.
    + eapply mapM_Forall2; [|exact H1]. intros o o'. apply quantity_step_same_but.
    + apply IH. exact H.
Qed.

(** X6.  The quantity hook returns as many objects as it was given, in
    the same order, each of the class it had, with the attribute names
    it had, and with every attribute that the hook was not told to
    treat as it was. *)
Theorem quantity_hook_frame (objs objs' : list value) (attrs : list string)
  (out : list event)
  (Hrun : q_hook objs attrs = Ok (objs', out)) :
  Forall2 (same_but attrs) objs objs'.
Proof.
  unfold make_quantity_value in Hrun.
  apply bind_ok in Hrun. destruct Hrun as [objs1 [H1 Hrun]].
  injection Hrun as <- _. apply quantity_loop_same_but. exact H1.
Qed.

Lemma date_step_same_but (a : string) (o o' : value) (out : list event) :
  d_step a o = Ok (o', out) -> same_but [a] o o'.
Proof.
  unfold date_step. intros H.
  destruct (hasattr_ o a); [|injection H as <- _; apply same_but_refl].
  apply bind_ok in H. destruct H as [v [Hv H]]. cbn zeta in H.
  destruct (negb (String.eqb (fst (split_once (to_str v))) "None"));
    [|injection H as <- _; apply same_but_refl].
  destruct (strptime_d_b_y (fst (split_once (to_str v)))) as [date|].
  - apply bind_ok in H. destruct H as [o1 [Hset H]]. injection H as <- _.
    eapply setattr_same_but; eassumption.
  - apply bind_ok in H. destruct H as [ident [_ H]]. injection H as <- _.
    apply same_but_refl.
Qed.

Lemma date_objs_same_but (a : string) (objs : list value) :
  forall objs' out,
    date_objs container_repr a objs = Ok (objs', out) ->
    Forall2 (same_but [a]) objs objs'.
Proof.
  induction objs as [|o objs IH]; intros objs' out H.
  - injection H as <- _. constructor.
  - cbn [date_objs] in H.
    apply bind_ok in H. destruct H as [[o1 out1] [H1 H]]. cbn zeta in H.
    apply bind_ok in H. destruct H as [[rest out2] [H2 H]]. cbn zeta in H.
    injection H as <- _. constructor.
    + eapply date_step_same_but. exact H1.
    + eapply IH. exact H2.
Qed.

Lemma date_loop_same_but (attrs : list string) :
  forall objs objs' out,
    date_loop container_repr attrs objs = Ok (objs', out) ->
    Forall2 (same_but attrs) objs objs'.
Proof.
  induction attrs as [|a attrs IH]; intros objs objs' out H.
  - injection H as <- _. apply Forall2_same. apply same_but_refl.
  - cbn [date_loop] in H.
    apply bind_ok in H. destruct H as [[objs1 out1] [H1 H]]. cbn zeta in H.
    apply bind_ok in H. destruct H as [[objs2 out2] [H2 H]]. cbn zeta in H.
    injection H as <- _.
    apply (Forall2_chain (same_but [a]) (same_but attrs) _ objs objs1 objs2).
    + intros x y z Hxy Hyz. eapply same_but_trans.
      * eapply same_but_more; [|exact Hxy]. intros k [<-|[]]. left. reflexivity.
      * eapply same_but_more; [|exact Hyz]. intros k Hk. right. exact Hk.
    + eapply date_objs_same_but. exact H1.
    + eapply IH. exact H2.
Qed.

(** X7.  The date hook returns as many objects as it was given, in the
    same order, each of the class it had, with the attribute names it
    had, and with every attribute that the hook was not told to treat
    as it was; what is no object passes through. *)
Theorem date_hook_frame (objs objs' : list value) (attrs : list string)
  (out : list event)
  (Hrun : d_hook objs attrs = Ok (objs', out)) :
  Forall2 (same_but attrs) objs objs'.
Proof.
  unfold make_iso_8601_date_value in Hrun.
  apply bind_ok in Hrun. destruct Hrun as [[objs1 out1] [H1 Hrun]].
  cbn zeta in Hrun. injection Hrun as <- _.
  eapply date_loop_same_but. exact H1.
Qed.

Lemma split_quantity_keeps (d d' : dict) (k : string) :
  split_quantity container_repr py_float d = Ok d' ->
  k <> "has_numeric_value" -> k <> "has_unit" ->
  dict_get k d' = dict_get k d.
Proof.
  unfold split_quantity. intros H Hn Hu.
  apply bind_ok in H. destruct H as [raw [_ H]].
  destruct (split_once (to_str raw)) as [head tail].
  injection H as <-.
  assert (H1 : dict_get k
                 match py_float (strip head) with
                 | Some x => dict_set "has_numeric_value" x d
                 | None => d
                 end = dict_get k d).
  { destruct (py_float (strip head)); [|reflexivity].
    apply dict_get_set_other. congruence. }
  destruct tail; [|exact H1].
  rewrite dict_get_set_other by congruence. exact H1.
Qed.

(** X8.  Where the quantity hook treats an attribute, the mapping or
    object held there keeps its raw value and every other entry: only
    [has_numeric_value] and [has_unit] are assigned. *)
Theorem quantity_keeps_raw_value (wrap : dict -> value) (c : string)
  (attrs d : dict) (a : string) (o' : value)
  (Hwrap : holder wrap)
  (Hattr : dict_get a attrs = Some (wrap d))
  (Hstep : q_step a (VObj c attrs) = Ok o') :
  exists d',
    obj_attr o' a = Some (wrap d')
    /\ dict_get "has_raw_value" d' = dict_get "has_raw_value" d
    /\ forall k, k <> "has_numeric_value" -> k <> "has_unit" ->
                 dict_get k d' = dict_get k d.
Proof.
  unfold quantity_step in Hstep.
  apply bind_ok in Hstep. destruct Hstep as [present [_ Hstep]].
  destruct present.
  - cbn [bind getattr_obj] in Hstep. unfold getattr_ in Hstep.
    rewrite Hattr in Hstep. cbn [bind] in Hstep.
    assert (Hd : exists d',
               split_quantity container_repr py_float d = Ok d'
               /\ o' = VObj c (dict_set a (wrap d') attrs)).
    { destruct Hwrap as [->|[c' ->]];
        apply bind_ok in Hstep; destruct Hstep as [d' [Hs Hstep]];
        injection Hstep as <-; exists d'; auto. }
    destruct Hd as [d' [Hs ->]]. exists d'. split; [|split].
    + cbn [obj_attr]. apply dict_get_set_same.
    + apply (split_quantity_keeps d d' _ Hs); discriminate.
    + intros k Hn Hu. apply (split_quantity_keeps d d' k Hs Hn Hu).
  - injection Hstep as <-. exists d. cbn [obj_attr]. auto.
Qed.

(** X9.  The quantity hook reads the attribute without asking whether
    the object has it: a first object without the first attribute is an
    [AttributeError], one holding there a text, a number or a list a
    [TypeError], and nothing is returned; an identifier of the schema,
    which has an attribute dictionary of its own, is passed over.  The
    date hook asks first: an object without the attribute is passed over
    in silence. *)
Theorem hooks_on_missing_attribute (c : string) (attrs : dict) (a : string)
  (rest : list value) (more : list string) :
  (dict_get a attrs = None ->
   q_hook (VObj c attrs :: rest) (a :: more) = Raise AttributeError
   /\ d_step a (VObj c attrs) = Ok (VObj c attrs, []))
  /\ (forall v, dict_get a attrs = Some v ->
        v <> VNone -> ~ is_dict v -> ~ is_obj v ->
        (forall cls s, v <> VStrSub cls s) ->
        q_hook (VObj c attrs :: rest) (a :: more) = Raise TypeError)
  /\ (forall cls s, dict_get a attrs = Some (VStrSub cls s) ->
        q_step a (VObj c attrs) = Ok (VObj c attrs)).
Proof.
  split; [|split].
  - intros Hnone. split.
    + unfold make_quantity_value. cbn [quantity_loop mapM].
      unfold quantity_step, has_raw_value. cbn [getattr_obj]. unfold getattr_.
      rewrite Hnone. reflexivity.
    + unfold date_step. cbn [hasattr_]. rewrite dict_has_get, Hnone. reflexivity.
  - intros v Hget Hn Hd Ho Hs.
    unfold make_quantity_value. cbn [quantity_loop mapM].
    unfold quantity_step, has_raw_value. cbn [getattr_obj]. unfold getattr_.
    rewrite Hget. cbn [bind].
    destruct v; try reflexivity.
    + exfalso. apply Hn. reflexivity.
    + exfalso. exact (Hs _ _ eq_refl).
    + exfalso. apply Hd. eexists. reflexivity.
    + exfalso. apply Ho. eexists. eexists. reflexivity.
  - intros cls s Hget. unfold quantity_step, has_raw_value. cbn [getattr_obj].
    unfold getattr_. rewrite Hget. reflexivity.
Qed.

(** X10.  A date the hook has rewritten is no date of the input format:
    run again, the hook leaves the rewritten text as it is and reports
    it as a failure (which takes the object to have an [id]). *)
Theorem date_hook_rerun (c : string) (attrs : dict) (a : string)
  (v ident : value) (date : nat * nat * nat)
  (Hattr : dict_get a attrs = Some v)
  (Hdate : strptime_d_b_y (fst (split_once (to_str v))) = Some date)
  (Hid : dict_get "id" attrs = Some ident) :
  let iso := strftime_Y_m_d date in
  let obj' := VObj c (dict_set a (VStr iso) attrs) in
  d_step a (VObj c attrs) = Ok (obj', [])
  /\ d_step a obj'
     = Ok (obj', [PropertyError (if String.eqb a "id" then VStr iso else ident)
                    a iso]).
Proof.
  cbv zeta. destruct (strftime_text date) as [Hlen [Hsplit Hnone]].
  split.
  - unfold date_step. cbn [hasattr_ getattr_obj].
    rewrite (dict_has_of_get _ _ _ Hattr). unfold getattr_. rewrite Hattr.
    cbn [bind]. cbn zeta.
    destruct (String.eqb (fst (split_once (to_str v))) "None") eqn:E.
    + apply String.eqb_eq in E. rewrite E in Hdate. discriminate Hdate.
    + cbn [negb]. rewrite Hdate. reflexivity.
  - unfold date_step. cbn [hasattr_ getattr_obj].
    rewrite (dict_has_of_get _ _ _ (dict_get_set_same a (VStr (strftime_Y_m_d date)) attrs)).
    unfold getattr_. rewrite dict_get_set_same. cbn [bind py_str]. cbn zeta.
    rewrite Hsplit. cbn [fst]. rewrite Hnone. cbn [negb].
    rewrite (strptime_ten_characters _ Hlen).
    destruct (String.eqb a "id") eqn:Ea.
    + apply String.eqb_eq in Ea. subst a. rewrite dict_get_set_same. reflexivity.
    + rewrite dict_get_set_other by (apply String.eqb_neq; exact Ea).
      rewrite Hid. reflexivity.
Qed.

End HookFacts.

(** ** Building values from a record *)

Lemma dict_set_fresh {V : Type} (k : string) (v : V) (d : list (string * V)) :
  ~ In k (dict_keys d) -> dict_set k v d = d ++ [(k, v)].
Proof.
  unfold dict_keys. induction d as [|[k0 v0] d IH]; intros H; [reflexivity|].
  cbn [dict_set]. destruct (String.eqb k0 k) eqn:E.
  - apply String.eqb_eq in E. subst. exfalso. apply H. left. reflexivity.
  - cbn [app]. rewrite IH; [reflexivity|]. intros Hin. apply H. right. exact Hin.
Qed.

Lemma dict_keys_app {V : Type} (a b : list (string * V)) :
  dict_keys (a ++ b) = dict_keys a ++ dict_keys b.
Proof. unfold dict_keys. apply map_app. Qed.

Lemma dict_get_app_some {V : Type} (k : string) (v : V) (a b : list (string * V)) :
  dict_get k a = Some v -> dict_get k (a ++ b) = Some v.
Proof.
  induction a as [|[k0 v0] a IH]; [discriminate|]. cbn [app].
  rewrite !dict_get_cons. destruct (String.eqb k0 k); auto.
Qed.

Lemma dict_get_app_none {V : Type} (k : string) (a b : list (string * V)) :
  dict_get k a = None -> dict_get k (a ++ b) = dict_get k b.
Proof.
  induction a as [|[k0 v0] a IH]; [reflexivity|]. cbn [app].
  rewrite !dict_get_cons. destruct (String.eqb k0 k); [discriminate|auto].
Qed.

Lemma NoDup_app_cons_fresh (a : list string) (k : string) (b : list string) :
  NoDup (a ++ k :: b) -> ~ In k a /\ NoDup (a ++ b) /\ NoDup ((a ++ [k]) ++ b).
Proof.
  intros H. split; [|split].
  - intros Hin. apply NoDup_remove_2 in H. apply H. apply in_or_app. left. exact Hin.
  - apply NoDup_remove_1 in H. exact H.
  - rewrite <- app_assoc. exact H.
Qed.

Section BuilderFacts.

Variable py_eval : string -> result value.
Variable container_repr : value -> string.
Variable nmdc : string -> option class_def.

Local Abbreviation resolve := (get_record_attr py_eval container_repr).
Local Abbreviation coerce := (coerce_value py_eval container_repr).
Local Abbreviation to_str := (py_str container_repr).
Local Abbreviation record_dict := (make_record_dict py_eval container_repr).
Local Abbreviation record_dict_loop :=
  (make_record_dict_loop py_eval container_repr).
Local Abbreviation item_objects :=
  (make_object_from_list_item_dict py_eval container_repr nmdc).
Local Abbreviation list_objects :=
  (make_object_from_list py_eval container_repr nmdc).

Lemma coerce_pieces_str (pieces : list string) :
  coerce_pieces py_eval container_repr pieces "str"
  = Ok (map (fun p => VStr (strip p)) pieces).
Proof. unfold coerce_pieces. apply mapM_pure. Qed.

(** X11.  In a nested-object element, a sub-field written as a
    ["$field"] wrapper contributes texts only (or the single [None] of a
    value that is missing): the type declared inside the wrapper is not
    the type its pieces are coerced to. *)
Theorem wrapped_pieces_are_texts (r : record) (split_val : value) (d : dict)
  (vals : list value)
  (Hnot_const : dict_get "$const" d = None)
  (Hvals : list_item_field_values py_eval container_repr r split_val (VDict d)
           = Ok vals) :
  vals = [VNone] \/ Forall is_str vals.
Proof.
  unfold list_item_field_values in Hvals.
  apply bind_ok in Hvals. destruct Hvals as [val [_ Hvals]].
  assert (Hrest :
    (dtype <- get_dtype_from_attribute_field (VDict d) ;;
     pieces <- py_split
                 match dict_get "$split_val" d with
                 | Some sv => sv
                 | None => split_val
                 end (to_str val) ;;
     coerce_pieces py_eval container_repr pieces dtype) = Ok vals ->
    Forall is_str vals).
  { cbn [get_dtype_from_attribute_field]. rewrite dict_find_get, Hnot_const.
    cbn [bind]. intros H. apply bind_ok in H. destruct H as [pieces [_ H]].
    rewrite coerce_pieces_str in H. injection H as <-.
    apply Forall_forall. intros v Hv. apply in_map_iff in Hv.
    destruct Hv as [p [<- _]]. eexists. reflexivity. }
  destruct val; try (right; exact (Hrest Hvals)).
  left. injection Hvals as <-. reflexivity.
Qed.

Lemma record_dict_loop_keys (r : record) (flag : bool) (items : dict) :
  forall acc rd,
    NoDup (dict_keys acc ++ dict_keys items) ->
    record_dict_loop r items flag acc = Ok rd ->
    dict_keys rd = dict_keys acc ++ dict_keys (filter record_dict_keeps items)
    /\ (forall k v, dict_get k acc = Some v -> dict_get k rd = Some v)
    /\ (forall k c rest,
          In (k, VDict (("$const", c) :: rest)) items -> k <> "$class_type" ->
          dict_get k rd = Some c).
Proof.
  induction items as [|[fk field] items IH]; intros acc rd Hnd Hrun.
  - injection Hrun as <-. cbn [filter]. unfold dict_keys at 3. cbn [map].
    rewrite app_nil_r. split; [reflexivity|]. split; [auto|]. intros k c rest [].
  - unfold dict_keys at 2 in Hnd. cbn [map fst] in Hnd.
    destruct (NoDup_app_cons_fresh _ _ _ Hnd) as [Hfresh [Hskip Hadd]].
    fold (dict_keys items) in Hskip, Hadd.
    assert (Hset : forall v, dict_set fk v acc = acc ++ [(fk, v)])
      by (intros v; apply dict_set_fresh; exact Hfresh).
    assert (Hstep : forall v,
      record_dict_keeps (fk, field) = true ->
      record_dict_loop r items flag (dict_set fk v acc) = Ok rd ->
      dict_keys rd
      = dict_keys acc ++ dict_keys (filter record_dict_keeps ((fk, field) :: items))
      /\ (forall k w, dict_get k acc = Some w -> dict_get k rd = Some w)
      /\ dict_get fk rd = Some v
      /\ (forall k c rest,
            In (k, VDict (("$const", c) :: rest)) items -> k <> "$class_type" ->
            dict_get k rd = Some c)).
    { intros v Hkeep Hrec. rewrite Hset in Hrec.
      destruct (IH (acc ++ [(fk, v)]) rd) as [Hk [Hacc Hconst]].
      - rewrite dict_keys_app. exact Hadd.
      - exact Hrec.
      - split; [|split; [|split]].
        + cbn [filter]. rewrite Hkeep, Hk, dict_keys_app, <- app_assoc.
          reflexivity.
        + intros k w Hw. apply Hacc. apply dict_get_app_some. exact Hw.
        + apply Hacc. rewrite dict_get_app_none.
          * rewrite dict_get_cons, String.eqb_refl. reflexivity.
          * apply dict_get_notin. exact Hfresh.
        + exact Hconst. }
    assert (Hpass :
      record_dict_keeps (fk, field) = false ->
      record_dict_loop r items flag acc = Ok rd ->
      (forall c rest, field = VDict (("$const", c) :: rest) ->
                      fk = "$class_type") ->
      dict_keys rd
      = dict_keys acc ++ dict_keys (filter record_dict_keeps ((fk, field) :: items))
      /\ (forall k w, dict_get k acc = Some w -> dict_get k rd = Some w)
      /\ (forall k c rest,
            In (k, VDict (("$const", c) :: rest)) ((fk, field) :: items) ->
            k <> "$class_type" -> dict_get k rd = Some c)).
    { intros Hkeep Hrec Hfield.
      destruct (IH acc rd Hskip Hrec) as [Hk [Hacc Hconst]].
      split; [|split].
      - cbn [filter]. rewrite Hkeep. exact Hk.
      - exact Hacc.
      - intros k c rest [Heq|Hin] Hne.
        + injection Heq as -> ->. exfalso. apply Hne. eapply Hfield. reflexivity.
        + eapply Hconst; eassumption. }
    cbn [make_record_dict_loop] in Hrun.
    destruct (String.eqb fk "$class_type") eqn:Eclass.
    + cbn [negb] in Hrun. apply Hpass; [| exact Hrun |].
      * unfold record_dict_keeps. cbn [fst]. rewrite Eclass. reflexivity.
      * intros c rest _. apply String.eqb_eq. exact Eclass.
    + cbn [negb] in Hrun.
      assert (Hkeep_other :
        (forall fd, field <> VDict fd) -> record_dict_keeps (fk, field) = true).
      { intros Hnd'. unfold record_dict_keeps. cbn [fst snd]. rewrite Eclass.
        destruct field; try reflexivity. exfalso. eapply Hnd'. reflexivity. }
      assert (Hother :
        (forall fd, field <> VDict fd) ->
        (v <- resolve r field flag ;;
         record_dict_loop r items flag (dict_set fk v acc)) = Ok rd ->
        dict_keys rd
        = dict_keys acc ++ dict_keys (filter record_dict_keeps ((fk, field) :: items))
        /\ (forall k w, dict_get k acc = Some w -> dict_get k rd = Some w)
        /\ (forall k c rest,
              In (k, VDict (("$const", c) :: rest)) ((fk, field) :: items) ->
              k <> "$class_type" -> dict_get k rd = Some c)).
      { intros Hnd' H. apply bind_ok in H. destruct H as [v [_ H]].
        destruct (Hstep v (Hkeep_other Hnd') H) as [Hk [Hacc [_ Hconst]]].
        split; [exact Hk|]. split; [exact Hacc|].
        intros k c rest [Heq|Hin] Hne.
        - injection Heq as _ Hf. exfalso. eapply Hnd'. exact Hf.
        - eapply Hconst; eassumption. }
      destruct field as [| | | | | | |l|fd|c0 a0];
        try (apply Hother; [intros fd Hfd; discriminate Hfd|exact Hrun]).
      destruct fd as [|[k0 v0] fd]; [discriminate Hrun|].
      destruct (String.eqb k0 "$const") eqn:Econst.
      * apply String.eqb_eq in Econst. subst k0.
        destruct (Hstep v0) as [Hk [Hacc [Hfk Hconst]]].
        { unfold record_dict_keeps. cbn [fst snd]. rewrite Eclass. reflexivity. }
        { exact Hrun. }
        split; [exact Hk|]. split; [exact Hacc|].
        intros k c rest [Heq|Hin] Hne.
        -- injection Heq as <- <- _. exact Hfk.
        -- eapply Hconst; eassumption.
      * apply Hpass; [| exact Hrun |].
        -- unfold record_dict_keeps. cbn [fst snd]. rewrite Eclass, Econst.
           reflexivity.
        -- intros c rest Heq. injection Heq as -> _. discriminate Econst.
Qed.

(** X12.  The mapping [make_record_dict] builds from an object
    specification has, in the order of the specification, a key for
    every entry but the type name and the mappings that do not open
    with ["$const"], which are passed over without a word; it never has
    the key ["$class_type"]; and a constant is copied as it is written,
    type annotation included. *)
Theorem record_dict_entries (r : record) (object_dict rd : dict) (flag : bool)
  (Hkeys : NoDup (dict_keys object_dict))
  (Hrun : record_dict r object_dict flag = Ok rd) :
  dict_keys rd = dict_keys (filter record_dict_keeps object_dict)
  /\ dict_get "$class_type" rd = None
  /\ (forall k c rest,
        In (k, VDict (("$const", c) :: rest)) object_dict ->
        k <> "$class_type" -> dict_get k rd = Some c).
Proof.
  destruct (record_dict_loop_keys r flag object_dict [] rd Hkeys Hrun)
    as [Hk [_ Hconst]].
  split; [exact Hk|]. split; [|exact Hconst].
  apply dict_get_notin. intros Hin.
  change (In "$class_type" (dict_keys rd)) in Hin. rewrite Hk in Hin.
  unfold dict_keys in Hin. apply in_map_iff in Hin.
  destruct Hin as [[k v] [Heq Hin]].
  apply filter_In in Hin. destruct Hin as [_ Hkeep].
  cbn [fst] in Heq. subst k. discriminate Hkeep.
Qed.

(** X13.  A type name the schema module does not have is an
    [AttributeError]: in a nested-object element before any field of
    the record is read, the name already taken out of the element; in
    an object specification once the record mapping was built. *)
Theorem unknown_type_name (n : string) (Hunknown : nmdc n = None) :
  make_nmdc_class nmdc (VStr n) = Raise AttributeError
  /\ (forall r item,
        dict_has "$spit_val" item = false ->
        dict_get "$class_type" item = Some (VStr n) ->
        item_objects r item
        = (Raise AttributeError, dict_del "$class_type" item))
  /\ (forall r object_dict rd,
        record_dict r object_dict true = Ok rd ->
        dict_get "$class_type" object_dict = Some (VStr n) ->
        make_object_from_dict py_eval container_repr nmdc r object_dict
        = Raise AttributeError).
Proof.
  assert (Hclass : make_nmdc_class nmdc (VStr n) = Raise AttributeError)
    by (unfold make_nmdc_class; rewrite Hunknown; reflexivity).
  split; [exact Hclass|]. split.
  - intros r item Hspit Htype.
    unfold make_object_from_list_item_dict, pop_split_val, pop_class_type.
    rewrite Hspit, Htype, Hclass. reflexivity.
  - intros r object_dict rd Hrd Htype. unfold make_object_from_dict.
    rewrite Hrd. cbn [bind]. rewrite Htype, Hclass. reflexivity.
Qed.

Lemma mapM_length {A B : Type} (f : A -> result B) (l : list A) (l' : list B) :
  mapM f l = Ok l' -> List.length l' = List.length l.
Proof. intros H. exact (proj1 (mapM_nth f l l' H)). Qed.

Lemma constructor_args_loop_keys (r : record) (items : dict) :
  forall acc rd,
    NoDup (dict_keys acc ++ dict_keys items) ->
    make_constructor_args_loop py_eval container_repr nmdc r items acc = Ok rd ->
    dict_keys rd = dict_keys acc ++ dict_keys items
    /\ (forall k v, dict_get k acc = Some v -> dict_get k rd = Some v)
    /\ (forall k f fl,
          In (k, VList (f :: fl)) items ->
          exists vs, dict_get k rd = Some (VList vs)
                     /\ List.length vs = S (List.length fl))
    /\ (forall k s,
          In (k, VStr s) items ->
          exists v, resolve r (VStr s) true = Ok v /\ dict_get k rd = Some v).
Proof.
  induction items as [|[key field] items IH]; intros acc rd Hnd Hrun.
  - injection Hrun as <-. unfold dict_keys at 3. cbn [map]. rewrite app_nil_r.
    split; [reflexivity|]. split; [auto|]. split; intros ? ? ? [] || intros ? ? [].
  - unfold dict_keys at 2 in Hnd. cbn [map fst] in Hnd.
    destruct (NoDup_app_cons_fresh _ _ _ Hnd) as [Hfresh [_ Hadd]].
    fold (dict_keys items) in Hadd.
    cbn [make_constructor_args_loop] in Hrun.
    apply bind_ok in Hrun. destruct Hrun as [v [Hv Hrun]].
    rewrite (dict_set_fresh key v acc Hfresh) in Hrun.
    destruct (IH (acc ++ [(key, v)]) rd) as [Hk [Hacc [Hlists Hstrs]]].
    { rewrite dict_keys_app. exact Hadd. }
    { exact Hrun. }
    assert (Hkey : dict_get key rd = Some v).
    { apply Hacc. rewrite dict_get_app_none.
      - rewrite dict_get_cons, String.eqb_refl. reflexivity.
      - apply dict_get_notin. exact Hfresh. }
    split; [|split; [|split]].
    + rewrite Hk, dict_keys_app, <- app_assoc. reflexivity.
    + intros k w Hw. apply Hacc. apply dict_get_app_some. exact Hw.
    + intros k f fl [Heq|Hin]; [|eapply Hlists; exact Hin].
      injection Heq as Hkeq Hfeq. subst key field.
      apply bind_ok in Hv. destruct Hv as [vs [Hvs Hv]]. injection Hv as <-.
      exists vs. split; [exact Hkey|].
      rewrite (mapM_length _ _ _ Hvs). reflexivity.
    + intros k s [Heq|Hin]; [|eapply Hstrs; exact Hin].
      injection Heq as Hkeq Hfeq. subst key field.
      exists v. split; [exact Hv|exact Hkey].
Qed.

(** X14.  The constructor arguments have the keys of the constructor
    specification, in its order, none left out.  A plain reference gets
    what [get_record_attr] resolves it to; a list gets one value for
    each of its elements: no text is split into several values here. *)
Theorem constructor_args_entries (r : record) (constructor_map args : dict)
  (Hkeys : NoDup (dict_keys constructor_map))
  (Hrun : make_constructor_args_from_record py_eval container_repr nmdc
            constructor_map r = Ok args) :
  dict_keys args = dict_keys constructor_map
  /\ (forall k f fl,
        In (k, VList (f :: fl)) constructor_map ->
        exists vs, dict_get k args = Some (VList vs)
                   /\ List.length vs = S (List.length fl))
  /\ (forall k s,
        In (k, VStr s) constructor_map ->
        exists v, resolve r (VStr s) true = Ok v /\ dict_get k args = Some v).
Proof.
  destruct (constructor_args_loop_keys r constructor_map [] args Hkeys Hrun)
    as [Hk [_ [Hlists Hstrs]]].
  auto.
Qed.

(** *** Lists of values *)

Lemma append_empty (s : string) : (s ++ "")%string = s.
Proof. induction s as [|c s IH]; [reflexivity|]. simpl. rewrite IH. reflexivity. Qed.

Lemma rev_string_twice (s acc cur : string) :
  rev_string acc (rev_string cur s) = rev_string (s ++ acc)%string cur.
Proof.
  revert acc cur. induction s as [|c s IH]; intros acc cur; [reflexivity|].
  cbn [rev_string]. rewrite IH. reflexivity.
Qed.

Lemma split_no_comma (s cur : string) :
  has_comma s = false ->
  split_aux "," 0 cur s = [rev_string "" (rev_string cur s)].
Proof.
  revert cur. induction s as [|c s IH]; intros cur H; [reflexivity|].
  cbn [has_comma] in H. apply orb_false_iff in H. destruct H as [Hc Hs].
  cbn [split_aux rev_string]. rewrite prefix_comma, Hc. apply IH. exact Hs.
Qed.

Lemma split_whole (s : string) :
  has_comma s = false -> split "," s = Ok [s].
Proof.
  intros H. unfold split. rewrite (split_no_comma s "" H), rev_string_twice.
  cbn [rev_string]. rewrite append_empty. reflexivity.
Qed.

Lemma resolve_flag_irrelevant (r : record) (spec : value) (f dt : string) :
  (forall d, spec = VDict d -> dict_get "$const" d = None) ->
  get_field_and_dtype_from_attribute_field spec = Ok (VStr f, dt) ->
  mem_string f (fields_ r) = true ->
  resolve r spec true = resolve r spec false.
Proof.
  intros Hnc Hspec Hmem.
  rewrite !(resolve_reference py_eval container_repr r spec f dt _ Hnc Hspec).
  rewrite Hmem. reflexivity.
Qed.

(** X15.  In a list, a plain reference and a ["$field"] wrapper around
    it give the same values when the record has the field.  When it has
    not, the plain reference (here one without type annotation) gives
    the field name itself, as a text, and the wrapper gives [None]. *)
Theorem reference_and_wrapper (r : record) (s f dt : string)
  (Hspec : get_field_and_dtype_from_attribute_field (VStr s) = Ok (VStr f, dt)) :
  (mem_string f (fields_ r) = true ->
   (p <- list_objects r [VStr s] ;; Ok (fst p))
   = (p <- list_objects r [VDict [("$field", VStr s)]] ;; Ok (fst p)))
  /\ (mem_string f (fields_ r) = false -> has_comma s = false ->
      list_objects r [VStr s] = Ok ([VStr f], [VStr s])
      /\ list_objects r [VDict [("$field", VStr s)]]
         = Ok ([VNone], [VDict [("$field", VStr s)]])).
Proof.
  assert (Hnc : forall d, VStr s = VDict d -> dict_get "$const" d = None)
    by (intros d H; discriminate H).
  split.
  - intros Hmem.
    cbn [make_object_from_list]. unfold make_value_from_list_item_dict.
    change (dict_has "$field" [("$field", VStr s)]) with true.
    change (dict_get "$field" [("$field", VStr s)]) with (Some (VStr s)).
    change (dict_get "$split_val" [("$field", VStr s)]) with (@None value).
    change (dict_get "$const" [("$field", VStr s)]) with (@None value).
    cbn [bind].
    rewrite (resolve_flag_irrelevant r (VStr s) f dt Hnc Hspec Hmem).
    destruct (get_dtype_from_attribute_field (VStr s)) as [dtype|e];
      [|reflexivity].
    cbn [bind]. destruct (resolve r (VStr s) false) as [rv|e]; [|reflexivity].
    cbn [bind py_split].
    destruct rv; cbn [bind]; try reflexivity;
      match goal with
      | |- context [split "," ?t] =>
          destruct (split "," t) as [pieces|e]; [|reflexivity]; cbn [bind];
          destruct (coerce_pieces py_eval container_repr pieces dtype);
          reflexivity
      end.
  - intros Hmem Hcomma.
    assert (Hf : f = strip s /\ dt = "str").
    { cbn [get_field_and_dtype_from_attribute_field] in Hspec.
      rewrite Hcomma in Hspec. injection Hspec as <- <-. auto. }
    destruct Hf as [Hf ->].
    assert (Hfc : has_comma f = false)
      by (rewrite Hf; apply has_comma_strip; exact Hcomma).
    assert (Hfs : strip f = f) by (rewrite Hf; apply strip_fixed).
    split.
    + cbn [make_object_from_list get_dtype_from_attribute_field].
      rewrite Hcomma. cbn [bind].
      rewrite (resolve_reference py_eval container_repr r (VStr s) f "str" true
                 Hnc Hspec), Hmem.
      cbn [coerce_value negb String.eqb Ascii.eqb Bool.eqb py_str bind].
      rewrite (split_whole f Hfc). cbn [bind].
      rewrite coerce_pieces_str. cbn [bind map app]. rewrite Hfs. reflexivity.
    + cbn [make_object_from_list]. unfold make_value_from_list_item_dict.
      change (dict_has "$field" [("$field", VStr s)]) with true.
      change (dict_get "$field" [("$field", VStr s)]) with (Some (VStr s)).
      change (dict_get "$const" [("$field", VStr s)]) with (@None value).
      cbn [bind get_dtype_from_attribute_field]. rewrite Hcomma. cbn [bind].
      rewrite (resolve_reference py_eval container_repr r (VStr s) f "str" false
                 Hnc Hspec), Hmem.
      reflexivity.
Qed.

(** X16.  The elements of a list specification are resolved one after
    the other and their values concatenated: resolving [l1 ++ l2] is
    resolving [l1], then [l2], the first error of either being the
    error of the whole. *)
Theorem list_objects_app (r : record) (l1 l2 : list value) :
  list_objects r (l1 ++ l2)
  = ('(objs1, l1') <- list_objects r l1 ;;
     '(objs2, l2') <- list_objects r l2 ;;
     Ok (objs1 ++ objs2, l1' ++ l2')).
Proof.
  induction l1 as [|val l1 IH].
  - cbn [app make_object_from_list bind].
    destruct (list_objects r l2) as [[objs2 l2']|e]; reflexivity.
  - cbn [app make_object_from_list]. rewrite IH.
    match goal with
    | |- bind ?E _ = _ => destruct E as [[objs val']|e]; [|reflexivity]
    end.
    cbn [bind]. cbn zeta.
    destruct (list_objects r l1) as [[objs1 l1']|e]; [|reflexivity].
    cbn [bind]. cbn zeta.
    destruct (list_objects r l2) as [[objs2 l2']|e]; [|reflexivity].
    cbn [bind]. cbn zeta. rewrite app_assoc. reflexivity.
Qed.

Lemma dict_del_absent {V : Type} (k : string) (d : list (string * V)) :
  dict_get k d = None -> dict_del k d = d.
Proof.
  induction d as [|[k0 v0] d IH]; [reflexivity|].
  rewrite dict_get_cons. cbn [dict_del].
  destruct (String.eqb k0 k); [discriminate|]. intros H. rewrite IH; auto.
Qed.

Lemma dict_get_del_same {V : Type} (k : string) (d : list (string * V)) :
  NoDup (dict_keys d) -> dict_get k (dict_del k d) = None.
Proof.
  unfold dict_keys. induction d as [|[k0 v0] d IH]; intros Hnd; [reflexivity|].
  inversion Hnd as [|? ? Hnotin Hnd']; subst. cbn [dict_del].
  destruct (String.eqb k0 k) eqn:E.
  - apply String.eqb_eq in E. subst. apply dict_get_notin. exact Hnotin.
  - rewrite dict_get_cons, E. apply IH. exact Hnd'.
Qed.

Lemma dict_get_del_other {V : Type} (k k' : string) (d : list (string * V)) :
  k <> k' -> dict_get k (dict_del k' d) = dict_get k d.
Proof.
  intros Hne. induction d as [|[k0 v0] d IH]; [reflexivity|]. cbn [dict_del].
  destruct (String.eqb k0 k') eqn:E.
  - apply String.eqb_eq in E. subst. rewrite dict_get_cons.
    destruct (String.eqb k' k) eqn:E'; [|reflexivity].
    apply String.eqb_eq in E'. congruence.
  - rewrite !dict_get_cons. destruct (String.eqb k0 k); auto.
Qed.

Lemma dict_has_del_other {V : Type} (k k' : string) (d : list (string * V)) :
  k <> k' -> dict_has k (dict_del k' d) = dict_has k d.
Proof.
  intros Hne. rewrite !dict_has_get, dict_get_del_other by exact Hne.
  reflexivity.
Qed.

Lemma item_objects_leave (r : record) (item : dict) :
  snd (item_objects r item) = item_after_call item.
Proof.
  unfold make_object_from_list_item_dict, pop_split_val, pop_class_type,
    item_after_call.
  rewrite (dict_has_get "$split_val" item).
  destruct (dict_has "$spit_val" item).
  - destruct (dict_get "$split_val" item) as [sv|]; [|reflexivity].
    destruct (dict_get "$class_type" (dict_del "$split_val" item)) eqn:E;
      cbn [snd]; [reflexivity|].
    symmetry. apply dict_del_absent. exact E.
  - destruct (dict_get "$class_type" item) eqn:E; cbn [snd]; [reflexivity|].
    symmetry. apply dict_del_absent. exact E.
Qed.

(** X17.  What a call on a nested-object element leaves of the element,
    whatever the record and however the call ends: the element without
    its ["$class_type"] key, and without its ["$split_val"] key if it
    had the key ["$spit_val"] that the guard tests (an element with the
    key of the guard and no delimiter is left as it was: taking the
    delimiter raised).  Every other entry is as it was.  A second call
    changes nothing more. *)
Theorem element_after_a_call (r : record) (item : dict) :
  snd (item_objects r item) = item_after_call item
  /\ (forall k, k <> "$class_type" -> k <> "$split_val" ->
        dict_get k (item_after_call item) = dict_get k item)
  /\ (NoDup (dict_keys item) -> dict_has "$spit_val" item = false ->
      dict_get "$class_type" (item_after_call item) = None
      /\ dict_get "$split_val" (item_after_call item)
         = dict_get "$split_val" item)
  /\ (NoDup (dict_keys item) ->
      forall r', snd (item_objects r' (item_after_call item))
                 = item_after_call item).
Proof.
  split; [apply item_objects_leave|]. split; [|split].
  - intros k Hc Hs. unfold item_after_call.
    destruct (dict_has "$spit_val" item).
    + destruct (dict_has "$split_val" item); [|reflexivity].
      rewrite !dict_get_del_other by assumption. reflexivity.
    + apply dict_get_del_other. exact Hc.
  - intros Hnd Hspit. unfold item_after_call. rewrite Hspit. split.
    + apply dict_get_del_same. exact Hnd.
    + apply dict_get_del_other. discriminate.
  - intros Hnd r'. rewrite item_objects_leave.
    destruct (dict_has "$spit_val" item) eqn:Hspit.
    + destruct (dict_has "$split_val" item) eqn:Hsplit.
      * assert (E : item_after_call item
                    = dict_del "$class_type" (dict_del "$split_val" item))
          by (unfold item_after_call; rewrite Hspit, Hsplit; reflexivity).
        rewrite E. unfold item_after_call.
        rewrite (dict_has_del_other "$spit_val" "$class_type") by discriminate.
        rewrite (dict_has_del_other "$spit_val" "$split_val") by discriminate.
        rewrite Hspit.
        rewrite (dict_has_del_other "$split_val" "$class_type") by discriminate.
        rewrite (dict_has_get "$split_val"), dict_get_del_same by exact Hnd.
        reflexivity.
      * assert (E : item_after_call item = item)
          by (unfold item_after_call; rewrite Hspit, Hsplit; reflexivity).
        rewrite !E. reflexivity.
    + assert (E : item_after_call item = dict_del "$class_type" item)
        by (unfold item_after_call; rewrite Hspit; reflexivity).
      rewrite E. unfold item_after_call.
      rewrite (dict_has_del_other "$spit_val" "$class_type") by discriminate.
      rewrite Hspit. apply dict_del_absent. apply dict_get_del_same. exact Hnd.
Qed.

(** a list specification that was resolved is as it was: only a call on
    a nested-object element changes one, and no such call returns *)
Lemma list_objects_same (r : record) (nmdc_list : list value) :
  forall objs after,
    list_objects r nmdc_list = Ok (objs, after) -> after = nmdc_list.
Proof.
  induction nmdc_list as [|val l IH]; intros objs after Hrun.
  - injection Hrun as _ <-. reflexivity.
  - cbn [make_object_from_list] in Hrun.
    apply bind_ok in Hrun. destruct Hrun as [[objs1 val'] [Hval Hrun]].
    cbn zeta in Hrun.
    apply bind_ok in Hrun. destruct Hrun as [[more rest'] [Hrest Hrun]].
    cbn zeta in Hrun. injection Hrun as _ <-.
    rewrite (IH _ _ Hrest). f_equal.
    assert (Hplain :
      (dtype <- get_dtype_from_attribute_field val ;;
       record_val <- resolve r val true ;;
       match record_val with
       | VNone => Ok ([VNone], val)
       | _ =>
           pieces <- split "," (to_str record_val) ;;
           vs <- coerce_pieces py_eval container_repr pieces dtype ;;
           Ok (vs, val)
       end) = Ok (objs1, val') -> val' = val).
    { intros H. apply bind_ok in H. destruct H as [dtype [_ H]].
      apply bind_ok in H. destruct H as [rv [_ H]].
      destruct rv; try (injection H as _ <-; reflexivity);
        apply bind_ok in H; destruct H as [pieces [_ H]];
        apply bind_ok in H; destruct H as [vs [_ H]];
        injection H as _ <-; reflexivity. }
    destruct val; try (apply Hplain; exact Hval).
    destruct (dict_has "$field" d).
    + apply bind_ok in Hval. destruct Hval as [vs [_ Hval]].
      injection Hval as _ <-. reflexivity.
    + exfalso.
      destruct (item_objects_raise py_eval container_repr nmdc r d) as [e He].
      destruct (item_objects r d) as [outcome d'].
      cbn [fst] in He. subst outcome. discriminate Hval.
Qed.

End BuilderFacts.

(** ** The crosswalk and the driver *)

Lemma dict_get_set {V : Type} (k k0 : string) (v : V) (d : list (string * V)) :
  dict_get k (dict_set k0 v d) = if String.eqb k0 k then Some v else dict_get k d.
Proof.
  destruct (String.eqb k0 k) eqn:E.
  - apply String.eqb_eq in E. subst. apply dict_get_set_same.
  - apply dict_get_set_other. apply String.eqb_neq. exact E.
Qed.

Lemma dict_get_app {V : Type} (k : string) (a b : list (string * V)) :
  dict_get k (a ++ b) =
  match dict_get k a with Some v => Some v | None => dict_get k b end.
Proof.
  destruct (dict_get k a) as [v|] eqn:E.
  - apply dict_get_app_some. exact E.
  - apply dict_get_app_none. exact E.
Qed.

Lemma dict_get_fold_set {V : Type} (k : string) (l : list (string * V)) :
  forall acc,
    dict_get k (fold_left (fun d kv => dict_set (fst kv) (snd kv) d) l acc) =
    match dict_get k (rev l) with Some v => Some v | None => dict_get k acc end.
Proof.
  induction l as [|[k0 v0] l IH]; intros acc; [reflexivity|].
  cbn [fold_left fst snd rev]. rewrite IH, dict_get_app, dict_get_set.
  destruct (dict_get k (rev l)); [reflexivity|].
  rewrite dict_get_cons. destruct (String.eqb k0 k); reflexivity.
Qed.

(** in a dictionary made of pairs, the last pair of a key is the one
    that counts *)
Lemma dict_get_of_pairs {V : Type} (k : string) (l : list (string * V)) :
  dict_get k (dict_of_pairs l) = dict_get k (rev l).
Proof.
  unfold dict_of_pairs. rewrite dict_get_fold_set.
  destruct (dict_get k (rev l)); reflexivity.
Qed.

Section DriverFacts.

Variable py_eval : string -> result value.
Variable container_repr : value -> string.
Variable py_float : string -> option value.
Variable nmdc : string -> option class_def.
Variable make_dataframe : string -> list sssom_row.
Variable packaged_sssom : list sssom_row.
Variable eval_pre : string -> result pre_hook.
Variable eval_post : string -> result post_hook.

Local Abbreviation attribute_map_of :=
  (make_attribute_map make_dataframe packaged_sssom).

Lemma last_row_counts (rows before after : list sssom_row) (row : sssom_row) :
  rows = before ++ row :: after ->
  (forall r', In r' after -> subject_label r' <> subject_label row) ->
  dict_get (subject_label row)
    (dict_of_pairs (map (fun r0 => (subject_label r0, object_label r0)) rows))
  = Some (object_label row).
Proof.
  intros -> Hafter. rewrite dict_get_of_pairs, map_app. cbn [map].
  rewrite rev_app_distr. cbn [rev]. rewrite <- app_assoc, dict_get_app.
  rewrite dict_get_notin.
  - cbn [app]. rewrite dict_get_cons, String.eqb_refl. reflexivity.
  - rewrite <- map_rev, map_map. cbn [fst]. intros Hin.
    apply in_map_iff in Hin. destruct Hin as [r' [Hs Hin]].
    apply in_rev in Hin. exact (Hafter r' Hin Hs).
Qed.

(** X20.  Read from a path, the crosswalk maps a subject label only to
    the object label of a row of the table that is an exact match.
    Whichever table is loaded, of several rows with one subject label
    the last one loaded decides. *)
Theorem crosswalk_rows (sssom_map_file : string)
  (Hpath : sssom_map_file <> "") :
  (forall s o,
     dict_get s (attribute_map_of sssom_map_file) = Some o ->
     exists row,
       In row (make_dataframe sssom_map_file)
       /\ predicate_id row = "skos:exactMatch"
       /\ subject_label row = s /\ object_label row = o)
  /\ (forall before row after,
        filter (fun r0 => String.eqb (predicate_id r0) "skos:exactMatch")
               (make_dataframe sssom_map_file)
        = before ++ row :: after ->
        (forall r', In r' after -> subject_label r' <> subject_label row) ->
        dict_get (subject_label row) (attribute_map_of sssom_map_file)
        = Some (object_label row))
  /\ (forall before row after,
        packaged_sssom = before ++ row :: after ->
        (forall r', In r' after -> subject_label r' <> subject_label row) ->
        dict_get (subject_label row) (attribute_map_of "")
        = Some (object_label row)).
Proof.
  assert (Hmap : attribute_map_of sssom_map_file
                 = dict_of_pairs
                     (map (fun r0 => (subject_label r0, object_label r0))
                        (filter (fun r0 =>
                                   String.eqb (predicate_id r0) "skos:exactMatch")
                                (make_dataframe sssom_map_file)))).
  { unfold make_attribute_map. destruct sssom_map_file; [|reflexivity].
    exfalso. apply Hpath. reflexivity. }
  split; [|split].
  - intros s o Hget. rewrite Hmap, dict_get_of_pairs in Hget.
    apply dict_get_In in Hget. apply in_rev in Hget.
    apply in_map_iff in Hget. destruct Hget as [row [Heq Hin]].
    injection Heq as <- <-. apply filter_In in Hin. destruct Hin as [Hin Hexact].
    exists row. split; [exact Hin|]. split; [|auto].
    apply String.eqb_eq. exact Hexact.
  - intros before row after Hrows Hafter. rewrite Hmap.
    eapply last_row_counts; eassumption.
  - intros before row after Hrows Hafter. unfold make_attribute_map.
    eapply last_row_counts; eassumption.
Qed.

(** X21.  The hooks of a phase run in the order declared, each on what
    the one before returned: running [t1 ++ t2] is running [t1], then
    [t2] on its result, and an error of [t1] keeps [t2] from being
    resolved at all. *)
Theorem hooks_run_in_sequence (t1 t2 : list transform) :
  (forall kw objs,
     run_post container_repr py_float eval_post (t1 ++ t2) kw objs
     = (objs1 <- run_post container_repr py_float eval_post t1 kw objs ;;
        run_post container_repr py_float eval_post t2 kw objs1))
  /\ (forall df,
        run_pre eval_pre (t1 ++ t2) df
        = (df1 <- run_pre eval_pre t1 df ;; run_pre eval_pre t2 df1)).
Proof.
  split.
  - induction t1 as [|t t1 IH]; intros kw objs; [reflexivity|].
    cbn [app run_post].
    destruct (eval_post_hook container_repr py_float eval_post (function t))
      as [tx|e]; [|reflexivity].
    cbn [bind]. destruct (tx objs (attributes t) kw) as [[objs1 out]|e];
      [|reflexivity].
    cbn [bind]. cbn zeta. apply IH.
  - induction t1 as [|t t1 IH]; intros df; [reflexivity|].
    cbn [app run_pre].
    destruct (eval_pre_hook eval_pre (function t)) as [tx|e]; [|reflexivity].
    cbn [bind]. destruct (tx df (attributes t)) as [df1|e]; [|reflexivity].
    cbn [bind]. apply IH.
Qed.

Local Abbreviation set_object := (set_nmdc_object py_eval container_repr nmdc).
Local Abbreviation set_fields :=
  (set_attribute_fields py_eval container_repr nmdc).
Local Abbreviation build := (build_objects py_eval container_repr nmdc).

Lemma set_object_assigns (c : string) (attrs : dict) (r : record)
      (amap : list (string * string)) (af o' af' : value) :
  set_object (VObj c attrs) r amap af = Ok (o', af') ->
  exists f av,
    assigned_field af = Some f
    /\ o' = VObj c (dict_set (crosswalk_target amap f) av attrs).
Proof.
  unfold set_nmdc_object. intros H.
  apply bind_ok in H. destruct H as [[[[field av] rep] af2] [Hfield H]].
  cbn zeta in H.
  apply bind_ok in H. destruct H as [o1 [Hset H]]. injection H as <- _.
  assert (Htarget :
    match amap with
    | [] => field
    | _ => match dict_get field amap with
           | Some renamed => renamed
           | None => field
           end
    end = crosswalk_target amap field) by (destruct amap; reflexivity).
  rewrite Htarget in Hset. injection Hset as <-.
  exists field. eexists. split; [|reflexivity].
  destruct af as [| | | | |s| |l|d|c0 a0];
    try (apply bind_ok in Hfield; destruct Hfield as [x [_ Hx]];
         discriminate Hx).
  - apply bind_ok in Hfield. destruct Hfield as [x [_ Hx]].
    injection Hx as <- _ _ _. reflexivity.
  - destruct d as [|[field0 val] others]; [discriminate Hfield|].
    destruct val;
      apply bind_ok in Hfield; destruct Hfield as [x [_ Hx]];
      try discriminate Hx;
      try (injection Hx as <- _ _ _; reflexivity).
    destruct x as [objs l']. cbn zeta in Hx. injection Hx as <- _ _ _.
    reflexivity.
Qed.

(** X22.  [set_nmdc_object] assigns one attribute and no other: the
    name is the first key of a mapping specification, or the field name
    of a plain reference, passed through the crosswalk (an empty
    crosswalk renames nothing); the record has no say in the name. *)
Theorem one_attribute_assigned (c : string) (attrs : dict) (r : record)
  (attribute_map : list (string * string)) (attribute_field o' af' : value)
  (Hrun : set_object (VObj c attrs) r attribute_map attribute_field
          = Ok (o', af')) :
  exists f av,
    assigned_field attribute_field = Some f
    /\ o' = VObj c (dict_set (crosswalk_target attribute_map f) av attrs)
    /\ (forall k, k <> crosswalk_target attribute_map f ->
                  obj_attr o' k = dict_get k attrs)
    /\ crosswalk_target [] f = f.
Proof.
  destruct (set_object_assigns c attrs r attribute_map attribute_field o' af' Hrun)
    as [f [av [Hf ->]]].
  exists f, av. split; [exact Hf|]. split; [reflexivity|]. split; [|reflexivity].
  intros k Hk. cbn [obj_attr]. apply dict_get_set_other. congruence.
Qed.

Lemma set_fields_class (afs : list value) :
  forall c attrs r amap o' afs',
    set_fields (VObj c attrs) r amap afs = Ok (o', afs') ->
    (exists attrs', o' = VObj c attrs')
    /\ List.length afs' = List.length afs.
Proof.
  induction afs as [|af afs IH]; intros c attrs r amap o' afs' H.
  - injection H as <- <-. split; [exists attrs; reflexivity|reflexivity].
  - cbn [set_attribute_fields] in H.
    apply bind_ok in H. destruct H as [[o1 af1] [H1 H]]. cbn zeta in H.
    apply bind_ok in H. destruct H as [[o2 rest] [H2 H]]. cbn zeta in H.
    injection H as <- <-.
    destruct (set_object_assigns _ _ _ _ _ _ _ H1) as [f [av [_ ->]]].
    destruct (IH _ _ _ _ _ _ H2) as [Hc Hl].
    split; [exact Hc|]. cbn [List.length]. rewrite Hl. reflexivity.
Qed.

(** X23.  The object built for a row is an instance of the class the
    driver was given, whatever the attribute list assigns, and the
    attribute list comes back with as many entries as it had.  With no
    attribute list, the [type] of the object is the curie of the class:
    the constructor's own [type], if it set one, is overwritten. *)
Theorem row_object_class (nmdc_class : class_def) (constructor_map : dict)
  (attribute_fields afs : list value) (attribute_map : list (string * string))
  (r : record) (obj : value)
  (Hrun : make_nmdc_object py_eval container_repr nmdc nmdc_class
            constructor_map attribute_fields attribute_map r = Ok (obj, afs)) :
  exists attrs,
    obj = VObj (class_name nmdc_class) attrs
    /\ List.length afs = List.length attribute_fields
    /\ (attribute_fields = [] ->
        dict_get "type" attrs = Some (VStr (class_class_curie nmdc_class))).
Proof.
  unfold make_nmdc_object in Hrun.
  apply bind_ok in Hrun. destruct Hrun as [obj0 [H0 Hrun]].
  apply bind_ok in Hrun. destruct Hrun as [obj1 [H1 Hrun]].
  assert (Hinst : exists attrs0, obj0 = VObj (class_name nmdc_class) attrs0).
  { assert (Hi : forall kw, instantiate nmdc_class kw = Ok obj0 ->
                            exists attrs0, obj0 = VObj (class_name nmdc_class) attrs0).
    { intros kw Hi. unfold instantiate in Hi.
      apply bind_ok in Hi. destruct Hi as [a0 [_ Hi]]. injection Hi as <-.
      exists a0. reflexivity. }
    destruct constructor_map; [exact (Hi _ H0)|].
    apply bind_ok in H0. destruct H0 as [args [_ H0]]. exact (Hi _ H0). }
  destruct Hinst as [attrs0 ->]. injection H1 as <-.
  destruct (set_fields_class _ _ _ _ _ _ _ Hrun) as [[attrs' ->] Hlen].
  exists attrs'. split; [reflexivity|]. split; [exact Hlen|].
  intros ->. injection Hrun as <- _. apply dict_get_set_same.
Qed.

(** a call that returns leaves the attribute specification as it was *)
Lemma set_object_same (obj : value) (r : record)
      (amap : list (string * string)) (af o' af' : value) :
  set_object obj r amap af = Ok (o', af') -> af' = af.
Proof.
  unfold set_nmdc_object. intros H.
  apply bind_ok in H. destruct H as [[[[field av] rep] af2] [Hfield H]].
  cbn zeta in H.
  apply bind_ok in H. destruct H as [o1 [_ H]]. injection H as _ <-.
  destruct af as [| | | | |s| |l|d|c0 a0];
    try (apply bind_ok in Hfield; destruct Hfield as [x [_ Hx]];
         discriminate Hx).
  - apply bind_ok in Hfield. destruct Hfield as [x [_ Hx]].
    injection Hx as _ _ _ <-. reflexivity.
  - destruct d as [|[field0 val] others]; [discriminate Hfield|].
    destruct val;
      apply bind_ok in Hfield; destruct Hfield as [x [Hx0 Hx]];
      try discriminate Hx;
      try (injection Hx as _ _ _ <-; reflexivity).
    destruct x as [objs l']. cbn zeta in Hx. injection Hx as _ _ _ <-.
    rewrite (list_objects_same py_eval container_repr nmdc r l objs l' Hx0).
    reflexivity.
Qed.

Lemma set_fields_same (afs : list value) :
  forall obj r amap o' afs',
    set_fields obj r amap afs = Ok (o', afs') -> afs' = afs.
Proof.
  induction afs as [|af afs IH]; intros obj r amap o' afs' H.
  - injection H as _ <-. reflexivity.
  - cbn [set_attribute_fields] in H.
    apply bind_ok in H. destruct H as [[o1 af1] [H1 H]]. cbn zeta in H.
    apply bind_ok in H. destruct H as [[o2 rest] [H2 H]]. cbn zeta in H.
    injection H as _ <-.
    rewrite (set_object_same _ _ _ _ _ _ H1), (IH _ _ _ _ _ H2). reflexivity.
Qed.

Lemma make_nmdc_object_same (cls : class_def) (cmap : dict) (afs : list value)
      (amap : list (string * string)) (r : record) (obj : value)
      (afs' : list value) :
  make_nmdc_object py_eval container_repr nmdc cls cmap afs amap r
  = Ok (obj, afs') ->
  afs' = afs.
Proof.
  unfold make_nmdc_object. intros H.
  apply bind_ok in H. destruct H as [obj0 [_ H]].
  apply bind_ok in H. destruct H as [obj1 [_ H]].
  eapply set_fields_same. exact H.
Qed.

(** the rows that were built were each built from the attribute list as
    it was given *)
Lemma build_objects_rows (rows : list record) :
  forall cls cmap afs amap objs afs',
    build cls cmap afs amap rows = Ok (objs, afs') ->
    afs' = afs
    /\ Forall2 (fun row obj =>
                  make_nmdc_object py_eval container_repr nmdc cls cmap afs
                    amap row = Ok (obj, afs))
               rows objs.
Proof.
  induction rows as [|r rows IH]; intros cls cmap afs amap objs afs' H.
  - injection H as <- <-. split; [reflexivity|constructor].
  - cbn [build_objects] in H.
    apply bind_ok in H. destruct H as [[obj afs1] [Hrow H]]. cbn zeta in H.
    apply bind_ok in H. destruct H as [[objs1 afs2] [Hrest H]]. cbn zeta in H.
    injection H as <- <-.
    pose proof (make_nmdc_object_same _ _ _ _ _ _ _ Hrow) as E. subst afs1.
    destruct (IH _ _ _ _ _ _ Hrest) as [-> HF].
    split; [reflexivity|]. constructor; assumption.
Qed.

(** X24.  With no hooks declared, the driver returns one mapping for
    each row of the data frame, in the order of the rows: the mapping at
    the place of a row is the object built from that row and from the
    attribute list as it was given, swept and pruned.  No entry of these
    mappings is without a value. *)
Theorem one_mapping_per_row (nmdc_df : list record) (nmdc_class : class_def)
  (constructor_map : dict) (attribute_fields : list value)
  (attribute_map : list (string * string)) (transform_map : transform_map_t)
  (out : list value)
  (Hpre : transforms_of (pre transform_map) = [])
  (Hpost : transforms_of (post transform_map) = [])
  (Hrun : dataframe_to_dict py_eval container_repr py_float nmdc eval_pre
            eval_post nmdc_df nmdc_class constructor_map attribute_fields
            attribute_map transform_map = Ok out) :
  Forall2 (fun row o =>
             exists obj swept,
               make_nmdc_object py_eval container_repr nmdc nmdc_class
                 constructor_map attribute_fields attribute_map row
               = Ok (obj, attribute_fields)
               /\ clear_junk obj = Ok swept
               /\ o = make_dict_from_nmdc_obj swept)
          nmdc_df out
  /\ Forall (fun o => exists d,
                 o = VDict d /\ Forall (fun kv => is_value (snd kv) = true) d)
            out.
Proof.
  unfold dataframe_to_dict in Hrun. rewrite Hpre, Hpost in Hrun.
  cbn [run_pre bind] in Hrun.
  apply bind_ok in Hrun. destruct Hrun as [[objs afs] [Hbuild Hrun]].
  cbn zeta in Hrun.
  apply bind_ok in Hrun. destruct Hrun as [cleared [Hclear Hrun]].
  cbn [run_post bind] in Hrun. injection Hrun as <-.
  destruct (clear_all_objs objs
              (build_objects_obj py_eval container_repr nmdc _ _ _ _ _ _ _ Hbuild))
    as [cleared' [Hclear' Hrel]].
  rewrite Hclear in Hclear'. injection Hclear' as <-.
  split.
  - destruct (build_objects_rows _ _ _ _ _ _ _ Hbuild) as [_ Hrows].
    pose proof (mapM_Forall2 clear_junk (fun o c => clear_junk o = Ok c) objs
                  (fun a b H => H) cleared Hclear) as Hswept.
    clear - Hrows Hswept. revert cleared Hswept.
    induction Hrows as [|row obj rows objs Hrow _ IH]; intros cleared Hswept.
    + inversion Hswept. constructor.
    + inversion Hswept as [|? swept ? cleared' Hs Hswept']; subst.
      cbn [map]. constructor; [|apply IH; exact Hswept'].
      exists obj, swept. auto.
  - apply Forall_forall. intros o Ho. apply in_map_iff in Ho.
    destruct Ho as [o0 [<- Hin]].
    destruct (Forall2_In_right _ _ _ _ Hrel Hin) as [o1 [_ [c [attrs [_ ->]]]]].
    eexists. split; [reflexivity|].
    apply Forall_forall. intros kv Hkv. unfold prune_items in Hkv.
    apply filter_In in Hkv. exact (proj2 Hkv).
Qed.

Lemma attribute_value_never_made (r : record) (field : value) :
  exists e,
    make_attribute_value_from_record py_eval container_repr r field = Raise e.
Proof.
  unfold make_attribute_value_from_record.
  destruct (get_record_attr py_eval container_repr r field true) as [v|e].
  - exists TypeError. reflexivity.
  - exists e. reflexivity.
Qed.

(** X25.  [make_attribute_value_from_record] never returns: it hands
    [make_attribute_value] one argument too many.  So an attribute
    specification that is neither a text nor a mapping, or a mapping
    whose first value is neither a text, a list nor a mapping, never
    assigns anything: [set_nmdc_object] raises; so it does on the empty
    mapping, which has no first entry. *)
Theorem unsupported_specifications_raise (obj : value) (r : record)
  (attribute_map : list (string * string)) :
  (forall field,
     exists e,
       make_attribute_value_from_record py_eval container_repr r field = Raise e)
  /\ (forall af,
        (forall s, af <> VStr s) -> (forall d, af <> VDict d) ->
        exists e, set_object obj r attribute_map af = Raise e)
  /\ (forall k val others,
        (forall s, val <> VStr s) -> (forall l, val <> VList l) ->
        (forall d, val <> VDict d) ->
        exists e,
          set_object obj r attribute_map (VDict ((k, val) :: others)) = Raise e)
  /\ set_object obj r attribute_map (VDict []) = Raise IndexError.
Proof.
  split; [intros field; apply attribute_value_never_made|].
  assert (Hraise : forall (A B : Type) (m : result A) (k : A -> result B),
             (exists e, m = Raise e) -> exists e, bind m k = Raise e).
  { intros A B m k [e ->]. exists e. reflexivity. }
  split; [|split; [|reflexivity]].
  - intros af Hs Hd. unfold set_nmdc_object. apply Hraise.
    destruct af;
      try (apply Hraise; apply attribute_value_never_made).
    + exfalso. eapply Hs. reflexivity.
    + exfalso. eapply Hd. reflexivity.
  - intros k val others Hs Hl Hd. unfold set_nmdc_object. apply Hraise.
    destruct val;
      try (apply Hraise; apply attribute_value_never_made).
    + exfalso. eapply Hs. reflexivity.
    + exfalso. eapply Hl. reflexivity.
    + exfalso. eapply Hd. reflexivity.
Qed.

End DriverFacts.

Lemma unsupported_specifications_raise_witness :
  exists e,
    set_nmdc_object no_eval opaque_repr sample_nmdc
      (VObj "Biosample" [("id", VStr "s1")]) [("depth", VInt 3)] []
      (VDict [("depth", VInt 5)]) = Raise e.
Proof.
  apply (proj1 (proj2 (proj2
           (unsupported_specifications_raise no_eval opaque_repr sample_nmdc
              (VObj "Biosample" [("id", VStr "s1")]) [("depth", VInt 3)] []))));
    intros; discriminate.
Defined.

(** ** The further properties at concrete inputs *)

Lemma quantity_hook_frame_witness :
  Forall2 (same_but ["weight"])
    [VObj "Biosample"
       [("id", VStr "s1");
        ("weight", VDict [("has_raw_value", VStr "5.2 milligram")])]]
    [VObj "Biosample"
       [("id", VStr "s1");
        ("weight", VDict [("has_raw_value", VStr "5.2 milligram");
                          ("has_numeric_value", VFloat "5.2");
                          ("has_unit", VStr "milligram")])]].
Proof.
  apply (quantity_hook_frame opaque_repr numeral_float _ _ _
           [Executing "make_quantity_value" ["weight"]]).
  reflexivity.
Defined.

Lemma date_hook_frame_witness :
  Forall2 (same_but ["collected"])
    [VObj "Biosample" [("id", VStr "s1"); ("collected", VStr "30-OCT-14 AM")];
     VDict [("collected", VStr "30-OCT-14")]]
    [VObj "Biosample" [("id", VStr "s1"); ("collected", VStr "2014-10-30")];
     VDict [("collected", VStr "30-OCT-14")]].
Proof.
  apply (date_hook_frame opaque_repr _ _ _
           [Executing "make_iso_8601_date" ["collected"]]).
  reflexivity.
Defined.

Lemma quantity_keeps_raw_value_witness :
  exists d',
    obj_attr
      (VObj "Biosample"
         [("weight", VDict [("has_raw_value", VStr "5.2 milligram");
                            ("has_numeric_value", VFloat "5.2");
                            ("has_unit", VStr "milligram")])])
      "weight" = Some (VDict d')
    /\ dict_get "has_raw_value" d'
       = dict_get "has_raw_value" [("has_raw_value", VStr "5.2 milligram")]
    /\ forall k, k <> "has_numeric_value" -> k <> "has_unit" ->
                 dict_get k d'
                 = dict_get k [("has_raw_value", VStr "5.2 milligram")].
Proof.
  apply (quantity_keeps_raw_value opaque_repr numeral_float VDict "Biosample"
           [("weight", VDict [("has_raw_value", VStr "5.2 milligram")])]
           [("has_raw_value", VStr "5.2 milligram")] "weight");
    [left; reflexivity|reflexivity|reflexivity].
Defined.

Lemma hooks_on_missing_attribute_witness :
  make_quantity_value opaque_repr numeral_float
    [VObj "Biosample" [("id", VStr "s1")]] ["weight"]
  = Raise AttributeError
  /\ date_step opaque_repr "weight" (VObj "Biosample" [("id", VStr "s1")])
     = Ok (VObj "Biosample" [("id", VStr "s1")], []).
Proof.
  apply (proj1 (hooks_on_missing_attribute opaque_repr numeral_float "Biosample"
                  [("id", VStr "s1")] "weight" [] [])).
  reflexivity.
Defined.

Lemma date_hook_rerun_witness :
  date_step opaque_repr "collected"
    (VObj "Biosample" [("id", VStr "s1"); ("collected", VStr "2014-10-30")])
  = Ok (VObj "Biosample" [("id", VStr "s1"); ("collected", VStr "2014-10-30")],
        [PropertyError (VStr "s1") "collected" "2014-10-30"]).
Proof.
  apply (proj2 (date_hook_rerun opaque_repr "Biosample"
                  [("id", VStr "s1"); ("collected", VStr "30-OCT-14 AM")]
                  "collected" (VStr "30-OCT-14 AM") (VStr "s1") (2014, 10, 30)
                  eq_refl eq_refl eq_refl)).
Defined.

Lemma wrapped_pieces_are_texts_witness :
  [VStr "7"; VStr "8"] = [VNone] \/ Forall is_str [VStr "7"; VStr "8"].
Proof.
  apply (wrapped_pieces_are_texts no_eval opaque_repr
           [("gold_id", VStr "7|8")] (VStr ",")
           [("$field", VStr "gold_id"); ("$split_val", VStr "|")]);
    reflexivity.
Defined.

Lemma record_dict_entries_witness :
  dict_keys [("has_raw_value", VStr "5"); ("has_unit", VStr "meter, str")]
  = dict_keys
      (filter record_dict_keeps
         [("has_raw_value", VStr "depth");
          ("has_unit", VDict [("$const", VStr "meter, str")]);
          ("note", VDict [("$field", VStr "depth")]);
          ("$class_type", VStr "QuantityValue")])
  /\ dict_get "has_unit"
       [("has_raw_value", VStr "5"); ("has_unit", VStr "meter, str")]
     = Some (VStr "meter, str").
Proof.
  destruct (record_dict_entries no_eval opaque_repr [("depth", VStr "5")]
              [("has_raw_value", VStr "depth");
               ("has_unit", VDict [("$const", VStr "meter, str")]);
               ("note", VDict [("$field", VStr "depth")]);
               ("$class_type", VStr "QuantityValue")]
              [("has_raw_value", VStr "5"); ("has_unit", VStr "meter, str")]
              true)
    as [Hk [_ Hconst]].
  - repeat constructor; simpl; intuition discriminate.
  - reflexivity.
  - split; [exact Hk|].
    apply (Hconst "has_unit" (VStr "meter, str") []);
      [right; left; reflexivity|discriminate].
Defined.

Lemma unknown_type_name_witness :
  make_object_from_list_item_dict no_eval opaque_repr sample_nmdc piped_row
    [("id", VStr "A"); ("$class_type", VStr "Sample")]
  = (Raise AttributeError,
     dict_del "$class_type" [("id", VStr "A"); ("$class_type", VStr "Sample")]).
Proof.
  apply (proj1 (proj2 (unknown_type_name no_eval opaque_repr sample_nmdc
                         "Sample" eq_refl)));
    reflexivity.
Defined.

Lemma constructor_args_entries_witness :
  dict_keys [("id", VStr "s1"); ("alternate", VList [VStr "a,b"; VStr "lab"])]
  = dict_keys [("id", VStr "sample_id");
               ("alternate", VList [VStr "other_ids"; VStr "lab"])].
Proof.
  apply (constructor_args_entries no_eval opaque_repr sample_nmdc
           [("sample_id", VStr "s1"); ("other_ids", VStr "a,b")]
           [("id", VStr "sample_id");
            ("alternate", VList [VStr "other_ids"; VStr "lab"])]).
  - repeat constructor; simpl; intuition discriminate.
  - reflexivity.
Defined.

Lemma reference_and_wrapper_witness :
  make_object_from_list no_eval opaque_repr sample_nmdc piped_row
    [VStr " meter "] = Ok ([VStr "meter"], [VStr " meter "])
  /\ make_object_from_list no_eval opaque_repr sample_nmdc piped_row
       [VDict [("$field", VStr " meter ")]]
     = Ok ([VNone], [VDict [("$field", VStr " meter ")]]).
Proof.
  apply (proj2 (reference_and_wrapper no_eval opaque_repr sample_nmdc piped_row
                  " meter " "meter" "str" eq_refl));
    reflexivity.
Defined.

Lemma crosswalk_rows_witness :
  exists row,
    In row sample_table
    /\ predicate_id row = "skos:exactMatch"
    /\ subject_label row = "depth" /\ object_label row = "depth".
Proof.
  apply (proj1 (crosswalk_rows (fun _ => sample_table) sample_table
                  "gold-to-mixs.tsv" ltac:(discriminate))).
  reflexivity.
Defined.

Lemma one_attribute_assigned_witness :
  exists f av,
    assigned_field (VStr "depth, float") = Some f
    /\ VObj "Biosample" [("id", VStr "s1"); ("depth_m", VNone)]
       = VObj "Biosample"
           (dict_set (crosswalk_target [("depth", "depth_m")] f) av
              [("id", VStr "s1")])
    /\ (forall k, k <> crosswalk_target [("depth", "depth_m")] f ->
                  obj_attr (VObj "Biosample"
                              [("id", VStr "s1"); ("depth_m", VNone)]) k
                  = dict_get k [("id", VStr "s1")])
    /\ crosswalk_target [] f = f.
Proof.
  apply (one_attribute_assigned no_eval opaque_repr sample_nmdc "Biosample"
           [("id", VStr "s1")] [("depth", VNaN)] [("depth", "depth_m")]
           (VStr "depth, float") _ (VStr "depth, float")).
  reflexivity.
Defined.

Lemma row_object_class_witness :
  exists attrs,
    VObj "Biosample" [("id", VStr "s1"); ("type", VStr "nmdc:Biosample")]
    = VObj (class_name biosample) attrs
    /\ List.length (@nil value) = List.length (@nil value)
    /\ (@nil value = [] ->
        dict_get "type" attrs = Some (VStr (class_class_curie biosample))).
Proof.
  apply (row_object_class no_eval opaque_repr sample_nmdc biosample
           sample_constructor [] [] [] unit_row).
  reflexivity.
Defined.

Lemma one_mapping_per_row_witness :
  Forall2 (fun row o =>
             exists obj swept,
               make_nmdc_object no_eval opaque_repr sample_nmdc biosample
                 sample_constructor unit_fields [] row
               = Ok (obj, unit_fields)
               /\ clear_junk obj = Ok swept
               /\ o = make_dict_from_nmdc_obj swept)
          [unit_row; unlocated_row]
          [VDict [("id", VStr "s1"); ("type", VStr "nmdc:Biosample");
                  ("lat_lon", VDict [("has_raw_value", VStr "-33.46 150.17")])];
           VDict [("id", VStr "s2"); ("type", VStr "nmdc:Biosample")]].
Proof.
  apply (proj1 (one_mapping_per_row no_eval opaque_repr numeral_float
                  sample_nmdc no_pre no_post [unit_row; unlocated_row] biosample
                  sample_constructor unit_fields [] no_transforms _
                  eq_refl eq_refl eq_refl)).
Defined.
